(** * Study Organizer: the review scheduler and its stores

    A shallow embedding of [main.py]: the plain-text stores, the task
    registry, the SM-2 style review scheduler and the two query commands,
    followed by the properties of the scheduler that the specification
    states and by further properties of the rest of the program: the files
    as text, the subjects, the study sessions and the command line.

    Modelling conventions.
    - Python [float] is IEEE 754 binary64, and so is Rocq's primitive
    [float]: arithmetic and comparisons are the primitive ones, literals
    denote the nearest binary64 value as in Python.
    - Python [int] is [Z].
    - [datetime.date] is its proleptic Gregorian ordinal ([date.toordinal]),
    a [Z] between 1 and 3652059.
    - The four data files are kept as the lists of records that the loaders
    return; what [_save_reviews] does to a record on its way through the
    file (the ease is printed with two decimals) is written out.
    - [print] appends a structured message to the output of the run.
    - A Python exception ends the command; the stores keep what was written
    before it was raised. *)

From Stdlib Require Import ZArith List Bool String Ascii Lia Floats.
From Stdlib Require Import Permutation Sorted.
Import ListNotations.

Set Warnings "-inexact-float".

#[local] Open Scope Z_scope.

(** ** Exceptions and fallible values *)

Inductive exn : Type :=
| OverflowError
| ValueError.

Inductive result (A : Type) : Type :=
| Val (a : A)
| Exc (e : exn).

Arguments Val {A} a.
Arguments Exc {A} e.

Definition result_bind {A B : Type} (r : result A) (k : A -> result B) : result B :=
  match r with
  | Val a => k a
  | Exc e => Exc e
  end.

(** ** Python numbers *)

Module PyNum.

(** [float(n)] for an [int]: the nearest binary64 value, ties to even;
    [OverflowError] when that value would not be finite. *)
Definition float_of_int (n : Z) : result float :=
    match binary_normalize prec emax n 0 false with
    | S754_infinity _ => Exc OverflowError
    | S754_nan => Exc OverflowError
    | f => Val (SF2Prim f)
    end.

(** [m / 2^k] rounded to the nearest integer, ties to the even one. *)
Definition round_half_even_shift (m : Z) (k : Z) : Z :=
    let d := 2 ^ k in
    let q := m / d in
    let r := m mod d in
    match 2 * r ?= d with
    | Lt => q
    | Gt => q + 1
    | Eq => if Z.even q then q else q + 1
    end.

(** [round(x)] with one argument: the nearest [int], ties to even;
    [OverflowError] on an infinity, [ValueError] on a NaN. *)
Definition py_round (x : float) : result Z :=
    match Prim2SF x with
    | S754_zero _ => Val 0
    | S754_infinity _ => Exc OverflowError
    | S754_nan => Exc ValueError
    | S754_finite s m e =>
      let a := if 0 <=? e then Z.pos m * 2 ^ e
               else round_half_even_shift (Z.pos m) (- e) in
      Val (if s then - a else a)
    end.

(** [max(a, b)] on floats: Python keeps the first argument unless the
    second is strictly greater. *)
Definition fmax (a b : float) : float :=
    if PrimFloat.ltb a b then b else a.

(** [n * x] for an [int] n and a [float] x. *)
Definition int_mul_float (n : Z) (x : float) : result float :=
    result_bind (float_of_int n) (fun f => Val (PrimFloat.mul f x)).

(** [float(f"{e:.2f}")]: what a float is after [_save_reviews] has printed
    it with two decimals and [_parse_review] has read it back. The printed
    digits are the exact value times 100 rounded to an integer, ties to
    even; reading them gives the binary64 value nearest to that many
    hundredths. *)
Definition two_decimals (e : float) : float :=
    match Prim2SF e with
    | S754_finite s m ex =>
      let k := if 0 <=? ex then Z.pos m * 2 ^ ex * 100
               else round_half_even_shift (Z.pos m * 100) (- ex) in
      match k with
      | Z.pos p =>
          SF2Prim (SFdiv prec emax (S754_finite s p 0) (S754_finite false 100 0))
      | _ => SF2Prim (S754_zero s)
      end
    | _ => e
    end.

End PyNum.

(** ** Dates *)

Module Date.

(** A [datetime.date], as its ordinal. *)
Definition date : Type := Z.

(** [date.min.toordinal()] and [date.max.toordinal()]. *)
Definition MINORDINAL : Z := 1.
Definition MAXORDINAL : Z := 3652059.

(** Largest magnitude of [timedelta(days=...)]. *)
Definition MAX_DELTA_DAYS : Z := 999999999.

(** [d + timedelta(days=n)]: [OverflowError] when the [timedelta] cannot
    be built or the sum leaves the range of [date]. *)
Definition add_days (d : date) (n : Z) : result date :=
    if MAX_DELTA_DAYS <? Z.abs n then Exc OverflowError
    else if (MINORDINAL <=? d + n) && (d + n <=? MAXORDINAL) then Val (d + n)
    else Exc OverflowError.

End Date.

Import Date.

(** ** Records and stores *)

Definition STATUS_TODO : string := "todo".
Definition STATUS_DOING : string := "doing".
Definition STATUS_DONE : string := "done".

(** A line of [tasks.txt] as [_parse_task] returns it; [id] is the integer
    that [int(t["id"])] reads. *)
Record task : Type := mk_task {
  id : Z;
  subject : string;
  title : string;
  status : string
}.

(** A line of [reviews.txt] as [_parse_review] returns it: the tuple
    [(task_id, interval_days, due, ease)]. *)
Record review : Type := mk_review {
  task_id : Z;
  interval_days : Z;
  due : date;
  ease : float
}.

(** The four data files. *)
Record files : Type := mk_files {
  SUBJECTS_FILE : list string;
  TASKS_FILE : list task;
  REVIEWS_FILE : list review;
  SESSIONS_FILE : list string
}.

(** A row of the table that [cmd_review_due] prints. *)
Record due_row : Type := mk_due_row {
  row_review : review;
  row_subject : string;
  row_title : string;
  row_flag : string
}.

(** A row of the table that [cmd_list_tasks] prints; [lrow_due] is [None]
    where the table shows a dash. *)
Record task_row : Type := mk_task_row {
  lrow_task : task;
  lrow_due : option date;
  lrow_flag : string
}.

(** What the commands print. *)
Inductive output : Type :=
| out_usage_add_task
| out_added_task (next_id : Z) (subject title : string)
| out_no_matching_tasks
| out_task_table (rows : list task_row)
| out_status_updated (task_id : Z) (subject title new_status : string)
| out_task_not_found (task_id : Z)
| out_next_review (task_id interval : Z) (due : date)
| out_no_reviews_due (nxt : date)
| out_no_reviews_scheduled
| out_due_table (rows : list due_row)
| out_cleared_all
| out_usage_clear
| out_cleared (target : string).

(** The world a command runs in: the files, the clock and the terminal. *)
Record world : Type := mk_world {
  fs : files;
  clock : date;
  stdout : list output
}.

(** ** Commands: state, output and exceptions *)

Inductive outcome (A : Type) : Type :=
| Ok (a : A) (w : world)
| Raise (e : exn) (w : world).

Arguments Ok {A} a w.
Arguments Raise {A} e w.

Definition M (A : Type) : Type := world -> outcome A.

Definition ret {A : Type} (a : A) : M A := fun w => Ok a w.

Definition bind {A B : Type} (c : M A) (k : A -> M B) : M B :=
  fun w =>
    match c w with
    | Ok a w' => k a w'
    | Raise e w' => Raise e w'
    end.

Notation "x <- c ;; k" := (bind c (fun x => k))
  (at level 61, c at next level, right associativity).
Notation "c ;;; k" := (bind c (fun _ => k))
  (at level 61, right associativity).

Definition lift {A : Type} (r : result A) : M A :=
  fun w =>
    match r with
    | Val a => Ok a w
    | Exc e => Raise e w
    end.

Definition print (o : output) : M unit :=
  fun w => Ok tt (mk_world (fs w) (clock w) (stdout w ++ [o])).

(** [date.today()] *)
Definition date_today : M date := fun w => Ok (clock w) w.

Definition read_files : M files := fun w => Ok (fs w) w.

Definition write_files (f : files) : M unit :=
  fun w => Ok tt (mk_world f (clock w) (stdout w)).

(** ** The program *)

Section Program.

(** [str.strip] and [str.lower]: the program only applies them and compares
    the results, so they stay abstract. *)
Variable strip : string -> string.
Variable lower : string -> string.

(** *** Subjects *)

Definition subjects_list : M (list string) :=
  f <- read_files ;;
  ret (filter (fun s => negb (String.eqb s "")) (map strip (SUBJECTS_FILE f))).

(** [_append(SUBJECTS_FILE, subject)] in [cmd_add_task]: the name becomes
    the last line of the file. That is what the file gives back when the
    name is a single line; the properties of [cmd_add_task] that speak of
    the stores take a subject with no line feed and no carriage return. *)
Definition append_subject (name : string) : M unit :=
  f <- read_files ;;
  write_files (mk_files (SUBJECTS_FILE f ++ [name]) (TASKS_FILE f)
                        (REVIEWS_FILE f) (SESSIONS_FILE f)).

(** *** Tasks *)

Definition tasks_list : M (list task) :=
  f <- read_files ;;
  ret (TASKS_FILE f).

(** The task store keeps the records that were saved. The file gives a
    record back as it was saved when its fields are single lines with no
    bar that [strip] leaves as they are, as the fields of a task that was
    read are; the properties of [cmd_add_task] that speak of the task store
    take such a subject and title, and [Text] below has the lines of the
    file themselves. *)
Definition _save_tasks (tasks : list task) : M unit :=
  f <- read_files ;;
  write_files (mk_files (SUBJECTS_FILE f) tasks (REVIEWS_FILE f) (SESSIONS_FILE f)).

(** *** Reviews *)

Definition load_reviews : M (list review) :=
  f <- read_files ;;
  ret (REVIEWS_FILE f).

(** The record that a later [load_reviews] finds for a record given to
    [_save_reviews]. *)
Definition saved (r : review) : review :=
  mk_review (task_id r) (interval_days r) (due r) (PyNum.two_decimals (ease r)).

Definition _save_reviews (reviews : list review) : M unit :=
  f <- read_files ;;
  write_files (mk_files (SUBJECTS_FILE f) (TASKS_FILE f) (map saved reviews)
                        (SESSIONS_FILE f)).

(** The loop of [upsert_review]: the list with the first record of the task
    replaced, or [None] when the loop ends without a match. *)
Fixpoint replace_first (tid : Z) (new : review) (reviews : list review)
  : option (list review) :=
  match reviews with
  | [] => None
  | r :: rest =>
      if task_id r =? tid then Some (new :: rest)
      else match replace_first tid new rest with
           | Some rest' => Some (r :: rest')
           | None => None
           end
  end.

Definition upsert_review (tid interval : Z) (d : date) (e : float) : M unit :=
  reviews <- load_reviews ;;
  match replace_first tid (mk_review tid interval d e) reviews with
  | Some reviews' => _save_reviews reviews'
  | None => _save_reviews (reviews ++ [mk_review tid interval d e])
  end.

Definition _update_ease (e : float) (quality : Z) : result float :=
  result_bind (PyNum.float_of_int (5 - quality)) (fun k =>
  let delta := (0.1 - k * (0.08 + k * 0.02))%float in
  Val (PyNum.fmax 1.3%float (e + delta)%float)).

(** Lines 209 to 212 of [cmd_review]: the new interval from the quality,
    the prior interval and the updated ease. *)
Definition next_interval (quality interval : Z) (e : float) : result Z :=
  if quality <? 3 then Val 1
  else if (interval =? 0) || (interval =? 1) then Val 6
  else result_bind (PyNum.int_mul_float interval e) (fun x =>
       result_bind (PyNum.py_round x) (fun n =>
       Val (Z.max 1 n))).

Definition cmd_review (tid quality : Z) : M unit :=
  reviews <- load_reviews ;;
  today <- date_today ;;
  let existing := find (fun r => task_id r =? tid) reviews in
  let '(interval, e) :=
    match existing with
    | None => (1, 2.5%float)
    | Some r => (interval_days r, ease r)
    end in
  e <- lift (_update_ease e quality) ;;
  interval <- lift (next_interval quality interval e) ;;
  d <- lift (add_days today interval) ;;
  upsert_review tid interval d e ;;;
  print (out_next_review tid interval d).

(** *** Task commands *)

Definition cmd_add_task (subject0 title0 : string) : M unit :=
  let subject := strip subject0 in
  let title := strip title0 in
  if String.eqb subject "" || String.eqb title "" then print out_usage_add_task
  else
    subs <- subjects_list ;;
    (if existsb (String.eqb (lower subject)) (map lower subs) then ret tt
     else append_subject subject) ;;;
    tasks <- tasks_list ;;
    let next_id :=
      match tasks with
      | [] => 1
      | t :: rest => fold_left Z.max (map id rest) (id t) + 1
      end in
    _save_tasks (tasks ++ [mk_task next_id subject title STATUS_TODO]) ;;;
    today <- date_today ;;
    upsert_review next_id 1 today 2.5%float ;;;
    print (out_added_task next_id subject title).

(** The loop of [cmd_update_status]: the first task with the id, and the
    list with its status overwritten. *)
Fixpoint set_status_first (tid : Z) (new_status : string) (tasks : list task)
  : option (task * list task) :=
  match tasks with
  | [] => None
  | t :: rest =>
      if id t =? tid
      then Some (t, mk_task (id t) (subject t) (title t) new_status :: rest)
      else match set_status_first tid new_status rest with
           | Some (t0, rest') => Some (t0, t :: rest')
           | None => None
           end
  end.

Definition cmd_update_status (tid : Z) (new_status : string) : M unit :=
  tasks <- tasks_list ;;
  match set_status_first tid new_status tasks with
  | Some (t, tasks') =>
      _save_tasks tasks' ;;;
      print (out_status_updated tid (subject t) (title t) new_status)
  | None => print (out_task_not_found tid)
  end.

(** [{k: v for ...}.get(key)]: of several entries with one key the dict
    keeps the last. *)
Definition dict_get {V : Type} (entries : list (Z * V)) (key : Z) : option V :=
  fold_left (fun acc kv => if fst kv =? key then Some (snd kv) else acc)
            entries None.

(** [due_str] is the ISO text of a date; [_overdue_flag] reads back the date
    that was printed. *)
Definition _overdue_flag (due_str : option date) : M string :=
  match due_str with
  | None => ret ""%string
  | Some d =>
      today <- date_today ;;
      ret (if d <? today then "OVERDUE"%string else ""%string)
  end.

Fixpoint mapM {A B : Type} (f : A -> M B) (l : list A) : M (list B) :=
  match l with
  | [] => ret []
  | a :: rest => b <- f a ;; bs <- mapM f rest ;; ret (b :: bs)
  end.

Definition cmd_list_tasks (subject_filter status_filter : option string) : M unit :=
  tasks <- tasks_list ;;
  let tasks :=
    match subject_filter with
    | Some s =>
        if negb (String.eqb s "")
        then filter (fun t => String.eqb (lower (subject t)) (lower s)) tasks
        else tasks
    | None => tasks
    end in
  let tasks :=
    match status_filter with
    | Some s =>
        if negb (String.eqb s "")
        then filter (fun t => String.eqb (lower (status t)) (lower s)) tasks
        else tasks
    | None => tasks
    end in
  match tasks with
  | [] => print out_no_matching_tasks
  | _ =>
      reviews <- load_reviews ;;
      let due_map := map (fun r => (task_id r, due r)) reviews in
      rows <- mapM (fun t =>
                flag <- _overdue_flag
                          (if negb (String.eqb (status t) STATUS_DONE)
                           then dict_get due_map (id t) else None) ;;
                ret (mk_task_row t (dict_get due_map (id t)) flag)) tasks ;;
      print (out_task_table rows)
  end.

(** *** Due query *)

(** The key [(r[2], r[0])] compared as Python compares tuples. *)
Definition key_leb (a b : review) : bool :=
  (due a <? due b) || ((due a =? due b) && (task_id a <=? task_id b)).

Fixpoint insert_sorted (x : review) (l : list review) : list review :=
  match l with
  | [] => [x]
  | y :: rest => if key_leb x y then x :: y :: rest else y :: insert_sorted x rest
  end.

(** [sorted(items, key=lambda r: (r[2], r[0]))]: the stable sort. *)
Definition sorted (items : list review) : list review :=
  fold_right insert_sorted [] items.

(** [min(all_r, key=lambda r: r[2])]: the first record among those with the
    least due date. *)
Definition min_by_due (first : review) (rest : list review) : review :=
  fold_left (fun best r => if due r <? due best then r else best) rest first.

Definition cmd_review_due (on : option date) : M unit :=
  today <- date_today ;;
  let on := match on with Some d => d | None => today end in
  reviews <- load_reviews ;;
  let items := filter (fun r => due r <=? on) reviews in
  match items with
  | [] =>
      all_r <- load_reviews ;;
      match all_r with
      | r :: rest => print (out_no_reviews_due (due (min_by_due r rest)))
      | [] => print out_no_reviews_scheduled
      end
  | _ =>
      ts <- tasks_list ;;
      let tasks := map (fun t => (id t, t)) ts in
      rows <- mapM (fun r =>
                today <- date_today ;;
                ret (mk_due_row r
                       (match dict_get tasks (task_id r) with
                        | Some t => subject t | None => "?" end)
                       (match dict_get tasks (task_id r) with
                        | Some t => title t | None => "<missing>" end)
                       (if due r <? today then "OVERDUE" else "DUE"))) (sorted items) ;;
      print (out_due_table rows)
  end.

(** *** Clear *)

Definition cmd_clear (target : string) : M unit :=
  f <- read_files ;;
  if String.eqb target "all" then
    write_files (mk_files [] [] [] []) ;;; print out_cleared_all
  else if String.eqb target "subjects" then
    write_files (mk_files [] (TASKS_FILE f) (REVIEWS_FILE f) (SESSIONS_FILE f)) ;;;
    print (out_cleared target)
  else if String.eqb target "tasks" then
    write_files (mk_files (SUBJECTS_FILE f) [] (REVIEWS_FILE f) (SESSIONS_FILE f)) ;;;
    print (out_cleared target)
  else if String.eqb target "reviews" then
    write_files (mk_files (SUBJECTS_FILE f) (TASKS_FILE f) [] (SESSIONS_FILE f)) ;;;
    print (out_cleared target)
  else if String.eqb target "sessions" then
    write_files (mk_files (SUBJECTS_FILE f) (TASKS_FILE f) (REVIEWS_FILE f) []) ;;;
    print (out_cleared target)
  else print out_usage_clear.

(** *** The [done] branch of [main], after [int(argv[1])] *)

Definition main_done (tid : Z) : M unit :=
  cmd_update_status tid STATUS_DONE ;;;
  cmd_review tid 4.

End Program.

Arguments dict_get {V} entries key.
Arguments mapM {A B} f l.

(** * Notions for the statements *)

(** ** What a command leaves behind *)

(** The world after a command, returned or raised. *)
Definition world_of {A : Type} (o : outcome A) : world :=
  match o with
  | Ok _ w => w
  | Raise _ w => w
  end.

Definition reviews_in (w : world) : list review := REVIEWS_FILE (fs w).
Definition tasks_in (w : world) : list task := TASKS_FILE (fs w).

Definition with_reviews (f : files) (reviews : list review) : files :=
  mk_files (SUBJECTS_FILE f) (TASKS_FILE f) reviews (SESSIONS_FILE f).

Definition with_tasks (f : files) (tasks : list task) : files :=
  mk_files (SUBJECTS_FILE f) tasks (REVIEWS_FILE f) (SESSIONS_FILE f).

Definition say (w : world) (o : output) : world :=
  mk_world (fs w) (clock w) (stdout w ++ [o]).

(** ** Reviews *)

(** The record of a task in the review store, as [cmd_review] looks it up. *)
Definition review_of (tid : Z) (reviews : list review) : option review :=
  find (fun r => task_id r =? tid) reviews.

(** The interval and ease [cmd_review] starts from. *)
Definition prior (tid : Z) (reviews : list review) : Z * float :=
  match review_of tid reviews with
  | None => (1, 2.5%float)
  | Some r => (interval_days r, ease r)
  end.

(** The list [upsert_review] hands to [_save_reviews]. *)
Definition upserted (new : review) (reviews : list review) : list review :=
  match replace_first (task_id new) new reviews with
  | Some reviews' => reviews'
  | None => reviews ++ [new]
  end.

(** The [delta] of [_update_ease] for a quality whose [5 - quality] is the
    float [k]. *)
Definition ease_delta (k : float) : float := (0.1 - k * (0.08 + k * 0.02))%float.

(** ** Tasks *)

Definition task_of (tid : Z) (tasks : list task) : option task :=
  find (fun t => id t =? tid) tasks.

(** The task list [cmd_update_status] leaves behind. *)
Definition status_set (tid : Z) (new_status : string) (tasks : list task) : list task :=
  match set_status_first tid new_status tasks with
  | Some (_, tasks') => tasks'
  | None => tasks
  end.

(** [(max([int(t["id"]) for t in tasks]) + 1) if tasks else 1] *)
Definition next_task_id (tasks : list task) : Z :=
  match tasks with
  | [] => 1
  | t :: rest => fold_left Z.max (map id rest) (id t) + 1
  end.

(** The tasks [cmd_list_tasks] keeps after its two filters. *)
Definition selected_tasks (lower : string -> string)
  (subject_filter status_filter : option string) (tasks : list task) : list task :=
  let tasks :=
    match subject_filter with
    | Some s =>
        if negb (String.eqb s "")
        then filter (fun t => String.eqb (lower (subject t)) (lower s)) tasks
        else tasks
    | None => tasks
    end in
  match status_filter with
  | Some s =>
      if negb (String.eqb s "")
      then filter (fun t => String.eqb (lower (status t)) (lower s)) tasks
      else tasks
  | None => tasks
  end.

(** ** Query rows *)

(** The records the due query selects. *)
Definition due_items (on : option date) (w : world) : list review :=
  filter (fun r => due r <=? match on with Some d => d | None => clock w end)
         (reviews_in w).

Definition key_le (a b : review) : Prop :=
  due a < due b \/ (due a = due b /\ task_id a <= task_id b).

Definition due_flag (today : date) (r : review) : string :=
  if due r <? today then "OVERDUE" else "DUE".

Definition due_row_of (today : date) (tasks : list task) (r : review) : due_row :=
  mk_due_row r
    (match dict_get (map (fun t => (id t, t)) tasks) (task_id r) with
     | Some t => subject t | None => "?" end)
    (match dict_get (map (fun t => (id t, t)) tasks) (task_id r) with
     | Some t => title t | None => "<missing>" end)
    (due_flag today r).

(** The flag of a row of [cmd_list_tasks] and of a row of [cmd_review_due]. *)
Definition list_flag (today : date) (reviews : list review) (t : task) : string :=
  match (if negb (String.eqb (status t) STATUS_DONE)
         then dict_get (map (fun r => (task_id r, due r)) reviews) (id t)
         else None) with
  | None => ""
  | Some d => if d <? today then "OVERDUE" else ""
  end.

Definition list_row (today : date) (reviews : list review) (t : task) : task_row :=
  mk_task_row t (dict_get (map (fun r => (task_id r, due r)) reviews) (id t))
              (list_flag today reviews t).

(** ** Example worlds

    The clock of each stands at day 739923, which is 2026-11-03. *)

(** [str.strip] and [str.lower] on ASCII text, for the examples. *)
Module AsciiText.

Definition is_space (c : ascii) : bool :=
  let n := nat_of_ascii c in
  (Nat.eqb n 32 || (Nat.leb 9 n && Nat.leb n 13))%bool.

Definition lower_char (c : ascii) : ascii :=
  let n := nat_of_ascii c in
  if (Nat.leb 65 n && Nat.leb n 90)%bool then ascii_of_nat (n + 32) else c.

Fixpoint lower (s : string) : string :=
  match s with
  | EmptyString => EmptyString
  | String c rest => String (lower_char c) (lower rest)
  end.

Fixpoint lstrip (s : string) : string :=
  match s with
  | EmptyString => EmptyString
  | String c rest => if is_space c then lstrip rest else s
  end.

Fixpoint rstrip (s : string) : string :=
  match s with
  | EmptyString => EmptyString
  | String c rest =>
      match rstrip rest with
      | EmptyString => if is_space c then EmptyString else String c EmptyString
      | kept => String c kept
      end
  end.

Definition strip (s : string) : string := rstrip (lstrip s).

End AsciiText.

Definition no_files : files := mk_files [] [] [] [].

Definition fresh_world : world := mk_world no_files 739923 [].

(** Task 1 as [add-task Math Algebra] leaves it. *)
Definition one_task_world : world :=
  mk_world
    (mk_files ["Math"%string]
              [mk_task 1 "Math" "Algebra" STATUS_TODO]
              [mk_review 1 1 739923 2.5%float]
              [])
    739923 [].

(** Task 1 was marked done a week ago; its review fell due yesterday. *)
Definition done_and_overdue : world :=
  mk_world
    (mk_files ["Math"%string]
              [mk_task 1 "Math" "Algebra" STATUS_DONE]
              [mk_review 1 6 739922 2.5%float]
              [])
    739923 [].

(** Three tasks and a logged session. *)
Definition three_tasks : world :=
  mk_world
    (mk_files ["Math"%string]
              [mk_task 1 "Math" "Algebra" STATUS_TODO;
               mk_task 2 "Math" "Calculus" STATUS_DOING;
               mk_task 3 "Math" "Logic" STATUS_DONE]
              [mk_review 1 1 739923 2.5%float;
               mk_review 2 1 739923 2.5%float;
               mk_review 3 6 739929 2.5%float]
              ["2026-11-03|Math|1|30|"%string])
    739923 [].

(** * The data files as text

    [_read], [_write] and [_append] on the text of a file, the lines of
    [tasks.txt], and the table printer. A [str] is the string of its
    characters. The files are opened in text mode on a system whose line
    separator is the line feed, so what is written is what the file holds,
    and reading turns every carriage return, with the line feed after it if
    there is one, into a line feed. *)

Module Text.

Definition LF : ascii := "010"%char.
Definition CR : ascii := "013"%char.
Definition BAR : ascii := "|"%char.

(** The text of a file; [None] where there is no such file. *)
Definition file : Type := option string.

(** [sep.join(parts)] *)
Definition join (sep : string) (parts : list string) : string :=
  String.concat sep parts.

Definition _write (lines : list string) : file :=
  Some (join (String LF "") lines ++
        match lines with [] => "" | _ :: _ => String LF "" end)%string.

Definition _append (f : file) (line : string) : file :=
  Some (match f with Some text => text | None => ""%string end ++
        line ++ String LF "")%string.

(** What a read in text mode makes of the text of the file. *)
Fixpoint universal_newlines (text : string) : string :=
  match text with
  | EmptyString => EmptyString
  | String c rest =>
      if Ascii.eqb c CR then
        match rest with
        | String c' rest' =>
            if Ascii.eqb c' LF then String LF (universal_newlines rest')
            else String LF (universal_newlines rest)
        | EmptyString => String LF EmptyString
        end
      else String c (universal_newlines rest)
  end.

(** [for ln in f]: the lines, each with the line feed that ends it. *)
Fixpoint file_lines (text : string) : list string :=
  match text with
  | EmptyString => []
  | String c rest =>
      if Ascii.eqb c LF then String c "" :: file_lines rest
      else match file_lines rest with
           | [] => [String c ""]
           | ln :: lns => String c ln :: lns
           end
  end.

(** [ln.rstrip("\n")] *)
Fixpoint rstrip_newlines (s : string) : string :=
  match s with
  | EmptyString => EmptyString
  | String c rest =>
      match rstrip_newlines rest with
      | EmptyString => if Ascii.eqb c LF then EmptyString else String c EmptyString
      | kept => String c kept
      end
  end.

Definition _read (f : file) : list string :=
  match f with
  | None => []
  | Some text => map rstrip_newlines (file_lines (universal_newlines text))
  end.

(** [s.split(sep)] with a separator of one character. *)
Fixpoint split (sep : ascii) (s : string) : list string :=
  match s with
  | EmptyString => [EmptyString]
  | String c rest =>
      if Ascii.eqb c sep then EmptyString :: split sep rest
      else match split sep rest with
           | [] => [String c EmptyString]
           | p :: ps => String c p :: ps
           end
  end.

(** *** Tasks *)

(** The [dict] that [_parse_task] returns. *)
Record task : Type := mk_task {
  id : string;
  subject : string;
  title : string;
  status : string
}.

Section Tasks.

Variable strip : string -> string.

Definition _parse_task (line : string) : option task :=
  match map strip (split BAR line) with
  | [a; b; c; d] => Some (mk_task a b c d)
  | _ => None
  end.

Definition tasks_list (f : file) : list task :=
  flat_map (fun ln => match _parse_task ln with Some t => [t] | None => [] end)
           (_read f).

Definition task_line (t : task) : string :=
  join "|" [id t; subject t; title t; status t].

Definition _save_tasks (tasks : list task) : file :=
  _write (map task_line tasks).

End Tasks.

(** *** The table *)

(** [c * n] *)
Fixpoint replicate (n : nat) (c : ascii) : string :=
  match n with
  | O => EmptyString
  | S n' => String c (replicate n' c)
  end.

(** [s.ljust(width)] *)
Definition ljust (s : string) (width : nat) : string :=
  (s ++ replicate (width - String.length s) " ")%string.

(** The inner loop of [_table] over the cells of a row; [None] is the
    [IndexError] of a row with more cells than there are headers. *)
Fixpoint widen (widths : list nat) (row : list string) : option (list nat) :=
  match row with
  | [] => Some widths
  | cell :: cells =>
      match widths with
      | [] => None
      | w :: ws =>
          match widen ws cells with
          | Some ws' => Some (Nat.max w (String.length cell) :: ws')
          | None => None
          end
      end
  end.

Fixpoint column_widths (widths : list nat) (rows : list (list string))
  : option (list nat) :=
  match rows with
  | [] => Some widths
  | row :: rest =>
      match widen widths row with
      | Some widths' => column_widths widths' rest
      | None => None
      end
  end.

(** [" | ".join(cell.ljust(widths[i]) for i, cell in enumerate(cells))] *)
Definition cells_line (widths : list nat) (cells : list string) : string :=
  join " | " (map (fun cw => ljust (fst cw) (snd cw)) (combine cells widths)).

(** The lines that [_table] prints; [None] when it raises [IndexError],
    which it does before it prints. *)
Definition _table (headers : list string) (rows : list (list string))
  : option (list string) :=
  match column_widths (map String.length headers) rows with
  | None => None
  | Some widths =>
      Some (cells_line widths headers
            :: join "-+-" (map (fun w => replicate w "-") widths)
            :: map (cells_line widths) rows)
  end.

(** *** Notions for the statements *)

(** [c in s] *)
Fixpoint contains (c : ascii) (s : string) : bool :=
  match s with
  | EmptyString => false
  | String c' rest => Ascii.eqb c' c || contains c rest
  end.

(** How often [c] is in [s]. *)
Fixpoint count (c : ascii) (s : string) : nat :=
  match s with
  | EmptyString => O
  | String c' rest => ((if Ascii.eqb c' c then 1 else 0) + count c rest)%nat
  end.

(** The text of the lines, each ended by a line feed. *)
Definition unlines (lines : list string) : string :=
  fold_right (fun l acc => (l ++ String LF acc)%string) ""%string lines.

(** Neither a line feed nor a carriage return. *)
Definition one_line (s : string) : bool :=
  negb (contains LF s) && negb (contains CR s).

(** Empty, or ending in a line feed. *)
Fixpoint terminated_text (text : string) : bool :=
  match text with
  | EmptyString => true
  | String c EmptyString => Ascii.eqb c LF
  | String _ rest => terminated_text rest
  end.

Definition terminated (f : file) : bool :=
  match f with
  | None => true
  | Some text => terminated_text text
  end.

(** A field that the task file gives back as it was written. *)
Definition clean_field (strip : string -> string) (s : string) : bool :=
  one_line s && negb (contains BAR s) && String.eqb (strip s) s.

Definition clean_task (strip : string -> string) (t : task) : bool :=
  clean_field strip (id t) && clean_field strip (subject t) &&
  clean_field strip (title t) && clean_field strip (status t).

(** A field of one line that [strip] leaves as it is, as the fields of a
    task that was read are. *)
Definition stripped_field (strip : string -> string) (s : string) : bool :=
  one_line s && String.eqb (strip s) s.

Definition stripped_task (strip : string -> string) (t : task) : bool :=
  stripped_field strip (id t) && stripped_field strip (subject t) &&
  stripped_field strip (title t) && stripped_field strip (status t).

(** A bar in one of the fields. *)
Definition barred (t : task) : bool :=
  contains BAR (id t) || contains BAR (subject t) ||
  contains BAR (title t) || contains BAR (status t).

(** The cells are no wider than the columns. *)
Definition fits (cells : list string) (widths : list nat) : Prop :=
  Forall2 (fun c w => (String.length c <= w)%nat) cells widths.

(** The width of a line of the table. *)
Definition line_width (widths : list nat) : nat :=
  (list_sum widths + 3 * (List.length widths - 1))%nat.

End Text.

(** * Subjects, sessions and the command line

    The commands that the scheduler leaves out, [cmd_add_subject],
    [cmd_list_subjects], [cmd_log], [cmd_report] and [cmd_today], and
    [main], which reads the command line and calls them all.

    Further conventions.
    - The subjects and the sessions are kept as the lines that [_read]
    returns, the tasks and the reviews as the records of the loaders, as
    before. [_append] adds the lines that [_read] finds in what it writes,
    which is what a later [_read] returns when the file is empty or ends
    in a line feed, as every file that the program has written does.
    - [_ensure_files] creates the files that are missing, empty; a missing
    file and an empty one are read alike, so [main] is modelled without
    it.
    - [int], [str] on an [int], [date.isoformat], [strptime], [str.strip]
    and [str.lower] are parameters of the commands. [str] is total: the
    limit that recent versions of Python put on the number of digits of a
    conversion is left out.
    - [main] returns the exit status; an exception that it does not catch
    ends the run with the files as they were when it was raised. *)

(** A row of the table of reviews that [cmd_today] prints. *)
Record today_row : Type := mk_today_row {
  trow_id : Z;
  trow_subject : string;
  trow_title : string;
  trow_due : date
}.

(** What the whole program prints: the messages of the task and review
    commands, and those of the other commands. *)
Inductive message : Type :=
| out_scheduler (o : output)
| out_subject_empty
| out_subject_exists (name : string)
| out_added_subject (name : string)
| out_no_subjects
| out_subject_stats (i : Z) (s : string) (done total pct : Z)
| out_logged (minutes task_id : Z) (subject : string) (total : Z)
| out_no_sessions
| out_minutes_table (rows : list (string * Z))
| out_total (minutes : Z)
| out_reviews_due_today
| out_today_table (rows : list today_row)
| out_none_due_today
| out_minutes_today
| out_total_today (minutes : Z)
| out_no_study_today
| out_usage
| out_invalid_date
| out_usage_review
| out_usage_log
| out_days_not_integer.

(** The files, the clock and the terminal of a run of the program. *)
Record console : Type := mk_console {
  disk : files;
  now : date;
  screen : list message
}.

Inductive ran (A : Type) : Type :=
| Returned (a : A) (c : console)
| Raised (e : exn) (c : console).

Arguments Returned {A} a c.
Arguments Raised {A} e c.

Definition Cmd (A : Type) : Type := console -> ran A.

Definition cret {A : Type} (a : A) : Cmd A := fun c => Returned a c.

Definition cbind {A B : Type} (m : Cmd A) (k : A -> Cmd B) : Cmd B :=
  fun c =>
    match m c with
    | Returned a c' => k a c'
    | Raised e c' => Raised e c'
    end.

Declare Scope cmd_scope.
Delimit Scope cmd_scope with cmd.
Bind Scope cmd_scope with Cmd.

Notation "x <- c ;; k" := (cbind c (fun x => k))
  (at level 61, c at next level, right associativity) : cmd_scope.
Notation "c ;;; k" := (cbind c (fun _ => k))
  (at level 61, right associativity) : cmd_scope.

(** A task or review command, run on the files and clock of the console;
    what it prints goes to the screen. *)
Definition scheduler {A : Type} (m : M A) : Cmd A :=
  fun c =>
    match m (mk_world (disk c) (now c) []) with
    | Ok a w =>
        Returned a (mk_console (fs w) (clock w)
                               (screen c ++ map out_scheduler (stdout w)))
    | Raise e w =>
        Raised e (mk_console (fs w) (clock w)
                             (screen c ++ map out_scheduler (stdout w)))
    end.

Definition raise {A : Type} (e : exn) : Cmd A := fun c => Raised e c.

Definition cprint (m : message) : Cmd unit :=
  fun c => Returned tt (mk_console (disk c) (now c) (screen c ++ [m])).

Definition get_disk : Cmd files := fun c => Returned (disk c) c.

Definition set_disk (f : files) : Cmd unit :=
  fun c => Returned tt (mk_console f (now c) (screen c)).

(** [date.today()] *)
Definition get_today : Cmd date := fun c => Returned (now c) c.

(** [try: body except ValueError: handler] *)
Definition except_ValueError {A : Type} (body handler : Cmd A) : Cmd A :=
  fun c =>
    match body c with
    | Raised ValueError c' => handler c'
    | r => r
    end.

(** [_append(path, line)] on a file kept as its lines: the lines that
    [_read] finds in [line + "\n"]. *)
Definition appended (line : string) : list string :=
  Text._read (Text._append None line).

(** [int(round(done / total * 100)) if total else 0] *)
Definition sf_of_int (n : Z) : spec_float :=
  match n with
  | 0 => S754_zero false
  | Z.pos p => S754_finite false p 0
  | Z.neg p => S754_finite true p 0
  end.

(** [a / b] on two [int]s, [b] not zero: the float nearest to the quotient,
    [OverflowError] when that is not finite. *)
Definition int_truediv (a b : Z) : result float :=
  match SFdiv prec emax (sf_of_int a) (sf_of_int b) with
  | S754_infinity _ => Exc OverflowError
  | S754_nan => Exc OverflowError
  | f => Val (SF2Prim f)
  end.

Definition percent (done total : Z) : result Z :=
  if total =? 0 then Val 0
  else result_bind (int_truediv done total) (fun q =>
       PyNum.py_round (q * 100)%float).

(** A [dict] with [str] keys, as the list of its items in insertion
    order. *)
Fixpoint dict_find {V : Type} (key : string) (d : list (string * V)) : option V :=
  match d with
  | [] => None
  | (k, v) :: rest => if String.eqb k key then Some v else dict_find key rest
  end.

(** [d[key] = v] *)
Fixpoint dict_set {V : Type} (key : string) (v : V) (d : list (string * V))
  : list (string * V) :=
  match d with
  | [] => [(key, v)]
  | (k, v0) :: rest =>
      if String.eqb k key then (k, v) :: rest else (k, v0) :: dict_set key v rest
  end.

(** The loop of [cmd_list_subjects] over the tasks. *)
Definition subject_stats (tasks : list task) : list (string * (Z * Z)) :=
  fold_left
    (fun stats t =>
       let '(total, done) :=
         match dict_find (subject t) stats with Some v => v | None => (0, 0) end in
       let total := total + 1 in
       let done := if String.eqb (status t) STATUS_DONE then done + 1 else done in
       dict_set (subject t) (total, done) stats)
    tasks [].

(** The key [(-kv[1], kv[0])] compared as Python compares tuples. *)
Definition minutes_key_leb (a b : string * Z) : bool :=
  (- snd a <? - snd b) || ((- snd a =? - snd b) && String.leb (fst a) (fst b)).

Fixpoint insert_by {A : Type} (leb : A -> A -> bool) (x : A) (l : list A) : list A :=
  match l with
  | [] => [x]
  | y :: rest => if leb x y then x :: y :: rest else y :: insert_by leb x rest
  end.

(** [sorted(items, key=...)]: the stable sort. *)
Definition sorted_by {A : Type} (leb : A -> A -> bool) (items : list A) : list A :=
  fold_right (insert_by leb) [] items.

Section Ledger.

Variable strip : string -> string.
Variable lower : string -> string.

(** [int(s)] for a [str]: [None] where Python raises [ValueError]. *)
Variable int_of_str : string -> option Z.
(** [str(n)], as an f-string prints an [int]. *)
Variable str_of_int : Z -> string.
(** [d.isoformat()] *)
Variable isoformat : date -> string.
(** [datetime.strptime(s, "%Y-%m-%d").date()]: [None] where Python raises
    [ValueError]. *)
Variable strptime : string -> option date.

#[local] Open Scope cmd_scope.

Definition cmd_add_subject (name0 : string) : Cmd unit :=
  let name := strip name0 in
  if String.eqb name "" then cprint out_subject_empty
  else
    subs <- scheduler (subjects_list strip) ;;
    if existsb (String.eqb (lower name)) (map lower subs)
    then cprint (out_subject_exists name)
    else
      f <- get_disk ;;
      set_disk (mk_files (SUBJECTS_FILE f ++ appended name) (TASKS_FILE f)
                         (REVIEWS_FILE f) (SESSIONS_FILE f)) ;;;
      cprint (out_added_subject name).

(** The second loop of [cmd_list_subjects]. *)
Fixpoint print_subjects (stats : list (string * (Z * Z))) (i : Z) (subs : list string)
  : Cmd unit :=
  match subs with
  | [] => cret tt
  | s :: rest =>
      let '(total, done) :=
        match dict_find s stats with Some v => v | None => (0, 0) end in
      match percent done total with
      | Exc e => raise e
      | Val pct =>
          cprint (out_subject_stats i s done total pct) ;;;
          print_subjects stats (i + 1) rest
      end
  end.

Definition cmd_list_subjects : Cmd unit :=
  subs <- scheduler (subjects_list strip) ;;
  match subs with
  | [] => cprint out_no_subjects
  | _ =>
      tasks <- scheduler tasks_list ;;
      print_subjects (subject_stats tasks) 1 subs
  end.

(** One turn of the loop of [cmd_log]. *)
Definition log_total (today_str subject : string) (total : Z) (ln : string) : Z :=
  match Text.split Text.BAR ln with
  | d :: s :: _ :: m :: _ =>
      if String.eqb d today_str && String.eqb s subject then
        match int_of_str m with
        | Some n => total + n
        | None => total
        end
      else total
  | _ => total
  end.

Definition cmd_log (subject : string) (task_id minutes : Z) (notes : string)
  : Cmd unit :=
  d <- get_today ;;
  let today_str := isoformat d in
  f <- get_disk ;;
  set_disk (mk_files (SUBJECTS_FILE f) (TASKS_FILE f) (REVIEWS_FILE f)
              (SESSIONS_FILE f ++
               appended (Text.join "|" [today_str; subject; str_of_int task_id;
                                        str_of_int minutes; notes]))) ;;;
  f <- get_disk ;;
  let total := fold_left (log_total today_str subject) (SESSIONS_FILE f) 0 in
  cprint (out_logged minutes task_id subject total).

(** One turn of the loop of [cmd_report] and of [cmd_today]: [keep] is the
    test on the date of the line. *)
Definition tally (keep : date -> bool) (totals : list (string * Z)) (ln : string)
  : list (string * Z) :=
  match Text.split Text.BAR ln with
  | d :: s :: _ :: m :: _ =>
      match strptime d with
      | None => totals
      | Some day =>
          if keep day then
            match int_of_str m with
            | Some n =>
                dict_set s (match dict_find s totals with Some v => v | None => 0 end + n)
                         totals
            | None => totals
            end
          else totals
      end
  | _ => totals
  end.

Definition cmd_report (days : option Z) : Cmd unit :=
  d <- get_today ;;
  cutoff <- match days with
            | Some n =>
                if (negb (n =? 0)) && (0 <? n)
                then match add_days d (- n) with
                     | Val c => cret (Some c)
                     | Exc e => raise e
                     end
                else cret None
            | None => cret None
            end ;;
  f <- get_disk ;;
  let keep day := match cutoff with Some c => negb (day <? c) | None => true end in
  let totals := fold_left (tally keep) (SESSIONS_FILE f) [] in
  match totals with
  | [] => cprint out_no_sessions
  | _ =>
      cprint (out_minutes_table (sorted_by minutes_key_leb totals)) ;;;
      cprint (out_total (fold_left Z.add (map snd totals) 0))
  end.

Definition cmd_today : Cmd unit :=
  today_dt <- get_today ;;
  cprint out_reviews_due_today ;;;
  all_reviews <- scheduler load_reviews ;;
  let reviews := filter (fun r => due r =? today_dt) all_reviews in
  match reviews with
  | [] => cprint out_none_due_today
  | _ =>
      ts <- scheduler tasks_list ;;
      let tasks := map (fun t => (id t, t)) ts in
      cprint (out_today_table
                (map (fun r =>
                        mk_today_row (task_id r)
                          (match dict_get tasks (task_id r) with
                           | Some t => subject t | None => "?" end)
                          (match dict_get tasks (task_id r) with
                           | Some t => title t | None => "<missing>" end)
                          (due r))
                     (sorted_by (fun a b => task_id a <=? task_id b) reviews)))
  end ;;;
  cprint out_minutes_today ;;;
  f <- get_disk ;;
  let totals := fold_left (tally (fun day => day =? today_dt)) (SESSIONS_FILE f) [] in
  match totals with
  | [] => cprint out_no_study_today
  | _ =>
      cprint (out_minutes_table (sorted_by minutes_key_leb totals)) ;;;
      cprint (out_total_today (fold_left Z.add (map snd totals) 0))
  end.

Definition _usage : Cmd unit := cprint out_usage.

(** The loop of [main] over the words after [list-tasks]. *)
Fixpoint list_tasks_options (words : list string) (subj status : option string)
  : option string * option string :=
  match words with
  | [] => (subj, status)
  | t :: rest =>
      if String.eqb t "--subject" then
        match rest with
        | [] => (None, status)
        | v :: rest' => list_tasks_options rest' (Some v) status
        end
      else if String.eqb t "--status" then
        match rest with
        | [] => (subj, None)
        | v :: rest' => list_tasks_options rest' subj (Some v)
        end
      else list_tasks_options rest subj status
  end.

(** [int(s)] *)
Definition py_int (s : string) : Cmd Z :=
  match int_of_str s with
  | Some n => cret n
  | None => raise ValueError
  end.

Definition len (argv : list string) : Z := Z.of_nat (List.length argv).

(** [argv[i]] *)
Definition arg (argv : list string) (i : nat) : string := nth i argv ""%string.

Definition main (argv : list string) : Cmd Z :=
  match argv with
  | [] => _usage ;;; cret 0
  | cmd :: _ =>
      if String.eqb cmd "add-subject" && (2 <=? len argv) then
        cmd_add_subject (Text.join " " (skipn 1 argv)) ;;; cret 0
      else if String.eqb cmd "list-subjects" then
        cmd_list_subjects ;;; cret 0
      else if String.eqb cmd "add-task" && (3 <=? len argv) then
        scheduler (cmd_add_task strip lower (arg argv 1) (Text.join " " (skipn 2 argv))) ;;;
        cret 0
      else if String.eqb cmd "list-tasks" then
        let '(subj, status) := list_tasks_options (skipn 1 argv) None None in
        scheduler (cmd_list_tasks lower subj status) ;;; cret 0
      else if String.eqb cmd "start" && (len argv =? 2) then
        tid <- py_int (arg argv 1) ;;
        scheduler (cmd_update_status tid STATUS_DOING) ;;; cret 0
      else if String.eqb cmd "done" && (len argv =? 2) then
        tid <- py_int (arg argv 1) ;;
        scheduler (main_done tid) ;;; cret 0
      else if String.eqb cmd "review-due" then
        if (3 <=? len argv) && String.eqb (arg argv 1) "--on" then
          match strptime (arg argv 2) with
          | Some on => scheduler (cmd_review_due (Some on)) ;;; cret 0
          | None => cprint out_invalid_date ;;; cret 1
          end
        else scheduler (cmd_review_due None) ;;; cret 0
      else if String.eqb cmd "review" && (len argv =? 3) then
        except_ValueError
          (tid <- py_int (arg argv 1) ;;
           quality <- py_int (arg argv 2) ;;
           scheduler (cmd_review tid quality) ;;; cret 0)
          (cprint out_usage_review ;;; cret 1)
      else if String.eqb cmd "log" && (5 <=? len argv) then
        except_ValueError
          (tid <- py_int (arg argv 2) ;;
           minutes <- py_int (arg argv 3) ;;
           cmd_log (arg argv 1) tid minutes (Text.join " " (skipn 4 argv)) ;;; cret 0)
          (cprint out_usage_log ;;; cret 1)
      else if String.eqb cmd "report" then
        if (len argv =? 3) && String.eqb (arg argv 1) "--days" then
          match int_of_str (arg argv 2) with
          | Some d => cmd_report (Some d) ;;; cret 0
          | None => cprint out_days_not_integer ;;; cret 1
          end
        else cmd_report None ;;; cret 0
      else if String.eqb cmd "today" then
        cmd_today ;;; cret 0
      else if String.eqb cmd "clear" && (len argv =? 2) then
        scheduler (cmd_clear (arg argv 1)) ;;; cret 0
      else _usage ;;; cret 1
  end.

End Ledger.

(** ** Notions for the statements *)

(** The console after a command, returned or raised. *)
Definition console_of {A : Type} (r : ran A) : console :=
  match r with
  | Returned _ c => c
  | Raised _ c => c
  end.

Definition show (c : console) (m : message) : console :=
  mk_console (disk c) (now c) (screen c ++ [m]).

(** The world that a task or review command finds, and the console it
    leaves. *)
Definition world_in (c : console) : world := mk_world (disk c) (now c) [].

Definition console_after (c : console) (w : world) : console :=
  mk_console (fs w) (clock w) (screen c ++ map out_scheduler (stdout w)).

(** What [subjects_list] returns. *)
Definition subject_names (strip : string -> string) (f : files) : list string :=
  filter (fun s => negb (String.eqb s "")) (map strip (SUBJECTS_FILE f)).

Definition with_subjects (f : files) (lines : list string) : files :=
  mk_files lines (TASKS_FILE f) (REVIEWS_FILE f) (SESSIONS_FILE f).

Definition with_sessions (f : files) (lines : list string) : files :=
  mk_files (SUBJECTS_FILE f) (TASKS_FILE f) (REVIEWS_FILE f) lines.

(** The line that [cmd_log] appends to the sessions. *)
Definition session_line (str_of_int : Z -> string) (isoformat : date -> string)
  (d : date) (subject : string) (task_id minutes : Z) (notes : string) : string :=
  Text.join "|" [isoformat d; subject; str_of_int task_id; str_of_int minutes; notes].

(** What [cmd_report] and [cmd_today] read in a line of the sessions: the
    date, the subject and the minutes, where the line has four fields or
    more, a date and a number of minutes. *)
Definition session_of (int_of_str : string -> option Z) (strptime : string -> option date)
  (ln : string) : option (date * string * Z) :=
  match Text.split Text.BAR ln with
  | d :: s :: _ :: m :: _ =>
      match strptime d with
      | Some day =>
          match int_of_str m with
          | Some n => Some (day, s, n)
          | None => None
          end
      | None => None
      end
  | _ => None
  end.

(** The sessions that count, in the order of the file. *)
Definition counted (int_of_str : string -> option Z) (strptime : string -> option date)
  (keep : date -> bool) (lines : list string) : list (string * Z) :=
  flat_map (fun ln =>
              match session_of int_of_str strptime ln with
              | Some (day, s, n) => if keep day then [(s, n)] else []
              | None => []
              end) lines.

(** The minutes of a subject, and of all subjects. *)
Definition minutes_of (s : string) (entries : list (string * Z)) : Z :=
  fold_right (fun e acc => if String.eqb (fst e) s then snd e + acc else acc) 0 entries.

Definition minutes_total (entries : list (string * Z)) : Z :=
  fold_right (fun e acc => snd e + acc) 0 entries.

(** The order of the rows of a table of minutes: more minutes first, and
    among equal minutes the lesser subject first. *)
Definition minutes_order (a b : string * Z) : Prop :=
  snd b < snd a \/ (snd a = snd b /\ String.leb (fst a) (fst b) = true).

(** The [cutoff] of [cmd_report]. *)
Definition report_cutoff (d : date) (days : option Z) : result (option date) :=
  match days with
  | Some n =>
      if negb (n =? 0) && (0 <? n)
      then result_bind (add_days d (- n)) (fun c => Val (Some c))
      else Val None
  | None => Val None
  end.

Definition report_keep (cutoff : option date) (day : date) : bool :=
  match cutoff with
  | Some c => negb (day <? c)
  | None => true
  end.

(** [totals[s] = totals.get(s, 0) + n], for an entry [(s, n)]. *)
Definition dict_add (totals : list (string * Z)) (e : string * Z) : list (string * Z) :=
  dict_set (fst e) (match dict_find (fst e) totals with Some v => v | None => 0 end + snd e)
           totals.

(** [sum(totals.values())] *)
Definition dict_sum (d : list (string * Z)) : Z := fold_right (fun e acc => snd e + acc) 0 d.

(** The total that the loop of [cmd_log] finds in some lines. *)
Definition logged_minutes (int_of_str : string -> option Z) (today_str subject : string)
  (lines : list string) : Z :=
  fold_left (log_total int_of_str today_str subject) lines 0.

(** A row of the table of reviews of [cmd_today]. *)
Definition today_row_of (tasks : list task) (r : review) : today_row :=
  mk_today_row (task_id r)
    (match dict_get (map (fun t => (id t, t)) tasks) (task_id r) with
     | Some t => subject t | None => "?" end)
    (match dict_get (map (fun t => (id t, t)) tasks) (task_id r) with
     | Some t => title t | None => "<missing>" end)
    (due r).

(** A filter of [cmd_list_tasks] on a field: none, or the empty text,
    lets every task through. *)
Definition passes (lower : string -> string) (filter_text : option string)
  (field : string) : bool :=
  match filter_text with
  | Some s => String.eqb s "" || String.eqb (lower field) (lower s)
  | None => true
  end.

(** The tasks of a subject, by its exact name, and those of them that are
    done. *)
Definition count_tasks (s : string) (tasks : list task) : Z :=
  Z.of_nat (List.length (filter (fun t => String.eqb (subject t) s) tasks)).

Definition count_done (s : string) (tasks : list task) : Z :=
  Z.of_nat (List.length
              (filter (fun t => String.eqb (subject t) s &&
                                String.eqb (status t) STATUS_DONE) tasks)).

(** The lines of [cmd_list_subjects] for some subjects, numbered from [i],
    with their percentages. *)
Fixpoint subject_rows (tasks : list task) (i : Z) (subs : list string) (pcts : list Z)
  : list message :=
  match subs, pcts with
  | s :: subs', pct :: pcts' =>
      out_subject_stats i s (count_done s tasks) (count_tasks s tasks) pct
      :: subject_rows tasks (i + 1) subs' pcts'
  | _, _ => []
  end.

(** ** Notions for the rounding of quotients *)

(** A location as the two bits below the mantissa. *)
Definition loc_code (l : location) : Z :=
  match l with
  | loc_Exact => 0
  | loc_Inexact Lt => 1
  | loc_Inexact Eq => 2
  | loc_Inexact Gt => 3
  end.

(** The bits that the first step of [binary_round_aux] shifts out of a
    mantissa [q] at exponent [e]. *)
Definition first_shift (q e : Z) : Z :=
  Z.max 0 (Z.max (Zdigits2 q - 53) (- 1074 - e)).

(** The exponent, the quotient and the location that [SFdiv] rounds for
    two integers. *)
Definition div_exponent (d t : positive) : Z :=
  Z.min (Z.max (Z.pos (digits2_pos d) - Z.pos (digits2_pos t) - 53) (- 1074)) 0.

Definition div_quotient (d t : positive) : Z :=
  Z.pos d * 2 ^ (- div_exponent d t) / Z.pos t.

Definition div_location (d t : positive) : location :=
  new_location (Z.pos t) ((Z.pos d * 2 ^ (- div_exponent d t)) mod Z.pos t).

(** A float that is 0 or a positive value of at most [B]. *)
Definition at_most (B : Z) (r : spec_float) : Prop :=
  r = S754_zero false \/
  exists m x, r = S754_finite false m x /\ x <= 0 /\ Z.pos m <= B * 2 ^ (- x).

(** A float that is at least 2. *)
Definition at_least_two (r : spec_float) : Prop :=
  r = S754_infinity false \/ exists m x, r = S754_finite false m x /\ -51 <= x.

(** The float 1.3 *)
Definition sf_1_3 : spec_float := S754_finite false 5854679515581645 (-52).

(** The files of [three_tasks] on the third of November 2026, with nothing
    printed yet. *)
Definition study_console : console :=
  mk_console (fs three_tasks) (clock three_tasks) [].

(** ** Decimal numbers and ISO dates

    An instance of the primitives that the commands take as parameters,
    for the examples: the decimal spelling of an [int] and the spelling
    [YYYY-MM-DD] of a date. [int_of_str] and [strptime] accept these
    spellings only; Python's [int] and [strptime] accept others as well
    (blanks around a number, a sign [+], months and days of one digit). *)

Module Plain.

Definition digit (n : Z) : ascii := ascii_of_nat (48 + Z.to_nat n).

Fixpoint digits (fuel : nat) (n : Z) (acc : string) : string :=
  match fuel with
  | O => acc
  | S fuel' =>
      let acc' := String (digit (n mod 10)) acc in
      if n <? 10 then acc' else digits fuel' (n / 10) acc'
  end.

(** [str(n)] *)
Definition str_of_int (n : Z) : string :=
  if n <? 0 then String "-" (digits (S (Z.to_nat (Z.log2 (- n)))) (- n) "")
  else digits (S (Z.to_nat (Z.log2 n))) n "".

Fixpoint number (s : string) (acc : Z) : option Z :=
  match s with
  | EmptyString => Some acc
  | String c rest =>
      let n := Z.of_nat (nat_of_ascii c) in
      if (48 <=? n) && (n <=? 57) then number rest (10 * acc + (n - 48)) else None
  end.

Definition natural (s : string) : option Z :=
  match s with
  | EmptyString => None
  | _ => number s 0
  end.

(** [int(s)] *)
Definition int_of_str (s : string) : option Z :=
  match s with
  | String "-" rest => option_map Z.opp (natural rest)
  | _ => natural s
  end.

(** The year, month and day of an ordinal of the proleptic Gregorian
    calendar, counted in eras of 400 years that begin on a first of March. *)
Definition civil (d : date) : Z * Z * Z :=
  let z := d + 305 in
  let era := z / 146097 in
  let doe := z mod 146097 in
  let yoe := (doe - doe / 1460 + doe / 36524 - doe / 146096) / 365 in
  let doy := doe - (365 * yoe + yoe / 4 - yoe / 100) in
  let mp := (5 * doy + 2) / 153 in
  let day := doy - (153 * mp + 2) / 5 + 1 in
  let month := if mp <? 10 then mp + 3 else mp - 9 in
  let year := yoe + era * 400 + (if month <=? 2 then 1 else 0) in
  (year, month, day).

Definition ordinal (year month day : Z) : date :=
  let y := if month <=? 2 then year - 1 else year in
  let era := y / 400 in
  let yoe := y mod 400 in
  let mp := if 2 <? month then month - 3 else month + 9 in
  let doy := (153 * mp + 2) / 5 + day - 1 in
  era * 146097 + (yoe * 365 + yoe / 4 - yoe / 100 + doy) - 305.

(** [str(n).zfill(width)] for an [n] that is not negative. *)
Definition zfill (width : nat) (n : Z) : string :=
  let s := str_of_int n in
  (Text.replicate (width - String.length s) "0" ++ s)%string.

(** [d.isoformat()] *)
Definition isoformat (d : date) : string :=
  let '(year, month, day) := civil d in
  (zfill 4 year ++ "-" ++ zfill 2 month ++ "-" ++ zfill 2 day)%string.

(** [datetime.strptime(s, "%Y-%m-%d").date()] *)
Definition strptime (s : string) : option date :=
  match map natural (Text.split "-" s) with
  | [Some year; Some month; Some day] =>
      let d := ordinal year month day in
      if (MINORDINAL <=? d) && (d <=? MAXORDINAL) && String.eqb (isoformat d) s
      then Some d else None
  | _ => None
  end.

End Plain.

(** * Binary64 arithmetic

    What the properties of the ease need from IEEE 754: the operations of
    the standard library's [SpecFloat] at precision 53, read on the values
    they round. A finite float is an integer number of units of 2^-1074;
    addition rounds the exact sum of the units to the nearest float, ties
    to even, and that rounding is monotone. *)

Module Binary64.

(** Division by a power of two, rounded to nearest, ties to even. *)
Definition rhe : Z -> Z -> Z := PyNum.round_half_even_shift.

Lemma pow2_pos (k : Z) : 0 <= k -> 0 < 2 ^ k.
Proof. intros. apply Z.pow_pos_nonneg; lia. Qed.

Lemma rhe_exact (c k : Z) : 0 <= k -> rhe (c * 2 ^ k) k = c.
Proof.
  intros Hk. unfold rhe, PyNum.round_half_even_shift.
  pose proof (pow2_pos k Hk) as P.
  rewrite Z.div_mul by lia. rewrite Z.mod_mul by lia.
  destruct (Z.compare_spec (2 * 0) (2 ^ k)); try lia.
Qed.

Lemma rhe_between (m k : Z) :
  0 <= k -> m / 2 ^ k <= rhe m k <= m / 2 ^ k + 1.
Proof.
  intros Hk. unfold rhe, PyNum.round_half_even_shift.
  destruct (2 * (m mod 2 ^ k) ?= 2 ^ k); [destruct (Z.even _)| |]; lia.
Qed.

Lemma rhe_mono (m1 m2 k : Z) : 0 <= k -> m1 <= m2 -> rhe m1 k <= rhe m2 k.
Proof.
  intros Hk H. pose proof (pow2_pos k Hk) as P.
  pose proof (Z.div_le_mono m1 m2 (2 ^ k) P H) as Q.
  destruct (Z.eq_dec (m1 / 2 ^ k) (m2 / 2 ^ k)) as [E|E].
  - unfold rhe, PyNum.round_half_even_shift. rewrite <- E.
    assert (R : m1 mod 2 ^ k <= m2 mod 2 ^ k).
    { rewrite (Z.div_mod m1 (2 ^ k)), (Z.div_mod m2 (2 ^ k)) in H by lia.
      rewrite E in H. lia. }
    destruct (Z.compare_spec (2 * (m1 mod 2 ^ k)) (2 ^ k));
      destruct (Z.compare_spec (2 * (m2 mod 2 ^ k)) (2 ^ k));
      destruct (Z.even (m1 / 2 ^ k)); lia.
  - pose proof (rhe_between m1 k Hk). pose proof (rhe_between m2 k Hk). lia.
Qed.

Lemma rhe_scale (m k j : Z) :
  0 <= k -> 0 <= j -> rhe (m * 2 ^ j) (k + j) = rhe m k.
Proof.
  intros Hk Hj. unfold rhe, PyNum.round_half_even_shift.
  pose proof (pow2_pos k Hk) as P. pose proof (pow2_pos j Hj) as Q.
  rewrite Z.pow_add_r by lia.
  rewrite Z.div_mul_cancel_r by lia.
  rewrite Z.mul_mod_distr_r by lia.
  destruct (Z.compare_spec (2 * (m mod 2 ^ k * 2 ^ j)) (2 ^ k * 2 ^ j));
    destruct (Z.compare_spec (2 * (m mod 2 ^ k)) (2 ^ k)); try reflexivity; nia.
Qed.

(** Digits *)

Lemma digits_spec (p : positive) :
  2 ^ (Z.pos (digits2_pos p) - 1) <= Z.pos p < 2 ^ Z.pos (digits2_pos p).
Proof.
  induction p as [p IH|p IH|]; simpl digits2_pos.
  - rewrite Pos2Z.inj_succ. replace (Z.succ (Z.pos (digits2_pos p)) - 1) with (Z.succ (Z.pos (digits2_pos p) - 1)) by lia.
    rewrite !Z.pow_succ_r by lia. lia.
  - rewrite Pos2Z.inj_succ. replace (Z.succ (Z.pos (digits2_pos p)) - 1) with (Z.succ (Z.pos (digits2_pos p) - 1)) by lia.
    rewrite !Z.pow_succ_r by lia. lia.
  - simpl. lia.
Qed.

Lemma digits_unique (p : positive) (d : Z) :
  2 ^ (d - 1) <= Z.pos p < 2 ^ d -> Z.pos (digits2_pos p) = d.
Proof.
  intros [L U]. pose proof (digits_spec p) as [L0 U0].
  assert (0 < d).
  { destruct (Z.ltb_spec 0 d); [assumption|]. 
    assert (2 ^ d <= 2 ^ 0) by (destruct (Z.ltb_spec d 0); [rewrite Z.pow_neg_r by lia; simpl; lia | apply Z.pow_le_mono_r; lia]).
    simpl in *. lia. }
  destruct (Z.lt_trichotomy (Z.pos (digits2_pos p)) d) as [C|[C|C]]; [|assumption|].
  - assert (2 ^ Z.pos (digits2_pos p) <= 2 ^ (d - 1)) by (apply Z.pow_le_mono_r; lia). lia.
  - assert (2 ^ d <= 2 ^ (Z.pos (digits2_pos p) - 1)) by (apply Z.pow_le_mono_r; lia). lia.
Qed.

Lemma digits_mono (p q : positive) :
  (p <= q)%positive -> Z.pos (digits2_pos p) <= Z.pos (digits2_pos q).
Proof.
  intros H. pose proof (digits_spec p) as [L0 U0]. pose proof (digits_spec q) as [L1 U1].
  destruct (Z.leb_spec (Z.pos (digits2_pos p)) (Z.pos (digits2_pos q))); [assumption|].
  assert (2 ^ Z.pos (digits2_pos q) <= 2 ^ (Z.pos (digits2_pos p) - 1)) by (apply Z.pow_le_mono_r; lia).
  lia.
Qed.

(** Shifts *)

Lemma iter_pos_iter {A : Type} (f : A -> A) (n : positive) (x : A) :
  iter_pos f n x = Pos.iter f x n.
Proof.
  revert x. induction n as [n IH|n IH|]; intros x; simpl.
  - rewrite !IH. rewrite <- !Pos.iter_swap. reflexivity.
  - rewrite !IH. reflexivity.
  - reflexivity.
Qed.

Lemma shl_value (m d : positive) :
  Z.pos (Pos.iter xO m d) = Z.pos m * 2 ^ Z.pos d.
Proof.
  apply (Pos.iter_ind _ xO m (fun d r => Z.pos r = Z.pos m * 2 ^ Z.pos d)).
  - rewrite Pos2Z.inj_xO. simpl. lia.
  - intros p a H. rewrite Pos2Z.inj_xO, H, Pos2Z.inj_succ, Z.pow_succ_r by lia. ring.
Qed.

Lemma shr_1_spec (mrs : shr_record) :
  0 <= shr_m mrs ->
  shr_1 mrs = Build_shr_record (shr_m mrs / 2) (Z.odd (shr_m mrs)) (shr_r mrs || shr_s mrs).
Proof.
  destruct mrs as [m r s]. simpl. intros H. rewrite <- Z.div2_div.
  destruct m as [|[p|p|]|p]; try reflexivity. lia.
Qed.

Definition shr_inv (m : Z) (n : positive) (mrs : shr_record) : Prop :=
  shr_m mrs = m / 2 ^ Z.pos n /\
  exists low,
    0 <= low < 2 ^ (Z.pos n - 1) /\
    m mod 2 ^ Z.pos n = (if shr_r mrs then 2 ^ (Z.pos n - 1) else 0) + low /\
    shr_s mrs = (0 <? low).

Lemma shr_iter (m : Z) (n : positive) :
  0 <= m ->
  shr_inv m n (Pos.iter shr_1 (Build_shr_record m false false) n).
Proof.
  intros Hm.
  apply (Pos.iter_ind _ shr_1 (Build_shr_record m false false) (shr_inv m)).
  - rewrite shr_1_spec by (simpl; lia). unfold shr_inv. cbn [shr_m shr_r shr_s orb].
    change (2 ^ Z.pos 1) with 2. change (2 ^ (Z.pos 1 - 1)) with 1.
    split; [reflexivity|]. exists 0. split; [lia|]. split; [|reflexivity].
    rewrite Zmod_odd. destruct (Z.odd m); reflexivity.
  - intros p mrs [Hq (low & Hl & Hr & Hs)].
    assert (Q : 0 <= shr_m mrs) by (rewrite Hq; apply Z.div_pos; [lia | apply pow2_pos; lia]).
    rewrite shr_1_spec by exact Q. unfold shr_inv. cbn [shr_m shr_r shr_s].
    rewrite Pos2Z.inj_succ. replace (Z.succ (Z.pos p) - 1) with (Z.pos p) by lia.
    pose proof (pow2_pos (Z.pos p) ltac:(lia)) as P.
    pose proof (pow2_pos (Z.pos p - 1) ltac:(lia)) as P1.
    assert (P2 : 2 ^ Z.pos p = 2 * 2 ^ (Z.pos p - 1)).
    { rewrite <- Z.pow_succ_r by lia. f_equal. lia. }
    split.
    + rewrite Hq, Z.pow_succ_r by lia. rewrite Z.div_div by lia. f_equal. ring.
    + exists (m mod 2 ^ Z.pos p). split; [apply Z.mod_pos_bound; lia|]. split.
      * rewrite Hq. rewrite Z.pow_succ_r by lia.
        rewrite (Z.mul_comm 2), Z.rem_mul_r by lia.
        rewrite Zmod_odd. destruct (Z.odd (m / 2 ^ Z.pos p)); ring.
      * rewrite Hs, Hr. destruct (shr_r mrs); cbn [orb].
        -- symmetry. apply Z.ltb_lt. lia.
        -- reflexivity.
Qed.

Lemma shr_round (m : Z) (n : positive) :
  0 <= m ->
  let mrs := Pos.iter shr_1 (Build_shr_record m false false) n in
  round_nearest_even (shr_m mrs) (loc_of_shr_record mrs) = rhe m (Z.pos n).
Proof.
  intros Hm mrs. destruct (shr_iter m n Hm) as [Hq (low & Hl & Hr & Hs)].
  fold mrs in Hq, Hr, Hs. unfold rhe, PyNum.round_half_even_shift.
  rewrite <- Hq, Hr.
  assert (P2 : 2 ^ Z.pos n = 2 * 2 ^ (Z.pos n - 1)).
  { rewrite <- Z.pow_succ_r by lia. f_equal. lia. }
  pose proof (pow2_pos (Z.pos n - 1) ltac:(lia)) as P1.
  destruct mrs as [q r s]. cbn [shr_m shr_r shr_s] in *. subst s.
  destruct r; destruct (Z.ltb_spec 0 low);
    cbn [round_nearest_even loc_of_shr_record shr_m].
  - destruct (Z.compare_spec (2 * (2 ^ (Z.pos n - 1) + low)) (2 ^ Z.pos n)); lia.
  - destruct (Z.compare_spec (2 * (2 ^ (Z.pos n - 1) + low)) (2 ^ Z.pos n)); lia.
  - destruct (Z.compare_spec (2 * (0 + low)) (2 ^ Z.pos n)); lia.
  - destruct (Z.compare_spec (2 * (0 + low)) (2 ^ Z.pos n)); lia.
Qed.


(** Values in units of 2^-1074 *)

Lemma Zdigits2_spec (N : Z) :
  0 < N -> 2 ^ (Zdigits2 N - 1) <= N < 2 ^ Zdigits2 N.
Proof.
  destruct N as [|p|p]; try lia. intros _. apply digits_spec.
Qed.

Lemma Zdigits2_unique (N d : Z) :
  0 < N -> 2 ^ (d - 1) <= N < 2 ^ d -> Zdigits2 N = d.
Proof.
  destruct N as [|p|p]; try lia. intros _. apply digits_unique.
Qed.

Lemma Zdigits2_shift (N k : Z) :
  0 < N -> 0 <= k -> Zdigits2 (N * 2 ^ k) = Zdigits2 N + k.
Proof.
  intros HN Hk. pose proof (Zdigits2_spec N HN) as [L U].
  pose proof (pow2_pos k Hk) as P.
  assert (D : 0 < Zdigits2 N) by (destruct N; simpl; lia).
  apply Zdigits2_unique; [nia|].
  replace (Zdigits2 N + k - 1) with (Zdigits2 N - 1 + k) by lia.
  rewrite !Z.pow_add_r by lia. nia.
Qed.

Lemma Zdigits2_mono (N1 N2 : Z) :
  0 < N1 -> N1 <= N2 -> Zdigits2 N1 <= Zdigits2 N2.
Proof.
  intros H1 H. destruct N1 as [|p|p]; try lia. destruct N2 as [|q|q]; try lia.
  apply digits_mono. exact H.
Qed.

Definition grid (N : Z) : Z := Z.max (Zdigits2 N - 53) 0.

Definition pack (s : bool) (M E : Z) : spec_float :=
  match M with
  | Z0 => S754_zero s
  | Z.pos m => if E <=? 2045 then S754_finite s m (E - 1074) else S754_infinity s
  | Z.neg _ => S754_nan
  end.

Definition round_units (s : bool) (N : Z) : spec_float :=
  if rhe N (grid N) =? 2 ^ 53 then pack s (2 ^ 52) (grid N + 1)
  else pack s (rhe N (grid N)) (grid N).

Lemma fexp_eq (x : Z) : fexp prec emax x = Z.max (x - 53) (-1074).
Proof. reflexivity. Qed.

Lemma pack_finish (s : bool) (M e : Z) :
  match M with
  | 0 => S754_zero s
  | Z.pos m => if e <=? emax - prec then S754_finite s m e else S754_infinity s
  | Z.neg _ => S754_nan
  end = pack s M (e + 1074).
Proof.
  unfold pack. destruct M; try reflexivity.
  replace (e + 1074 - 1074) with e by lia.
  change (emax - prec) with 971.
  destruct (Z.leb_spec e 971); destruct (Z.leb_spec (e + 1074) 2045); try lia; reflexivity.
Qed.

Lemma shr_fexp_none (m e : Z) :
  fexp prec emax (Zdigits2 m + e) - e <= 0 ->
  shr_fexp prec emax m e loc_Exact = (Build_shr_record m false false, e).
Proof.
  intros H. unfold shr_fexp, shr. cbn [shr_record_of_loc].
  destruct (fexp prec emax (Zdigits2 m + e) - e); try reflexivity. lia.
Qed.

Lemma shr_fexp_some (m e : Z) (n : positive) :
  fexp prec emax (Zdigits2 m + e) - e = Z.pos n ->
  shr_fexp prec emax m e loc_Exact =
  (Pos.iter shr_1 (Build_shr_record m false false) n, e + Z.pos n).
Proof.
  intros H. unfold shr_fexp, shr. cbn [shr_record_of_loc]. rewrite H.
  rewrite iter_pos_iter. reflexivity.
Qed.

Lemma binary_round_aux_units (s : bool) (m e : Z) :
  0 < m -> -1074 <= e ->
  0 <= fexp prec emax (Zdigits2 m + e) - e ->
  binary_round_aux prec emax s m e loc_Exact = round_units s (m * 2 ^ (e + 1074)).
Proof.
  intros Hm He Hn.
  pose proof (Zdigits2_spec m Hm) as [DL DU].
  assert (DN : Zdigits2 (m * 2 ^ (e + 1074)) = Zdigits2 m + (e + 1074))
    by (apply Zdigits2_shift; lia).
  assert (G : grid (m * 2 ^ (e + 1074)) = fexp prec emax (Zdigits2 m + e) + 1074).
  { unfold grid. rewrite DN, fexp_eq. lia. }
  unfold binary_round_aux.
  destruct (fexp prec emax (Zdigits2 m + e) - e) as [|n|n] eqn:N; [| |lia].
  - (* no shift *)
    assert (F : fexp prec emax (Zdigits2 m + e) = e) by lia.
    rewrite shr_fexp_none by lia. cbn [shr_m loc_of_shr_record round_nearest_even].
    rewrite shr_fexp_none by lia. cbn [shr_m].
    rewrite pack_finish. unfold round_units. rewrite G, F.
    replace (rhe (m * 2 ^ (e + 1074)) (e + 1074)) with m by (symmetry; apply rhe_exact; lia).
    rewrite fexp_eq in F.
    assert (D53 : Zdigits2 m <= 53) by lia.
    assert (m < 2 ^ 53).
    { assert (2 ^ Zdigits2 m <= 2 ^ 53) by (apply Z.pow_le_mono_r; lia). lia. }
    destruct (Z.eqb_spec m (2 ^ 53)); [lia | reflexivity].
  - (* shift by n *)
    rewrite (shr_fexp_some m e n N).
    rewrite (shr_round m n) by lia.
    assert (F : fexp prec emax (Zdigits2 m + e) = e + Z.pos n) by lia.
    assert (D : Zdigits2 m = 53 + Z.pos n) by (rewrite fexp_eq in F; lia).
    assert (Q : 2 ^ 52 <= m / 2 ^ Z.pos n).
    { apply Z.div_le_lower_bound; [apply pow2_pos; lia|].
      rewrite <- Z.pow_add_r by lia. replace (Z.pos n + 52) with (Zdigits2 m - 1) by lia.
      exact DL. }
    assert (Q' : m / 2 ^ Z.pos n < 2 ^ 53).
    { apply Z.div_lt_upper_bound; [apply pow2_pos; lia|].
      rewrite <- Z.pow_add_r by lia. replace (Z.pos n + 53) with (Zdigits2 m) by lia.
      exact DU. }
    pose proof (rhe_between m (Z.pos n) ltac:(lia)) as B.
    unfold round_units. rewrite G, F.
    replace (rhe (m * 2 ^ (e + 1074)) (e + Z.pos n + 1074)) with (rhe m (Z.pos n))
      by (replace (e + Z.pos n + 1074) with (Z.pos n + (e + 1074)) by lia;
          symmetry; apply rhe_scale; lia).
    destruct (Z.eqb_spec (rhe m (Z.pos n)) (2 ^ 53)) as [E|E].
    + rewrite E.
      assert (S1 : shr_fexp prec emax (2 ^ 53) (e + Z.pos n) loc_Exact =
                   (Build_shr_record (2 ^ 52) false false, e + Z.pos n + 1)).
      { rewrite (shr_fexp_some _ _ 1); [reflexivity|].
        change (Zdigits2 (2 ^ 53)) with 54. rewrite fexp_eq. lia. }
      rewrite S1. cbn [shr_m]. rewrite pack_finish. f_equal. lia.
    + assert (D2 : Zdigits2 (rhe m (Z.pos n)) = 53).
      { apply Zdigits2_unique; [lia|]. change (53 - 1) with 52. lia. }
      rewrite shr_fexp_none by (rewrite D2, fexp_eq; lia). cbn [shr_m].
      rewrite pack_finish. reflexivity.
Qed.

Lemma binary_round_units (s : bool) (m : positive) (e : Z) :
  -1074 <= e ->
  binary_round prec emax s m e = round_units s (Z.pos m * 2 ^ (e + 1074)).
Proof.
  intros He. unfold binary_round, shl_align.
  pose proof (digits_spec m) as [DL DU].
  destruct (fexp prec emax (Z.pos (digits2_pos m) + e) - e) as [|n|n] eqn:N.
  - apply binary_round_aux_units; [lia | lia |].
    change (Zdigits2 (Z.pos m)) with (Z.pos (digits2_pos m)). lia.
  - apply binary_round_aux_units; [lia | lia |].
    change (Zdigits2 (Z.pos m)) with (Z.pos (digits2_pos m)). lia.
  - rewrite fexp_eq in N.
    assert (F : fexp prec emax (Z.pos (digits2_pos m) + e) = e - Z.pos n)
      by (rewrite fexp_eq; lia).
    rewrite F.
    assert (V : Z.pos (Pos.iter xO m n) * 2 ^ (e - Z.pos n + 1074) =
                Z.pos m * 2 ^ (e + 1074)).
    { rewrite shl_value. replace (e + 1074) with (Z.pos n + (e - Z.pos n + 1074)) by lia.
      rewrite (Z.pow_add_r 2 (Z.pos n) (e - Z.pos n + 1074)) by lia. ring. }
    rewrite <- V. apply binary_round_aux_units; [lia | lia |].
    rewrite shl_value.
    rewrite Zdigits2_shift by lia.
    change (Zdigits2 (Z.pos m)) with (Z.pos (digits2_pos m)).
    rewrite fexp_eq. lia.
Qed.


(** Order *)

Lemma rhe_zero_shift (N : Z) : rhe N 0 = N.
Proof.
  rewrite <- (rhe_exact N 0) at 2 by lia. f_equal. change (2 ^ 0) with 1. lia.
Qed.

(** The rounded value, in units. *)
Definition rounded (N : Z) : Z := rhe N (grid N) * 2 ^ grid N.

Lemma grid_nonneg (N : Z) : 0 <= grid N.
Proof. unfold grid. lia. Qed.

Lemma grid_mantissa (N : Z) :
  0 < N ->
  (0 < rhe N (grid N) <= 2 ^ 53) /\
  (0 < grid N -> 2 ^ 52 <= rhe N (grid N)).
Proof.
  intros HN. pose proof (Zdigits2_spec N HN) as [DL DU]. unfold grid.
  destruct (Z.max_spec (Zdigits2 N - 53) 0) as [[C E]|[C E]]; rewrite E.
  - rewrite rhe_zero_shift.
    assert (2 ^ Zdigits2 N <= 2 ^ 53) by (apply Z.pow_le_mono_r; lia). lia.
  - pose proof (pow2_pos (Zdigits2 N - 53) ltac:(lia)) as P.
    pose proof (rhe_between N (Zdigits2 N - 53) ltac:(lia)) as B.
    assert (Q : 2 ^ 52 <= N / 2 ^ (Zdigits2 N - 53)).
    { apply Z.div_le_lower_bound; [exact P|].
      rewrite <- Z.pow_add_r by lia.
      replace (Zdigits2 N - 53 + 52) with (Zdigits2 N - 1) by lia. exact DL. }
    assert (Q' : N / 2 ^ (Zdigits2 N - 53) < 2 ^ 53).
    { apply Z.div_lt_upper_bound; [exact P|].
      rewrite <- Z.pow_add_r by lia.
      replace (Zdigits2 N - 53 + 53) with (Zdigits2 N) by lia. exact DU. }
    lia.
Qed.

Lemma rounded_mono (N1 N2 : Z) : 0 < N1 -> N1 <= N2 -> rounded N1 <= rounded N2.
Proof.
  intros H1 H. unfold rounded.
  pose proof (Zdigits2_mono N1 N2 H1 H) as DM.
  pose proof (grid_nonneg N1) as G1. pose proof (grid_nonneg N2) as G2.
  pose proof (pow2_pos _ G1) as P1. pose proof (pow2_pos _ G2) as P2.
  destruct (Z.eq_dec (grid N1) (grid N2)) as [E|E].
  - rewrite E. apply Z.mul_le_mono_nonneg_r; [lia|]. apply rhe_mono; lia.
  - assert (GL : grid N1 < grid N2) by (unfold grid in *; lia).
    assert (D2 : grid N2 = Zdigits2 N2 - 53) by (unfold grid in *; lia).
    assert (D1 : Zdigits2 N1 < Zdigits2 N2) by (unfold grid in *; lia).
    pose proof (Zdigits2_spec N1 H1) as [L1 U1].
    pose proof (Zdigits2_spec N2 ltac:(lia)) as [L2 U2].
    assert (D0 : 0 < Zdigits2 N1) by (destruct N1; simpl; lia).
    assert (M : 2 ^ Zdigits2 N1 <= 2 ^ (Zdigits2 N2 - 1)) by (apply Z.pow_le_mono_r; lia).
    apply Z.le_trans with (2 ^ (Zdigits2 N2 - 1)).
    + assert (X : 2 ^ (Zdigits2 N2 - 1) =
                  2 ^ (Zdigits2 N2 - 1 - grid N1) * 2 ^ grid N1).
      { rewrite <- Z.pow_add_r by lia. f_equal. lia. }
      rewrite X. apply Z.mul_le_mono_nonneg_r; [lia|].
      rewrite <- (rhe_exact (2 ^ (Zdigits2 N2 - 1 - grid N1)) (grid N1)) by lia.
      apply rhe_mono; lia.
    + assert (X : 2 ^ (Zdigits2 N2 - 1) =
                  2 ^ (Zdigits2 N2 - 1 - grid N2) * 2 ^ grid N2).
      { rewrite <- Z.pow_add_r by lia. f_equal. lia. }
      rewrite X at 1. apply Z.mul_le_mono_nonneg_r; [lia|].
      rewrite <- (rhe_exact (2 ^ (Zdigits2 N2 - 1 - grid N2)) (grid N2)) at 1 by lia.
      apply rhe_mono; lia.
Qed.

(** A mantissa and an exponent as the format keeps them. *)
Definition canonical (M E : Z) : Prop :=
  0 < M < 2 ^ 53 /\ 0 <= E /\ (0 < E -> 2 ^ 52 <= M).

Lemma round_units_pack (s : bool) (N : Z) :
  0 < N ->
  exists M E,
    round_units s N = pack s M E /\ canonical M E /\ M * 2 ^ E = rounded N.
Proof.
  intros HN. destruct (grid_mantissa N HN) as [[A B] C].
  pose proof (grid_nonneg N) as G. unfold round_units, rounded.
  destruct (Z.eqb_spec (rhe N (grid N)) (2 ^ 53)) as [E|E].
  - exists (2 ^ 52), (grid N + 1). split; [reflexivity|]. split.
    + unfold canonical. change (2 ^ 52) with 4503599627370496.
      change (2 ^ 53) with 9007199254740992. lia.
    + rewrite E, Z.pow_add_r by lia. change (2 ^ 53) with (2 ^ 52 * 2 ^ 1). ring.
  - exists (rhe N (grid N)), (grid N). split; [reflexivity|]. split; [|reflexivity].
    unfold canonical. lia.
Qed.

Lemma canonical_order (M1 E1 M2 E2 : Z) :
  canonical M1 E1 -> canonical M2 E2 ->
  M1 * 2 ^ E1 <= M2 * 2 ^ E2 ->
  E1 < E2 \/ (E1 = E2 /\ M1 <= M2).
Proof.
  intros (A1 & B1 & C1) (A2 & B2 & C2) H.
  pose proof (pow2_pos E1 B1) as P1. pose proof (pow2_pos E2 B2) as P2.
  destruct (Z.lt_trichotomy E1 E2) as [L|[L|L]]; [now left | right | exfalso].
  - split; [exact L|]. subst E2. nia.
  - assert (X : 2 ^ E1 = 2 ^ (E1 - E2 - 1) * 2 * 2 ^ E2).
    { replace E1 with ((E1 - E2 - 1) + 1 + E2) at 1 by lia.
      rewrite !Z.pow_add_r by lia. reflexivity. }
    pose proof (pow2_pos (E1 - E2 - 1) ltac:(lia)) as P3.
    specialize (C1 ltac:(lia)).
    assert (2 ^ 53 * 2 ^ E2 <= M1 * 2 ^ E1).
    { rewrite X. change (2 ^ 53) with (2 ^ 52 * 2). nia. }
    nia.
Qed.

Lemma pack_le (M1 E1 M2 E2 : Z) :
  canonical M1 E1 -> canonical M2 E2 ->
  M1 * 2 ^ E1 <= M2 * 2 ^ E2 ->
  SFleb (pack false M1 E1) (pack false M2 E2) = true /\
  SFleb (pack true M2 E2) (pack true M1 E1) = true.
Proof.
  intros K1 K2 H. pose proof (canonical_order _ _ _ _ K1 K2 H) as O.
  destruct K1 as (A1 & _). destruct K2 as (A2 & _).
  destruct M1 as [|m1|m1]; try lia. destruct M2 as [|m2|m2]; try lia.
  unfold pack, SFleb, SFcompare.
  destruct (Z.leb_spec E1 2045); destruct (Z.leb_spec E2 2045); try (split; reflexivity);
    try lia.
  change (Pos.compare_cont Eq m1 m2) with (Pos.compare m1 m2).
  change (Pos.compare_cont Eq m2 m1) with (Pos.compare m2 m1).
  destruct (Z.compare_spec (E1 - 1074) (E2 - 1074));
    destruct (Z.compare_spec (E2 - 1074) (E1 - 1074)); try lia; try (split; reflexivity).
  rewrite (Pos.compare_antisym m1 m2).
  destruct (Pos.compare_spec m1 m2); try (split; reflexivity). lia.
Qed.

Lemma round_units_le (N1 N2 : Z) :
  0 < N1 -> N1 <= N2 ->
  SFleb (round_units false N1) (round_units false N2) = true /\
  SFleb (round_units true N2) (round_units true N1) = true.
Proof.
  intros H1 H.
  destruct (round_units_pack false N1 H1) as (M1 & E1 & R1 & K1 & V1).
  destruct (round_units_pack false N2 ltac:(lia)) as (M2 & E2 & R2 & K2 & V2).
  destruct (round_units_pack true N1 H1) as (M1' & E1' & R1' & K1' & V1').
  destruct (round_units_pack true N2 ltac:(lia)) as (M2' & E2' & R2' & K2' & V2').
  pose proof (rounded_mono N1 N2 H1 H) as RM.
  rewrite R1, R2, R1', R2'. split.
  - apply pack_le; auto. lia.
  - apply (pack_le M1' E1' M2' E2'); auto. lia.
Qed.


(** Addition *)

(** The value of a finite float, in units of 2^-1074. *)
Definition units (x : spec_float) : Z :=
  match x with
  | S754_finite s m e => cond_Zopp s (Z.pos m * 2 ^ (e + 1074))
  | _ => 0
  end.

(** The float nearest to [N] units. *)
Definition nearest (N : Z) : spec_float :=
  if N =? 0 then S754_zero false
  else if 0 <? N then round_units false N
  else round_units true (- N).

Definition finite_value (x : spec_float) : bool :=
  match x with
  | S754_zero _ | S754_finite _ _ _ => true
  | _ => false
  end.

(** Equal, or two zeros. *)
Definition alike (a b : spec_float) : Prop :=
  a = b \/ exists s s', a = S754_zero s /\ b = S754_zero s'.

Lemma valid_finite (s : bool) (m : positive) (e : Z) :
  valid_binary (S754_finite s m e) = true ->
  -1074 <= e <= 971 /\ grid (Z.pos m * 2 ^ (e + 1074)) = e + 1074 /\ Z.pos m < 2 ^ 53.
Proof.
  unfold valid_binary, bounded, canonical_mantissa. rewrite andb_true_iff.
  rewrite Z.eqb_eq, Z.leb_le, fexp_eq. change (emax - prec) with 971.
  intros [C B]. pose proof (digits_spec m) as [DL DU].
  assert (E : -1074 <= e) by lia. split; [lia|]. split.
  - unfold grid. rewrite Zdigits2_shift by lia.
    change (Zdigits2 (Z.pos m)) with (Z.pos (digits2_pos m)). lia.
  - assert (2 ^ Z.pos (digits2_pos m) <= 2 ^ 53) by (apply Z.pow_le_mono_r; lia). lia.
Qed.

Lemma nearest_units (x : spec_float) :
  valid_binary x = true -> finite_value x = true -> alike x (nearest (units x)).
Proof.
  intros V F. destruct x as [s|s| |s m e]; try discriminate.
  - right. exists s, false. split; reflexivity.
  - left. destruct (valid_finite s m e V) as ((E1 & E2) & G & M).
    pose proof (pow2_pos (e + 1074) ltac:(lia)) as P.
    assert (R : forall b, round_units b (Z.pos m * 2 ^ (e + 1074)) = S754_finite b m e).
    { intros b. unfold round_units. rewrite G, rhe_exact by lia.
      destruct (Z.eqb_spec (Z.pos m) (2 ^ 53)); [lia|]. unfold pack.
      destruct (Z.leb_spec (e + 1074) 2045); [|lia]. f_equal. lia. }
    unfold nearest, units. destruct s; cbn [cond_Zopp].
    + destruct (Z.eqb_spec (- (Z.pos m * 2 ^ (e + 1074))) 0); [lia|].
      destruct (Z.ltb_spec 0 (- (Z.pos m * 2 ^ (e + 1074)))); [lia|].
      rewrite Z.opp_involutive. symmetry. apply R.
    + destruct (Z.eqb_spec (Z.pos m * 2 ^ (e + 1074)) 0); [lia|].
      destruct (Z.ltb_spec 0 (Z.pos m * 2 ^ (e + 1074))); [|lia].
      symmetry. apply R.
Qed.

Lemma binary_normalize_nearest (S e : Z) :
  -1074 <= e ->
  binary_normalize prec emax S e false = nearest (S * 2 ^ (e + 1074)).
Proof.
  intros He. pose proof (pow2_pos (e + 1074) ltac:(lia)) as P.
  unfold binary_normalize, nearest. destruct S as [|p|p].
  - reflexivity.
  - destruct (Z.eqb_spec (Z.pos p * 2 ^ (e + 1074)) 0); [lia|].
    destruct (Z.ltb_spec 0 (Z.pos p * 2 ^ (e + 1074))); [|lia].
    apply binary_round_units. exact He.
  - destruct (Z.eqb_spec (Z.neg p * 2 ^ (e + 1074)) 0); [lia|].
    destruct (Z.ltb_spec 0 (Z.neg p * 2 ^ (e + 1074))); [lia|].
    replace (- (Z.neg p * 2 ^ (e + 1074))) with (Z.pos p * 2 ^ (e + 1074)) by lia.
    apply binary_round_units. exact He.
Qed.

Lemma shl_align_value (m : positive) (e e' : Z) :
  e' <= e -> Z.pos (fst (shl_align m e e')) = Z.pos m * 2 ^ (e - e').
Proof.
  intros H. unfold shl_align. destruct (e' - e) as [|d|d] eqn:D; cbn [fst].
  - replace (e - e') with 0 by lia. simpl. lia.
  - lia.
  - rewrite shl_value. f_equal. f_equal. lia.
Qed.

Lemma SFadd_finite (sx sy : bool) (mx my : positive) (ex ey : Z) :
  -1074 <= ex -> -1074 <= ey ->
  SFadd prec emax (S754_finite sx mx ex) (S754_finite sy my ey) =
  nearest (units (S754_finite sx mx ex) + units (S754_finite sy my ey)).
Proof.
  intros Hx Hy. unfold SFadd.
  rewrite binary_normalize_nearest by lia. f_equal.
  rewrite !shl_align_value by lia. unfold units.
  assert (X : 2 ^ (ex + 1074) = 2 ^ (ex - Z.min ex ey) * 2 ^ (Z.min ex ey + 1074)).
  { rewrite <- Z.pow_add_r by lia. f_equal. lia. }
  assert (Y : 2 ^ (ey + 1074) = 2 ^ (ey - Z.min ex ey) * 2 ^ (Z.min ex ey + 1074)).
  { rewrite <- Z.pow_add_r by lia. f_equal. lia. }
  rewrite X, Y. destruct sx, sy; cbn [cond_Zopp]; ring.
Qed.

Lemma SFadd_nearest (x y : spec_float) :
  valid_binary x = true -> valid_binary y = true ->
  finite_value x = true -> finite_value y = true ->
  alike (SFadd prec emax x y) (nearest (units x + units y)).
Proof.
  intros Vx Vy Fx Fy.
  destruct x as [sx|sx| |sx mx ex]; try discriminate;
    destruct y as [sy|sy| |sy my ey]; try discriminate.
  - right. destruct sx, sy; eexists; eexists; split; reflexivity.
  - change (SFadd prec emax (S754_zero sx) (S754_finite sy my ey))
      with (S754_finite sy my ey).
    change (units (S754_zero sx)) with 0. rewrite Z.add_0_l.
    apply nearest_units; [exact Vy | reflexivity].
  - change (SFadd prec emax (S754_finite sx mx ex) (S754_zero sy))
      with (S754_finite sx mx ex).
    change (units (S754_zero sy)) with 0. rewrite Z.add_0_r.
    apply nearest_units; [exact Vx | reflexivity].
  - left. apply SFadd_finite.
    + now destruct (valid_finite sx mx ex Vx) as ((A & _) & _).
    + now destruct (valid_finite sy my ey Vy) as ((A & _) & _).
Qed.

Lemma SFleb_alike (a a' b b' : spec_float) :
  alike a a' -> alike b b' -> SFleb a b = SFleb a' b'.
Proof.
  intros [->|(s1 & s1' & -> & ->)] [->|(s2 & s2' & -> & ->)];
    try reflexivity; try (destruct a'; reflexivity); destruct b'; reflexivity.
Qed.

Lemma round_units_shape (s : bool) (N : Z) :
  0 < N ->
  (exists m e, round_units s N = S754_finite s m e) \/ round_units s N = S754_infinity s.
Proof.
  intros H. destruct (round_units_pack s N H) as (M & E & R & (A & _) & _).
  rewrite R. unfold pack. destruct M as [|m|m]; try lia.
  destruct (E <=? 2045); [left; eauto | now right].
Qed.

Lemma nearest_le (N1 N2 : Z) : N1 <= N2 -> SFleb (nearest N1) (nearest N2) = true.
Proof.
  intros H. unfold nearest.
  destruct (Z.eqb_spec N1 0) as [Z1|Z1]; destruct (Z.eqb_spec N2 0) as [Z2|Z2];
    [reflexivity | | | ].
  - destruct (Z.ltb_spec 0 N2); [|lia].
    destruct (round_units_shape false N2 ltac:(lia)) as [(m & e & ->)| ->]; reflexivity.
  - destruct (Z.ltb_spec 0 N1); [lia|].
    destruct (round_units_shape true (- N1) ltac:(lia)) as [(m & e & ->)| ->]; reflexivity.
  - destruct (Z.ltb_spec 0 N1); destruct (Z.ltb_spec 0 N2); try lia.
    + now apply round_units_le.
    + destruct (round_units_shape true (- N1) ltac:(lia)) as [(m & e & ->)| ->];
        destruct (round_units_shape false N2 ltac:(lia)) as [(m' & e' & ->)| ->];
        reflexivity.
    + apply (round_units_le (- N2) (- N1)); lia.
Qed.

(** Adding more gives no less. *)
Lemma SFadd_le (x y1 y2 : spec_float) :
  valid_binary x = true -> valid_binary y1 = true -> valid_binary y2 = true ->
  finite_value y1 = true -> finite_value y2 = true ->
  units y1 <= units y2 ->
  x <> S754_nan ->
  SFleb (SFadd prec emax x y1) (SFadd prec emax x y2) = true.
Proof.
  intros Vx V1 V2 F1 F2 U NaN.
  destruct (finite_value x) eqn:Fx.
  - rewrite (SFleb_alike _ _ _ _ (SFadd_nearest x y1 Vx V1 Fx F1)
                                  (SFadd_nearest x y2 Vx V2 Fx F2)).
    apply nearest_le. lia.
  - destruct x as [s|s| |s m e]; try discriminate; [|contradiction].
    destruct y1 as [s1|s1| |s1 m1 e1]; try discriminate;
      destruct y2 as [s2|s2| |s2 m2 e2]; try discriminate; destruct s; reflexivity.
Qed.


(** Comparisons *)

Lemma SFltb_leb (a b : spec_float) : SFltb a b = true -> SFleb a b = true.
Proof.
  unfold SFltb, SFleb. destruct (SFcompare a b) as [[| |]|]; congruence.
Qed.

Lemma SFlt_le_trans (a b c : spec_float) :
  SFltb a b = true -> SFleb b c = true -> SFltb a c = true.
Proof.
  unfold SFltb, SFleb.
  destruct a as [sa|sa| |sa ma ea]; destruct b as [sb|sb| |sb mb eb];
    destruct c as [sc|sc| |sc mc ec]; cbn [SFcompare];
    try discriminate; try reflexivity;
    try (destruct sa; destruct sb; destruct sc; simpl; congruence).
  change (Pos.compare_cont Eq ma mb) with (Pos.compare ma mb).
  change (Pos.compare_cont Eq mb mc) with (Pos.compare mb mc).
  change (Pos.compare_cont Eq ma mc) with (Pos.compare ma mc).
  destruct sa; destruct sb; destruct sc; try discriminate; try reflexivity;
    destruct (Z.compare_spec ea eb); destruct (Z.compare_spec eb ec);
    destruct (Z.compare_spec ea ec); try discriminate; try reflexivity; try lia;
    destruct (Pos.compare_spec ma mb); destruct (Pos.compare_spec mb mc);
    destruct (Pos.compare_spec ma mc); simpl; try discriminate; try reflexivity; lia.
Qed.


(** Results are floats of the format *)

Lemma pack_valid (s : bool) (M E : Z) :
  canonical M E -> valid_binary (pack s M E) = true.
Proof.
  intros ((A1 & A2) & B & C). unfold pack. destruct M as [|m|m]; try lia.
  destruct (Z.leb_spec E 2045) as [L|L]; [|reflexivity].
  unfold valid_binary, bounded, canonical_mantissa.
  apply andb_true_iff. rewrite Z.eqb_eq, Z.leb_le, fexp_eq. change (emax - prec) with 971.
  split; [|lia]. pose proof (digits_spec m) as [DL DU].
  assert (D1 : Z.pos (digits2_pos m) <= 53).
  { destruct (Z.leb_spec (Z.pos (digits2_pos m)) 53); [assumption|].
    assert (2 ^ 53 <= 2 ^ (Z.pos (digits2_pos m) - 1)) by (apply Z.pow_le_mono_r; lia).
    lia. }
  destruct (Z.eq_dec E 0) as [->|NE]; [lia|].
  assert (D2 : 53 <= Z.pos (digits2_pos m)).
  { destruct (Z.leb_spec 53 (Z.pos (digits2_pos m))); [assumption|].
    assert (2 ^ Z.pos (digits2_pos m) <= 2 ^ 52) by (apply Z.pow_le_mono_r; lia).
    specialize (C ltac:(lia)). lia. }
  lia.
Qed.

Lemma nearest_valid (N : Z) : valid_binary (nearest N) = true.
Proof.
  unfold nearest. destruct (Z.eqb_spec N 0); [reflexivity|].
  destruct (Z.ltb_spec 0 N).
  - destruct (round_units_pack false N ltac:(lia)) as (M & E & -> & K & _).
    now apply pack_valid.
  - destruct (round_units_pack true (- N) ltac:(lia)) as (M & E & -> & K & _).
    now apply pack_valid.
Qed.

(** Overflow *)

(** The least number of units that rounds to an infinity: half a unit in
    the last place above the largest float. *)
Definition overflow_units : Z := (2 ^ 1024 - 2 ^ 970) * 2 ^ 1074.

Lemma round_units_negated (N : Z) :
  round_units true N = SFopp (round_units false N).
Proof.
  unfold round_units, pack. destruct (rhe N (grid N) =? 2 ^ 53).
  - change (2 ^ 52) with 4503599627370496. cbv iota.
    destruct (grid N + 1 <=? 2045); reflexivity.
  - destruct (rhe N (grid N)); try reflexivity. destruct (grid N <=? 2045); reflexivity.
Qed.

Lemma round_units_overflow (N : Z) :
  0 < N ->
  (overflow_units <= N -> round_units false N = S754_infinity false) /\
  (N < overflow_units -> exists m e, round_units false N = S754_finite false m e).
Proof.
  intros H. split; intros B.
  - pose proof (proj1 (round_units_le overflow_units N ltac:(unfold overflow_units; lia) B)) as L.
    replace (round_units false overflow_units) with (S754_infinity false) in L
      by (vm_compute; reflexivity).
    destruct (round_units_shape false N H) as [(m & e & E)|E]; [|exact E].
    rewrite E in L. discriminate.
  - pose proof (proj1 (round_units_le N (overflow_units - 1) H ltac:(lia))) as L.
    destruct (round_units_shape false N H) as [(m & e & E)|E]; [eauto|].
    rewrite E in L. vm_compute in L. discriminate.
Qed.

Lemma nearest_overflow (N : Z) :
  (Z.abs N < overflow_units -> finite_value (nearest N) = true) /\
  (overflow_units <= Z.abs N -> nearest N = S754_infinity (N <? 0)).
Proof.
  unfold nearest. destruct (Z.eqb_spec N 0) as [->|NZ].
  - split; [reflexivity|]. intros B. vm_compute in B. now elim B.
  - destruct (Z.ltb_spec 0 N) as [P|P].
    + destruct (round_units_overflow N P) as [O F]. split; intros B.
      * destruct (F ltac:(lia)) as (m & e & ->). reflexivity.
      * destruct (Z.ltb_spec N 0); [lia|]. apply O. lia.
    + destruct (round_units_overflow (- N) ltac:(lia)) as [O F].
      rewrite round_units_negated. split; intros B.
      * destruct (F ltac:(lia)) as (m & e & ->). reflexivity.
      * destruct (Z.ltb_spec N 0); [|lia]. rewrite O by lia. reflexivity.
Qed.

(** Exact values *)

Lemma units_pack (s : bool) (M E : Z) :
  0 < M -> 0 <= E <= 2045 -> units (pack s M E) = cond_Zopp s (M * 2 ^ E).
Proof.
  intros HM HE. unfold pack. destruct M as [|m|m]; try lia.
  destruct (Z.leb_spec E 2045); [|lia]. unfold units.
  replace (E - 1074 + 1074) with E by lia. reflexivity.
Qed.

Lemma nearest_exact (n : Z) :
  Z.abs n < 2 ^ 53 -> units (nearest (n * 2 ^ 1074)) = n * 2 ^ 1074.
Proof.
  intros B.
  assert (R : forall s p, Z.pos p < 2 ^ 53 ->
                units (round_units s (Z.pos p * 2 ^ 1074)) =
                cond_Zopp s (Z.pos p * 2 ^ 1074)).
  { intros s p Hp. pose proof (digits_spec p) as [DL DU].
    assert (D : Z.pos (digits2_pos p) <= 53).
    { destruct (Z.leb_spec (Z.pos (digits2_pos p)) 53); [assumption|].
      assert (2 ^ 53 <= 2 ^ (Z.pos (digits2_pos p) - 1)) by (apply Z.pow_le_mono_r; lia).
      lia. }
    assert (G : grid (Z.pos p * 2 ^ 1074) = Z.pos (digits2_pos p) + 1021).
    { unfold grid. rewrite Zdigits2_shift by lia.
      change (Zdigits2 (Z.pos p)) with (Z.pos (digits2_pos p)). lia. }
    assert (X : Z.pos p * 2 ^ 1074 =
                Z.pos p * 2 ^ (53 - Z.pos (digits2_pos p)) *
                2 ^ (Z.pos (digits2_pos p) + 1021)).
    { rewrite <- Z.mul_assoc, <- Z.pow_add_r by lia. f_equal. f_equal. lia. }
    pose proof (pow2_pos (53 - Z.pos (digits2_pos p)) ltac:(lia)) as P.
    assert (U : Z.pos p * 2 ^ (53 - Z.pos (digits2_pos p)) < 2 ^ 53).
    { replace 53 with (Z.pos (digits2_pos p) + (53 - Z.pos (digits2_pos p))) at 2 by lia.
      rewrite Z.pow_add_r by lia. nia. }
    assert (RH : rhe (Z.pos p * 2 ^ 1074) (Z.pos (digits2_pos p) + 1021) =
                 Z.pos p * 2 ^ (53 - Z.pos (digits2_pos p)))
      by (rewrite X at 1; apply rhe_exact; lia).
    unfold round_units. rewrite G, RH.
    destruct (Z.eqb_spec (Z.pos p * 2 ^ (53 - Z.pos (digits2_pos p))) (2 ^ 53)); [lia|].
    assert (M0 : 0 < Z.pos p * 2 ^ (53 - Z.pos (digits2_pos p)))
      by (apply Z.mul_pos_pos; lia).
    rewrite units_pack; [rewrite <- X; reflexivity | exact M0 | lia]. }
  unfold nearest. destruct n as [|p|p].
  - reflexivity.
  - pose proof (pow2_pos 1074 ltac:(lia)) as P.
    destruct (Z.eqb_spec (Z.pos p * 2 ^ 1074) 0); [lia|].
    destruct (Z.ltb_spec 0 (Z.pos p * 2 ^ 1074)); [|lia].
    rewrite R by lia. reflexivity.
  - pose proof (pow2_pos 1074 ltac:(lia)) as P.
    destruct (Z.eqb_spec (Z.neg p * 2 ^ 1074) 0); [lia|].
    destruct (Z.ltb_spec 0 (Z.neg p * 2 ^ 1074)); [lia|].
    replace (- (Z.neg p * 2 ^ 1074)) with (Z.pos p * 2 ^ 1074) by lia.
    rewrite R by lia. cbn [cond_Zopp]. lia.
Qed.

End Binary64.

Import Binary64.

(** ** Python floats on these values *)

(** [float(n)]: the float nearest to [n], or [OverflowError] from
    [2^1024 - 2^970] on. *)
Lemma float_of_int_spec (n : Z) :
  (Z.abs n < 2 ^ 1024 - 2 ^ 970 ->
   exists k,
     PyNum.float_of_int n = Val k /\
     Prim2SF k = nearest (n * 2 ^ 1074) /\
     finite_value (Prim2SF k) = true) /\
  (2 ^ 1024 - 2 ^ 970 <= Z.abs n -> PyNum.float_of_int n = Exc OverflowError).
Proof.
  unfold PyNum.float_of_int. rewrite binary_normalize_nearest by lia.
  change (0 + 1074) with 1074.
  pose proof (pow2_pos 1074 ltac:(lia)) as P.
  destruct (nearest_overflow (n * 2 ^ 1074)) as [F O].
  assert (A : Z.abs (n * 2 ^ 1074) = Z.abs n * 2 ^ 1074) by (rewrite Z.abs_mul; lia).
  split; intros B.
  - assert (F' : finite_value (nearest (n * 2 ^ 1074)) = true).
    { apply F. rewrite A. unfold overflow_units. nia. }
    pose proof (nearest_valid (n * 2 ^ 1074)) as V.
    exists (SF2Prim (nearest (n * 2 ^ 1074))).
    rewrite (Prim2SF_SF2Prim _ V). split; [|split; [reflexivity | exact F']].
    destruct (nearest (n * 2 ^ 1074)); try discriminate; reflexivity.
  - rewrite O; [reflexivity|]. rewrite A. unfold overflow_units. nia.
Qed.


Lemma fmax_floor (u : float) : (1.3 <=? PyNum.fmax 1.3 u)%float = true.
Proof.
  unfold PyNum.fmax. destruct (1.3 <? u)%float eqn:L.
  - rewrite leb_spec. rewrite ltb_spec in L. now apply SFltb_leb.
  - reflexivity.
Qed.

Lemma fmax_add_mono (e a b : float) :
  finite_value (Prim2SF a) = true -> finite_value (Prim2SF b) = true ->
  units (Prim2SF a) <= units (Prim2SF b) ->
  (PyNum.fmax 1.3 (e + a) <=? PyNum.fmax 1.3 (e + b))%float = true.
Proof.
  intros Fa Fb U. unfold PyNum.fmax.
  destruct (Prim2SF e) as [s|s| |s m x] eqn:E.
  1, 2, 4:
    assert (L : SFleb (Prim2SF (e + a)) (Prim2SF (e + b)) = true)
      by (rewrite !add_spec; apply SFadd_le;
          [apply Prim2SF_valid | apply Prim2SF_valid | apply Prim2SF_valid
           | exact Fa | exact Fb | exact U | rewrite E; discriminate]);
    destruct (1.3 <? e + a)%float eqn:La; destruct (1.3 <? e + b)%float eqn:Lb;
    rewrite ?leb_spec; rewrite ?ltb_spec in *;
    [ exact L
    | rewrite (SFlt_le_trans _ _ _ La L) in Lb; discriminate
    | now apply SFltb_leb
    | reflexivity ].
  assert (Na : (1.3 <? e + a)%float = false)
    by (rewrite ltb_spec, add_spec, E; reflexivity).
  assert (Nb : (1.3 <? e + b)%float = false)
    by (rewrite ltb_spec, add_spec, E; reflexivity).
  rewrite Na, Nb. reflexivity.
Qed.

Lemma py_round_defined (x : float) :
  finite_value (Prim2SF x) = true -> exists n, PyNum.py_round x = Val n.
Proof.
  unfold PyNum.py_round. destruct (Prim2SF x); try discriminate; eauto.
Qed.

(** * Properties *)

(** ** What a command leaves behind *)

Ltac run_monad :=
  unfold bind, ret, lift, print, date_today, read_files, write_files,
    load_reviews, tasks_list, _save_reviews, _save_tasks in *; simpl in *.

Lemma upsert_review_run (tid interval : Z) (d : date) (e : float) (w : world) :
  upsert_review tid interval d e w =
  Ok tt (mk_world
           (with_reviews (fs w)
              (map saved (upserted (mk_review tid interval d e) (reviews_in w))))
           (clock w) (stdout w)).
Proof.
  unfold upsert_review, upserted, with_reviews, reviews_in. run_monad.
  destruct (replace_first tid _ _); reflexivity.
Qed.

(** [cmd_review], one step at a time. *)
Lemma cmd_review_run (tid quality : Z) (w : world) :
  cmd_review tid quality w =
  match _update_ease (snd (prior tid (reviews_in w))) quality with
  | Exc x => Raise x w
  | Val e =>
      match next_interval quality (fst (prior tid (reviews_in w))) e with
      | Exc x => Raise x w
      | Val n =>
          match add_days (clock w) n with
          | Exc x => Raise x w
          | Val d =>
              Ok tt (mk_world
                       (with_reviews (fs w)
                          (map saved (upserted (mk_review tid n d e) (reviews_in w))))
                       (clock w) (stdout w ++ [out_next_review tid n d]))
          end
      end
  end.
Proof.
  unfold cmd_review, prior, review_of, reviews_in.
  unfold bind at 1. unfold load_reviews at 1. unfold bind at 1, read_files at 1, ret at 1.
  unfold bind at 1, date_today at 1.
  destruct (find _ _) as [r|]; simpl;
    (unfold bind at 1, lift at 1;
     destruct (_update_ease _ quality) as [e|x]; [|reflexivity];
     unfold bind at 1, lift at 1;
     destruct (next_interval _ _ _) as [n|x]; [|reflexivity];
     unfold bind at 1, lift at 1;
     destruct (add_days _ _) as [d|x]; [|reflexivity];
     unfold bind at 1; rewrite upsert_review_run; reflexivity).
Qed.

(** ** The upsert *)

Lemma saved_task_id (l : list review) :
  map task_id (map saved l) = map task_id l.
Proof.
  induction l as [|r l IH]; simpl; [reflexivity | now rewrite IH].
Qed.

Lemma replace_first_none (tid : Z) (new : review) (l : list review) :
  replace_first tid new l = None <-> ~ In tid (map task_id l).
Proof.
  induction l as [|r l IH]; simpl.
  - tauto.
  - destruct (Z.eqb_spec (task_id r) tid) as [E|E].
    + split; [discriminate | intros H; exfalso; apply H; now left].
    + destruct (replace_first tid new l).
      * split; [discriminate|]. intros H. exfalso. apply H. right.
        destruct IH as [_ IH]. destruct (in_dec Z.eq_dec tid (map task_id l)) as [I|I];
          [exact I | specialize (IH I); discriminate].
      * split; [|reflexivity]. intros _ [H|H]; [contradiction|].
        destruct IH as [IH _]. now apply IH.
Qed.

Lemma replace_first_ids (tid : Z) (new : review) (l l' : list review) :
  task_id new = tid ->
  replace_first tid new l = Some l' ->
  map task_id l' = map task_id l.
Proof.
  intros Hn. subst tid. revert l'. induction l as [|r l IH]; simpl; intros l' H.
  - discriminate.
  - destruct (Z.eqb_spec (task_id r) (task_id new)) as [E|E].
    + inversion H; subst. simpl. now rewrite E.
    + destruct (replace_first (task_id new) new l) eqn:R; [|discriminate].
      inversion H; subst. simpl. f_equal. now apply IH.
Qed.

Lemma upserted_ids (new : review) (l : list review) :
  map task_id (upserted new l) =
  if in_dec Z.eq_dec (task_id new) (map task_id l)
  then map task_id l
  else map task_id l ++ [task_id new].
Proof.
  unfold upserted.
  destruct (replace_first (task_id new) new l) as [l'|] eqn:R.
  - destruct (in_dec _ _ _) as [I|I].
    + exact (replace_first_ids (task_id new) new l l' eq_refl R).
    + apply (replace_first_none (task_id new) new) in I. congruence.
  - apply replace_first_none in R.
    destruct (in_dec _ _ _) as [I|I]; [contradiction|].
    now rewrite map_app.
Qed.

Lemma review_of_replace_first (tid : Z) (new : review) (l l' : list review) :
  task_id new = tid ->
  replace_first tid new l = Some l' ->
  review_of tid l' = Some new.
Proof.
  intros Hn. subst tid. unfold review_of. revert l'.
  induction l as [|r l IH]; simpl; intros l' H; [discriminate|].
  destruct (Z.eqb_spec (task_id r) (task_id new)) as [E|E].
  - inversion H; subst. simpl. now rewrite Z.eqb_refl.
  - destruct (replace_first (task_id new) new l); [|discriminate].
    inversion H; subst. simpl.
    destruct (Z.eqb_spec (task_id r) (task_id new)); [contradiction|]. now apply IH.
Qed.

Lemma review_of_app_absent (tid : Z) (new : review) (l : list review) :
  task_id new = tid ->
  ~ In tid (map task_id l) ->
  review_of tid (l ++ [new]) = Some new.
Proof.
  intros Hn. unfold review_of. induction l as [|r l IH]; simpl; intros H.
  - rewrite Hn, Z.eqb_refl. reflexivity.
  - destruct (Z.eqb_spec (task_id r) tid) as [E|E]; [tauto|]. apply IH. tauto.
Qed.

Lemma review_of_upserted (new : review) (l : list review) :
  review_of (task_id new) (upserted new l) = Some new.
Proof.
  unfold upserted. destruct (replace_first _ _ _) as [l'|] eqn:R.
  - exact (review_of_replace_first (task_id new) new l l' eq_refl R).
  - apply review_of_app_absent; [reflexivity|]. now apply replace_first_none in R.
Qed.

Lemma review_of_saved (tid : Z) (l : list review) :
  review_of tid (map saved l) = option_map saved (review_of tid l).
Proof.
  unfold review_of. induction l as [|r l IH]; simpl; [reflexivity|].
  destruct (task_id r =? tid); [reflexivity | exact IH].
Qed.


Lemma NoDup_snoc (x : Z) (l : list Z) :
  NoDup l -> ~ In x l -> NoDup (l ++ [x]).
Proof.
  intros Hl Hx. apply NoDup_app; [exact Hl | repeat constructor; simpl; tauto |].
  intros a Ha [E|[]]. subst. contradiction.
Qed.

Lemma upserted_NoDup (new : review) (l : list review) :
  NoDup (map task_id l) -> NoDup (map task_id (upserted new l)).
Proof.
  intros H. rewrite upserted_ids.
  destruct (in_dec _ _ _) as [I|I]; [exact H | now apply NoDup_snoc].
Qed.



(** The world after [cmd_review]: either the files as they were, or the
    files with the review store upserted. *)
Lemma cmd_review_world (tid quality : Z) (w : world) :
  (exists x, cmd_review tid quality w = Raise x w) \/
  (exists e n d,
      _update_ease (snd (prior tid (reviews_in w))) quality = Val e /\
      next_interval quality (fst (prior tid (reviews_in w))) e = Val n /\
      add_days (clock w) n = Val d /\
      cmd_review tid quality w =
      Ok tt (mk_world
               (with_reviews (fs w)
                  (map saved (upserted (mk_review tid n d e) (reviews_in w))))
               (clock w) (stdout w ++ [out_next_review tid n d]))).
Proof.
  rewrite cmd_review_run.
  destruct (_update_ease _ _) as [e|x] eqn:E1; [|left; now exists x].
  destruct (next_interval _ _ _) as [n|x] eqn:E2; [|left; now exists x].
  destruct (add_days _ _) as [d|x] eqn:E3; [|left; now exists x].
  right. exists e, n, d. auto.
Qed.



(** ** Status updates *)

Lemma set_status_first_none (tid : Z) (s : string) (tasks : list task) :
  set_status_first tid s tasks = None <-> task_of tid tasks = None.
Proof.
  unfold task_of. induction tasks as [|t rest IH]; simpl; [tauto|].
  destruct (id t =? tid); [split; discriminate|].
  destruct (set_status_first tid s rest) as [[t0 rest']|]; [|tauto].
  split; [discriminate|]. intros H. apply IH in H. discriminate.
Qed.

Lemma set_status_first_some (tid : Z) (s : string) (tasks tasks' : list task) (t : task) :
  set_status_first tid s tasks = Some (t, tasks') ->
  task_of tid tasks = Some t /\
  task_of tid tasks' = Some (mk_task (id t) (subject t) (title t) s) /\
  map id tasks' = map id tasks.
Proof.
  unfold task_of. revert tasks'.
  induction tasks as [|t1 rest IH]; simpl; intros tasks' H; [discriminate|].
  destruct (Z.eqb_spec (id t1) tid) as [E|E].
  - inversion H; subst. simpl. rewrite Z.eqb_refl. auto.
  - destruct (set_status_first tid s rest) as [[t0 rest']|]; [|discriminate].
    inversion H; subst. simpl.
    destruct (Z.eqb_spec (id t1) tid); [contradiction|].
    destruct (IH rest' eq_refl) as (A & B & C). repeat split; auto. now rewrite C.
Qed.

Lemma cmd_update_status_run (tid : Z) (s : string) (w : world) :
  cmd_update_status tid s w =
  Ok tt (mk_world
           (with_tasks (fs w) (status_set tid s (tasks_in w)))
           (clock w)
           (stdout w ++
              [match task_of tid (tasks_in w) with
               | Some t => out_status_updated tid (subject t) (title t) s
               | None => out_task_not_found tid
               end])).
Proof.
  unfold cmd_update_status, status_set, with_tasks, tasks_in, task_of. run_monad.
  destruct (set_status_first tid s (TASKS_FILE (fs w))) as [[t tasks']|] eqn:E.
  - apply set_status_first_some in E. destruct E as (E & _). unfold task_of in E.
    rewrite E. reflexivity.
  - apply set_status_first_none in E. unfold task_of in E. rewrite E.
    destruct w as [[a b c d] k o]. reflexivity.
Qed.

(** ** Queries *)

Lemma mapM_reads {A B : Type} (f : A -> M B) (g : A -> B) (w : world) (l : list A) :
  (forall a, f a w = Ok (g a) w) ->
  mapM f l w = Ok (map g l) w.
Proof.
  intros H. induction l as [|a l IH]; simpl; [reflexivity|].
  unfold bind at 1. rewrite H. unfold bind at 1. rewrite IH. reflexivity.
Qed.

Lemma cmd_review_due_run (on : option date) (w : world) :
  cmd_review_due on w =
  Ok tt (say w
    match due_items on w with
    | [] =>
        match reviews_in w with
        | r :: rest => out_no_reviews_due (due (min_by_due r rest))
        | [] => out_no_reviews_scheduled
        end
    | _ => out_due_table (map (due_row_of (clock w) (tasks_in w)) (sorted (due_items on w)))
    end).
Proof.
  unfold cmd_review_due, due_items, reviews_in, tasks_in, say. run_monad.
  destruct (filter _ _) as [|r0 items] eqn:F.
  - destruct (REVIEWS_FILE (fs w)); reflexivity.
  - rewrite (mapM_reads _ (due_row_of (clock w) (TASKS_FILE (fs w)))); [reflexivity|].
    intros a. reflexivity.
Qed.

Lemma cmd_list_tasks_run (lower : string -> string)
  (subject_filter status_filter : option string) (w : world) :
  cmd_list_tasks lower subject_filter status_filter w =
  Ok tt (say w
    match selected_tasks lower subject_filter status_filter (tasks_in w) with
    | [] => out_no_matching_tasks
    | ts => out_task_table (map (list_row (clock w) (reviews_in w)) ts)
    end).
Proof.
  unfold cmd_list_tasks, selected_tasks, tasks_in, reviews_in, say.
  unfold bind at 1, tasks_list at 1, bind at 1, read_files at 1, ret at 1.
  match goal with
  | |- match ?l with [] => _ | _ => _ end _ = _ => destruct l as [|t ts] eqn:S
  end.
  - reflexivity.
  - unfold bind at 1, load_reviews at 1, bind at 1, read_files at 1, ret at 1.
    unfold bind at 1.
    rewrite (mapM_reads _ (list_row (clock w) (REVIEWS_FILE (fs w)))); [reflexivity|].
    intros a. unfold list_row, list_flag, _overdue_flag.
    destruct (negb (String.eqb (status a) STATUS_DONE)); [|reflexivity].
    destruct (dict_get _ _); reflexivity.
Qed.

(** ** Sorting *)

Lemma key_leb_le (a b : review) : key_leb a b = true <-> key_le a b.
Proof.
  unfold key_leb, key_le.
  rewrite orb_true_iff, andb_true_iff, Z.ltb_lt, Z.eqb_eq, Z.leb_le. tauto.
Qed.

Lemma key_le_total (a b : review) : key_leb a b = false -> key_le b a.
Proof.
  unfold key_leb, key_le. rewrite orb_false_iff, andb_false_iff.
  rewrite Z.ltb_ge, Z.eqb_neq, Z.leb_gt. lia.
Qed.

Lemma key_le_trans (a b c : review) : key_le a b -> key_le b c -> key_le a c.
Proof. unfold key_le. lia. Qed.

Lemma insert_sorted_perm (x : review) (l : list review) :
  Permutation (insert_sorted x l) (x :: l).
Proof.
  induction l as [|y l IH]; simpl; [reflexivity|].
  destruct (key_leb x y); [reflexivity|].
  rewrite IH. apply perm_swap.
Qed.

Lemma sorted_perm (l : list review) : Permutation (sorted l) l.
Proof.
  induction l as [|x l IH]; simpl; [reflexivity|].
  unfold sorted in *. simpl. rewrite insert_sorted_perm. now constructor.
Qed.

Lemma insert_sorted_sorted (x : review) (l : list review) :
  StronglySorted key_le l -> StronglySorted key_le (insert_sorted x l).
Proof.
  induction l as [|y l IH]; simpl; intros H.
  - repeat constructor.
  - inversion H as [|y' l' Hl Hy]; subst.
    destruct (key_leb x y) eqn:K.
    + apply key_leb_le in K. constructor; [exact H|].
      constructor; [exact K|].
      rewrite Forall_forall in *. intros z Hz. eapply key_le_trans; eauto.
    + apply key_le_total in K. constructor; [now apply IH|].
      rewrite Forall_forall in *. intros z Hz.
      apply (Permutation_in _ (insert_sorted_perm x l)) in Hz.
      destruct Hz as [E|Hz]; [now subst | now apply Hy].
Qed.

Lemma sorted_sorted (l : list review) : StronglySorted key_le (sorted l).
Proof.
  induction l as [|x l IH]; [constructor|].
  unfold sorted in *. simpl. now apply insert_sorted_sorted.
Qed.

Lemma min_by_due_spec (rest : list review) (first : review) :
  In (min_by_due first rest) (first :: rest) /\
  forall r, In r (first :: rest) -> due (min_by_due first rest) <= due r.
Proof.
  unfold min_by_due. revert first.
  induction rest as [|x rest IH]; intros first; simpl.
  - split; [now left|]. intros r [E|[]]. subst. lia.
  - destruct (Z.ltb_spec (due x) (due first)) as [L|L];
      [destruct (IH x) as [I A] | destruct (IH first) as [I A]].
    + split; [right; exact I|].
      intros r [E|Hr]; [subst r|now apply A].
      specialize (A x (or_introl eq_refl)). lia.
    + split; [destruct I as [E|I]; [left; exact E | right; right; exact I]|].
      intros r [E|[E|Hr]]; subst.
      * apply A. now left.
      * specialize (A first (or_introl eq_refl)). lia.
      * apply A. now right.
Qed.

Lemma row_review_of_rows (today : date) (tasks : list task) (l : list review) :
  map row_review (map (due_row_of today tasks) l) = l.
Proof.
  induction l as [|r l IH]; simpl; [reflexivity | now rewrite IH].
Qed.

(** C3. The due query prints one of three things and changes no file.
    When some record has [due <= asOf] it prints a table whose records are
    exactly those records (each as often as the store has it), in ascending
    order of [(due, task_id)]. When the store is not empty and no record is
    due it reports the least due date of the store. When the store is empty
    it reports that nothing is scheduled. [asOf] is the date given with
    [--on], or today. *)
Theorem due_query (on : option date) (w : world) :
  exists o,
    cmd_review_due on w = Ok tt (say w o) /\
    match o with
    | out_due_table rows =>
        due_items on w <> [] /\
        Permutation (map row_review rows)
          (filter (fun r => due r <=? match on with Some d => d | None => clock w end)
                  (reviews_in w)) /\
        (forall r, In r (map row_review rows) <->
                   In r (reviews_in w) /\
                   due r <= match on with Some d => d | None => clock w end) /\
        StronglySorted key_le (map row_review rows)
    | out_no_reviews_due nxt =>
        due_items on w = [] /\
        reviews_in w <> [] /\
        (exists r, In r (reviews_in w) /\ due r = nxt) /\
        (forall r, In r (reviews_in w) -> nxt <= due r)
    | out_no_reviews_scheduled => reviews_in w = []
    | _ => False
    end.
Proof.
  eexists. split; [apply cmd_review_due_run|].
  destruct (due_items on w) as [|r0 items] eqn:D.
  - destruct (reviews_in w) as [|r rest] eqn:R; [reflexivity|].
    destruct (min_by_due_spec rest r) as [I A].
    split; [reflexivity|]. split; [discriminate|]. split; [now exists (min_by_due r rest)|].
    exact A.
  - cbv beta iota. rewrite row_review_of_rows. rewrite <- D.
    split; [rewrite D; discriminate|]. split; [apply sorted_perm|].
    split; [|apply sorted_sorted].
    intros r. split; intros H.
    + apply (Permutation_in _ (sorted_perm _)) in H. unfold due_items in H.
      apply filter_In in H. rewrite Z.leb_le in H. exact H.
    + apply (Permutation_in _ (Permutation_sym (sorted_perm _))). unfold due_items.
      apply filter_In. rewrite Z.leb_le. exact H.
Qed.

(** ** The overdue flag *)

Lemma list_flag_overdue (today : date) (reviews : list review) (t : task) :
  (lrow_flag (list_row today reviews t) = "OVERDUE"%string <->
   (exists d, lrow_due (list_row today reviews t) = Some d /\ d < today) /\
   status t <> STATUS_DONE) /\
  (lrow_flag (list_row today reviews t) = "OVERDUE"%string \/
   lrow_flag (list_row today reviews t) = ""%string).
Proof.
  unfold list_row, list_flag. simpl.
  destruct (String.eqb_spec (status t) STATUS_DONE) as [E|E]; simpl.
  - split; [|now right]. split; [discriminate|]. intros [_ H]. contradiction.
  - destruct (dict_get _ _) as [d|].
    + destruct (Z.ltb_spec d today) as [L|L].
      * split; [|now left]. split; [|reflexivity]. intros _. split; [|exact E].
        now exists d.
      * split; [|now right]. split; [discriminate|]. intros [[d' [Hd L']] _].
        inversion Hd; subst. lia.
    + split; [|now right]. split; [discriminate|]. intros [[d' [Hd _]] _]. discriminate.
Qed.

Lemma due_flag_overdue (today : date) (r : review) :
  (due_flag today r = "OVERDUE"%string <-> due r < today) /\
  (due_flag today r = "DUE"%string <-> today <= due r).
Proof.
  unfold due_flag. destruct (Z.ltb_spec (due r) today) as [L|L].
  - split; split; try reflexivity; try discriminate; intros; try lia; exact L.
  - split; split; try reflexivity; try discriminate; intros; try lia; exact L.
Qed.

(** C5, as the code has it. In the task listing a row is flagged OVERDUE
    exactly when the task has a due date strictly before today and its
    status is not done; otherwise the flag is empty. In the due query a row
    is flagged OVERDUE exactly when its due date is strictly before today,
    whatever the status of the task, and DUE otherwise. Both flags are
    computed when the table is printed: neither command changes a file. *)
Theorem overdue_flags (lower : string -> string)
  (subject_filter status_filter : option string) (on : option date) (w : world) :
  (exists o,
      cmd_list_tasks lower subject_filter status_filter w = Ok tt (say w o) /\
      fs (say w o) = fs w /\
      forall rows row,
        o = out_task_table rows -> In row rows ->
        (lrow_flag row = "OVERDUE"%string <->
         (exists d, lrow_due row = Some d /\ d < clock w) /\
         status (lrow_task row) <> STATUS_DONE) /\
        (lrow_flag row = "OVERDUE"%string \/ lrow_flag row = ""%string)) /\
  (exists o,
      cmd_review_due on w = Ok tt (say w o) /\
      fs (say w o) = fs w /\
      forall rows row,
        o = out_due_table rows -> In row rows ->
        (row_flag row = "OVERDUE"%string <-> due (row_review row) < clock w) /\
        (row_flag row = "DUE"%string <-> clock w <= due (row_review row))).
Proof.
  split.
  - eexists. split; [apply cmd_list_tasks_run|]. split; [reflexivity|].
    intros rows row Ho Hin.
    destruct (selected_tasks _ _ _ _) as [|t ts]; [discriminate|].
    injection Ho as Ho. subst rows.
    change (In row (map (list_row (clock w) (reviews_in w)) (t :: ts))) in Hin.
    apply in_map_iff in Hin. destruct Hin as [t' [E _]]. subst row.
    apply list_flag_overdue.
  - eexists. split; [apply cmd_review_due_run|]. split; [reflexivity|].
    intros rows row Ho Hin.
    destruct (due_items on w) as [|r0 items].
    + destruct (reviews_in w); discriminate.
    + injection Ho as Ho. subst rows.
      apply in_map_iff in Hin. destruct Hin as [r [E _]]. subst row.
      apply due_flag_overdue.
Qed.

(** C5 as stated fails: the due query flags the review of a task whose
    status is done as OVERDUE. *)
Lemma due_query_flags_done_task :
  task_of 1 (tasks_in done_and_overdue) = Some (mk_task 1 "Math" "Algebra" STATUS_DONE) /\
  cmd_review_due None done_and_overdue =
  Ok tt (say done_and_overdue
           (out_due_table
              [mk_due_row (mk_review 1 6 739922 2.5%float) "Math" "Algebra" "OVERDUE"])).
Proof.
  split; reflexivity.
Qed.

(** ** The interval and the due date *)

Lemma next_interval_low (quality interval : Z) (e : float) :
  quality < 3 -> next_interval quality interval e = Val 1.
Proof.
  intros H. unfold next_interval. destruct (Z.ltb_spec quality 3); [reflexivity|lia].
Qed.

Lemma next_interval_first (quality interval : Z) (e : float) :
  3 <= quality -> interval = 0 \/ interval = 1 ->
  next_interval quality interval e = Val 6.
Proof.
  intros H I. unfold next_interval. destruct (Z.ltb_spec quality 3); [lia|].
  destruct I; subst; reflexivity.
Qed.

Lemma next_interval_grown (quality interval : Z) (e : float) :
  3 <= quality -> interval <> 0 -> interval <> 1 ->
  next_interval quality interval e =
  result_bind (PyNum.int_mul_float interval e) (fun x =>
  result_bind (PyNum.py_round x) (fun n => Val (Z.max 1 n))).
Proof.
  intros H I0 I1. unfold next_interval. destruct (Z.ltb_spec quality 3); [lia|].
  destruct (Z.eqb_spec interval 0); [contradiction|].
  destruct (Z.eqb_spec interval 1); [contradiction|]. reflexivity.
Qed.

Lemma next_interval_positive (quality interval n : Z) (e : float) :
  next_interval quality interval e = Val n -> 1 <= n.
Proof.
  unfold next_interval. destruct (quality <? 3); [intros H; inversion H; lia|].
  destruct ((interval =? 0) || (interval =? 1)); [intros H; inversion H; lia|].
  destruct (PyNum.int_mul_float interval e) as [x|]; simpl; [|discriminate].
  destruct (PyNum.py_round x) as [k|]; simpl; [|discriminate].
  intros H; inversion H; lia.
Qed.

Lemma add_days_val (d n d' : Z) :
  add_days d n = Val d' <->
  d' = d + n /\ Z.abs n <= MAX_DELTA_DAYS /\ MINORDINAL <= d + n <= MAXORDINAL.
Proof.
  unfold add_days.
  destruct (Z.ltb_spec MAX_DELTA_DAYS (Z.abs n)) as [A|A].
  - split; [discriminate | lia].
  - destruct (Z.leb_spec MINORDINAL (d + n)) as [B|B];
      destruct (Z.leb_spec (d + n) MAXORDINAL) as [C|C];
      simpl; split; intros K; try discriminate; try lia.
    + inversion K. lia.
    + destruct K as [-> _]. reflexivity.
Qed.

(** When [cmd_review] returns, what it has stored and printed. *)
Lemma cmd_review_returns (tid quality : Z) (w w' : world) :
  cmd_review tid quality w = Ok tt w' ->
  exists e n,
    _update_ease (snd (prior tid (reviews_in w))) quality = Val e /\
    next_interval quality (fst (prior tid (reviews_in w))) e = Val n /\
    add_days (clock w) n = Val (clock w + n) /\
    review_of tid (reviews_in w') =
      Some (mk_review tid n (clock w + n) (PyNum.two_decimals e)) /\
    w' = mk_world
           (with_reviews (fs w)
              (map saved (upserted (mk_review tid n (clock w + n) e) (reviews_in w))))
           (clock w) (stdout w ++ [out_next_review tid n (clock w + n)]).
Proof.
  intros H.
  destruct (cmd_review_world tid quality w) as [[x E]|(e & n & d & E1 & E2 & E3 & E)];
    rewrite E in H; [discriminate|]. inversion H; subst w'; clear H.
  pose proof (proj1 (add_days_val _ _ _) E3) as [-> _].
  exists e, n. repeat split; auto.
  unfold reviews_in at 1. simpl. rewrite review_of_saved.
  rewrite (review_of_upserted (mk_review tid n (clock w + n) e)). reflexivity.
Qed.

(** C1. The interval [cmd_review] computes from the quality [q], the prior
    interval [i] and the updated ease [e']: 1 when [q < 3]; 6 when [q >= 3]
    and [i] is 0 or 1; otherwise [max(1, round(i * e'))]; never less than 1.
    It is a value whenever [float(i)] exists and [i * e'] is finite. When
    [cmd_review] returns, this is the interval of the record it has stored
    for the task, and it returns whenever the ease, the interval and the due
    date could be computed. *)
Theorem review_interval (tid quality : Z) (w : world) :
  (forall e',
      (quality < 3 ->
       next_interval quality (fst (prior tid (reviews_in w))) e' = Val 1) /\
      (3 <= quality ->
       fst (prior tid (reviews_in w)) = 0 \/ fst (prior tid (reviews_in w)) = 1 ->
       next_interval quality (fst (prior tid (reviews_in w))) e' = Val 6) /\
      (3 <= quality ->
       fst (prior tid (reviews_in w)) <> 0 -> fst (prior tid (reviews_in w)) <> 1 ->
       next_interval quality (fst (prior tid (reviews_in w))) e' =
       result_bind (PyNum.int_mul_float (fst (prior tid (reviews_in w))) e') (fun x =>
       result_bind (PyNum.py_round x) (fun n => Val (Z.max 1 n)))) /\
      (forall n,
          next_interval quality (fst (prior tid (reviews_in w))) e' = Val n -> 1 <= n) /\
      (forall f,
          PyNum.float_of_int (fst (prior tid (reviews_in w))) = Val f ->
          finite_value (Prim2SF (f * e')%float) = true ->
          exists n, next_interval quality (fst (prior tid (reviews_in w))) e' = Val n)) /\
  (forall w',
      cmd_review tid quality w = Ok tt w' ->
      exists e' r,
        _update_ease (snd (prior tid (reviews_in w))) quality = Val e' /\
        review_of tid (reviews_in w') = Some r /\
        next_interval quality (fst (prior tid (reviews_in w))) e' = Val (interval_days r) /\
        1 <= interval_days r) /\
  (forall e' n,
      _update_ease (snd (prior tid (reviews_in w))) quality = Val e' ->
      next_interval quality (fst (prior tid (reviews_in w))) e' = Val n ->
      MINORDINAL <= clock w + n <= MAXORDINAL -> n <= MAX_DELTA_DAYS ->
      exists w', cmd_review tid quality w = Ok tt w').
Proof.
  split; [|split].
  - intros e'. split; [apply next_interval_low|].
    split; [apply next_interval_first|].
    split; [apply next_interval_grown|].
    split; [intros n; apply next_interval_positive|].
    intros f F R. unfold next_interval, PyNum.int_mul_float.
    destruct (quality <? 3); [eauto|].
    destruct ((_ =? 0) || (_ =? 1)); [eauto|].
    rewrite F. cbn [result_bind]. destruct (py_round_defined _ R) as [n ->].
    cbn [result_bind]. eauto.
  - intros w' H. destruct (cmd_review_returns _ _ _ _ H) as (e & n & E1 & E2 & _ & R & _).
    exists e, (mk_review tid n (clock w + n) (PyNum.two_decimals e)).
    repeat split; auto. simpl. eapply next_interval_positive; eauto.
  - intros e' n E1 E2 R D. rewrite cmd_review_run, E1, E2.
    pose proof (next_interval_positive _ _ _ _ E2) as P.
    replace (add_days (clock w) n) with (Val (A := date) (clock w + n)); [eauto|].
    symmetry. apply add_days_val. lia.
Qed.

(** ** Ease at the qualities the program is used with *)

Lemma update_ease_delta (e k : float) (quality : Z) :
  PyNum.float_of_int (5 - quality) = Val k ->
  _update_ease e quality = Val (PyNum.fmax 1.3%float (e + ease_delta k)%float).
Proof.
  intros H. unfold _update_ease. rewrite H. reflexivity.
Qed.


Lemma cmd_review_keeps_tasks (tid quality : Z) (w : world) :
  tasks_in (world_of (cmd_review tid quality w)) = tasks_in w /\
  clock (world_of (cmd_review tid quality w)) = clock w.
Proof.
  destruct (cmd_review_world tid quality w) as [[x E]|(e & n & d & _ & _ & _ & E)];
    rewrite E; split; reflexivity.
Qed.

(** C6. Whenever [cmd_review] returns, the record it has stored for the
    task is due today plus the stored interval. When the store has no
    record of the task, the update starts from interval 1 and ease 2.5: the
    stored interval is 1 for a quality below 3 and 6 otherwise, the stored
    ease is the update of 2.5 as [_save_reviews] prints it, and the record
    is appended to the store; the call returns whenever [5 - q] converts
    to a float and today is at least six days before the last date. *)
Theorem review_defaults_and_due (tid quality : Z) (w : world) :
  (forall w',
      cmd_review tid quality w = Ok tt w' ->
      exists r,
        review_of tid (reviews_in w') = Some r /\
        due r = clock w + interval_days r /\
        add_days (clock w) (interval_days r) = Val (due r)) /\
  (review_of tid (reviews_in w) = None ->
   prior tid (reviews_in w) = (1, 2.5%float) /\
   (forall w',
       cmd_review tid quality w = Ok tt w' ->
       exists e',
         _update_ease 2.5%float quality = Val e' /\
         review_of tid (reviews_in w') =
           Some (mk_review tid (if quality <? 3 then 1 else 6)
                           (clock w + (if quality <? 3 then 1 else 6))
                           (PyNum.two_decimals e')) /\
         reviews_in w' =
           map saved (reviews_in w ++
                      [mk_review tid (if quality <? 3 then 1 else 6)
                                 (clock w + (if quality <? 3 then 1 else 6)) e'])) /\
   (Z.abs (5 - quality) < 2 ^ 1024 - 2 ^ 970 ->
    MINORDINAL <= clock w -> clock w + 6 <= MAXORDINAL ->
    exists w', cmd_review tid quality w = Ok tt w')).
Proof.
  split.
  - intros w' H. destruct (cmd_review_returns _ _ _ _ H) as (e & n & _ & _ & A & R & _).
    eexists. split; [exact R|]. simpl. split; [reflexivity | exact A].
  - intros N. assert (P : prior tid (reviews_in w) = (1, 2.5%float)).
    { unfold prior. rewrite N. reflexivity. }
    split; [exact P|]. split.
    + intros w' H.
      destruct (cmd_review_returns _ _ _ _ H) as (e & n & E1 & E2 & _ & R & W).
      rewrite P in E1, E2. simpl in E1, E2. exists e. split; [exact E1|].
      assert (n = if quality <? 3 then 1 else 6) as ->.
      { unfold next_interval in E2. destruct (quality <? 3); simpl in E2; congruence. }
      split; [exact R|]. subst w'. unfold reviews_in at 1. simpl.
      unfold upserted. simpl.
      replace (replace_first tid _ (reviews_in w)) with (@None (list review));
        [reflexivity|].
      symmetry. apply replace_first_none. unfold review_of in N.
      intros I. apply in_map_iff in I. destruct I as [r [Er Ir]].
      apply (find_none _ _ N) in Ir. rewrite Er, Z.eqb_refl in Ir. discriminate.
    + intros B L U.
      destruct (proj1 (float_of_int_spec (5 - quality)) B) as (k & K & _).
      pose proof (update_ease_delta 2.5%float k quality K) as E1.
      rewrite cmd_review_run, P. simpl. rewrite E1.
      unfold next_interval. destruct (quality <? 3); simpl.
      * replace (add_days (clock w) 1) with (Val (A := date) (clock w + 1)); [eauto|].
        symmetry. apply add_days_val. unfold MAX_DELTA_DAYS, MINORDINAL in *. lia.
      * replace (add_days (clock w) 6) with (Val (A := date) (clock w + 6)); [eauto|].
        symmetry. apply add_days_val. unfold MAX_DELTA_DAYS, MINORDINAL in *. lia.
Qed.

(** ** The [done] command *)

Lemma main_done_run (tid : Z) (w : world) :
  main_done tid w =
  cmd_review tid 4
    (mk_world
       (with_tasks (fs w) (status_set tid STATUS_DONE (tasks_in w)))
       (clock w)
       (stdout w ++
          [match task_of tid (tasks_in w) with
           | Some t => out_status_updated tid (subject t) (title t) STATUS_DONE
           | None => out_task_not_found tid
           end])).
Proof.
  unfold main_done. unfold bind at 1. rewrite cmd_update_status_run. reflexivity.
Qed.


Lemma status_set_absent (tid : Z) (s : string) (tasks : list task) :
  task_of tid tasks = None -> status_set tid s tasks = tasks.
Proof.
  intros H. unfold status_set. apply (set_status_first_none tid s) in H.
  rewrite H. reflexivity.
Qed.


(** ** Reviews of tasks that do not exist *)

Lemma with_tasks_same (f : files) : with_tasks f (TASKS_FILE f) = f.
Proof. destruct f; reflexivity. Qed.

Lemma cmd_review_keeps_other_files (tid quality : Z) (w : world) :
  SUBJECTS_FILE (fs (world_of (cmd_review tid quality w))) = SUBJECTS_FILE (fs w) /\
  TASKS_FILE (fs (world_of (cmd_review tid quality w))) = TASKS_FILE (fs w) /\
  SESSIONS_FILE (fs (world_of (cmd_review tid quality w))) = SESSIONS_FILE (fs w).
Proof.
  destruct (cmd_review_world tid quality w) as [[x E]|(e & n & d & _ & _ & _ & E)];
    rewrite E; repeat split; reflexivity.
Qed.

(** C4, as the code has it. For a task id that the task store does not
    have, [cmd_update_status] prints that the task was not found and
    leaves every file as it was. [cmd_review] never reads the task store:
    it leaves the subjects, tasks and sessions as they were and, when it
    returns, has stored a record for the id in the review store and has
    printed the next review, not that the task was not found. *)
Theorem review_ignores_task_store (tid quality : Z) (s : string) (w : world) :
  task_of tid (tasks_in w) = None ->
  cmd_update_status tid s w = Ok tt (say w (out_task_not_found tid)) /\
  fs (say w (out_task_not_found tid)) = fs w /\
  SUBJECTS_FILE (fs (world_of (cmd_review tid quality w))) = SUBJECTS_FILE (fs w) /\
  TASKS_FILE (fs (world_of (cmd_review tid quality w))) = TASKS_FILE (fs w) /\
  SESSIONS_FILE (fs (world_of (cmd_review tid quality w))) = SESSIONS_FILE (fs w) /\
  (forall w',
      cmd_review tid quality w = Ok tt w' ->
      exists r,
        review_of tid (reviews_in w') = Some r /\
        task_id r = tid /\
        stdout w' = stdout w ++ [out_next_review tid (interval_days r) (due r)]).
Proof.
  intros H. split; [|split; [reflexivity|]].
  - rewrite cmd_update_status_run, H, (status_set_absent _ _ _ H).
    unfold tasks_in. rewrite with_tasks_same. reflexivity.
  - destruct (cmd_review_keeps_other_files tid quality w) as (A & B & C).
    split; [exact A|]. split; [exact B|]. split; [exact C|].
    intros w' E. destruct (cmd_review_returns _ _ _ _ E) as (e & n & _ & _ & _ & R & W).
    eexists. split; [exact R|]. split; [reflexivity|]. subst w'. reflexivity.
Qed.

Lemma review_ignores_task_store_witness :
  task_of 7 (tasks_in fresh_world) = None /\
  TASKS_FILE (fs (world_of (cmd_review 7 5 fresh_world))) = [] /\
  (forall w',
      cmd_review 7 5 fresh_world = Ok tt w' ->
      exists r,
        review_of 7 (reviews_in w') = Some r /\
        task_id r = 7 /\
        stdout w' = stdout fresh_world ++ [out_next_review 7 (interval_days r) (due r)]).
Proof.
  assert (H : task_of 7 (tasks_in fresh_world) = None) by reflexivity.
  split; [exact H|].
  pose proof (review_ignores_task_store 7 5 STATUS_DONE fresh_world H)
    as (_ & _ & _ & B & _ & C).
  split; [exact B | exact C].
Defined.

(** C4 as stated fails: with no task at all, [review 7 5] returns, prints
    the next review and leaves a record for task 7 in the review store. *)
Lemma review_of_unknown_task_is_stored :
  task_of 7 (tasks_in fresh_world) = None /\
  cmd_review 7 5 fresh_world =
  Ok tt (mk_world
           (mk_files [] [] [mk_review 7 6 739929 2.6%float] [])
           739923
           [out_next_review 7 6 739929]).
Proof.
  split; vm_compute; reflexivity.
Qed.

(** ** Task ids *)

Lemma fold_max_spec (l : list Z) (a : Z) :
  (fold_left Z.max l a = a \/ In (fold_left Z.max l a) l) /\
  a <= fold_left Z.max l a /\
  forall x, In x l -> x <= fold_left Z.max l a.
Proof.
  revert a. induction l as [|y l IH]; intros a; simpl.
  - split; [now left|]. split; [lia | intros x []].
  - destruct (IH (Z.max a y)) as (A & B & C). split; [|split].
    + destruct A as [A|A]; [|right; right; exact A].
      rewrite A. destruct (Z.max_spec a y) as [[_ E]|[_ E]]; rewrite E; auto.
    + lia.
    + intros x [E|Hx]; [subst; lia | now apply C].
Qed.

Lemma next_task_id_spec (tasks : list task) :
  (tasks = [] -> next_task_id tasks = 1) /\
  (tasks <> [] -> exists t, In t tasks /\ next_task_id tasks = id t + 1) /\
  (forall t, In t tasks -> id t < next_task_id tasks).
Proof.
  destruct tasks as [|t rest]; simpl.
  - split; [reflexivity|]. split; [intros H; now elim H | intros t []].
  - destruct (fold_max_spec (map id rest) (id t)) as (A & B & C).
    split; [discriminate|]. split.
    + intros _. destruct A as [A|A].
      * exists t. split; [now left | now rewrite A].
      * apply in_map_iff in A. destruct A as [t' [E I]].
        exists t'. split; [now right | now rewrite E].
    + intros t' [E|I]; [subst; lia|].
      specialize (C (id t') (in_map id _ _ I)). lia.
Qed.

(** [cmd_add_task] with a subject and a title that are not blank. *)
Lemma cmd_add_task_run (strip lower : string -> string) (subject0 title0 : string)
  (w : world) :
  strip subject0 <> ""%string -> strip title0 <> ""%string ->
  exists subjects,
    cmd_add_task strip lower subject0 title0 w =
    Ok tt (mk_world
             (mk_files subjects
                (tasks_in w ++
                   [mk_task (next_task_id (tasks_in w)) (strip subject0) (strip title0)
                            STATUS_TODO])
                (map saved
                   (upserted (mk_review (next_task_id (tasks_in w)) 1 (clock w) 2.5%float)
                             (reviews_in w)))
                (SESSIONS_FILE (fs w)))
             (clock w)
             (stdout w ++
                [out_added_task (next_task_id (tasks_in w)) (strip subject0)
                                (strip title0)])).
Proof.
  intros Hs Ht. unfold cmd_add_task.
  apply String.eqb_neq in Hs. apply String.eqb_neq in Ht. rewrite Hs, Ht. simpl.
  unfold subjects_list, append_subject, upsert_review, upserted, next_task_id,
    tasks_in, reviews_in.
  run_monad.
  destruct (existsb _ _); simpl;
    destruct (TASKS_FILE (fs w)) as [|t rest]; simpl;
    match goal with
    | |- context [replace_first ?a ?b ?c] => destruct (replace_first a b c)
    end; eexists; reflexivity.
Qed.





(** ** The ease update on binary64 *)

(** C9. For every ease [e], the results of [_update_ease] at the qualities
    0 to 5 exist and ascend, [_update_ease(e, 0) <= ... <= _update_ease(e, 5)],
    and whatever the quality the result is at least 1.3. The comparisons
    are those of Python on floats. *)
Theorem ease_monotone_in_quality (e : float) :
  (forall q x, _update_ease e q = Val x -> (1.3 <=? x)%float = true) /\
  exists x0 x1 x2 x3 x4 x5,
    _update_ease e 0 = Val x0 /\ _update_ease e 1 = Val x1 /\
    _update_ease e 2 = Val x2 /\ _update_ease e 3 = Val x3 /\
    _update_ease e 4 = Val x4 /\ _update_ease e 5 = Val x5 /\
    (x0 <=? x1)%float = true /\ (x1 <=? x2)%float = true /\
    (x2 <=? x3)%float = true /\ (x3 <=? x4)%float = true /\
    (x4 <=? x5)%float = true.
Proof.
  split.
  - intros q x. unfold _update_ease.
    destruct (PyNum.float_of_int (5 - q)) as [k|]; simpl; [|discriminate].
    intros H. inversion H. apply fmax_floor.
  - exists (PyNum.fmax 1.3 (e + ease_delta 5)), (PyNum.fmax 1.3 (e + ease_delta 4)),
      (PyNum.fmax 1.3 (e + ease_delta 3)), (PyNum.fmax 1.3 (e + ease_delta 2)),
      (PyNum.fmax 1.3 (e + ease_delta 1)), (PyNum.fmax 1.3 (e + ease_delta 0)).
    repeat split;
      try (apply update_ease_delta; vm_compute; reflexivity);
      apply fmax_add_mono; vm_compute; (reflexivity || discriminate).
Qed.

(** C2, as the code has it. [_update_ease] returns
    [max(1.3, e + (0.1 - k * (0.08 + k * 0.02)))], computed on floats, where
    [k] is [float(5 - q)]: the float nearest to [5 - q], which is [5 - q]
    itself below [2^53]. No quality is rejected for being outside 0 to 5:
    this holds for every integer [q] with [|5 - q| < 2^1024 - 2^970], and
    only from there on does the conversion to a float raise
    [OverflowError]. At quality 5 the ease gains 0.1. At qualities 3 and 0
    it gains -0.14 and -0.8 as floats carry them: the gains are the floats
    next above the floats -0.14 and -0.8, and print as -0.14 and -0.80 with
    the two decimals of the review store. *)
Theorem ease_update_formula (e : float) (q : Z) :
  (Z.abs (5 - q) < 2 ^ 1024 - 2 ^ 970 ->
   exists k,
     PyNum.float_of_int (5 - q) = Val k /\
     Prim2SF k = nearest ((5 - q) * 2 ^ 1074) /\
     (Z.abs (5 - q) < 2 ^ 53 -> units (Prim2SF k) = (5 - q) * 2 ^ 1074) /\
     _update_ease e q =
     Val (PyNum.fmax 1.3 (e + (0.1 - k * (0.08 + k * 0.02)))%float)) /\
  (2 ^ 1024 - 2 ^ 970 <= Z.abs (5 - q) -> _update_ease e q = Exc OverflowError) /\
  _update_ease e 5 = Val (PyNum.fmax 1.3 (e + 0.1)%float) /\
  _update_ease e 3 = Val (PyNum.fmax 1.3 (e + next_up (-0.14))%float) /\
  PyNum.two_decimals (next_up (-0.14)) = (-0.14)%float /\
  _update_ease e 0 = Val (PyNum.fmax 1.3 (e + next_up (-0.8))%float) /\
  PyNum.two_decimals (next_up (-0.8)) = (-0.8)%float.
Proof.
  destruct (float_of_int_spec (5 - q)) as [F O].
  split; [|split; [|split; [|split; [|split; [|split]]]]].
  - intros B. destruct (F B) as (k & K & V & _). exists k.
    split; [exact K|]. split; [exact V|]. split.
    + intros B'. rewrite V. now apply nearest_exact.
    + now apply update_ease_delta.
  - intros B. unfold _update_ease. rewrite (O B). reflexivity.
  - rewrite (update_ease_delta e 0%float 5) by (vm_compute; reflexivity).
    replace (ease_delta 0) with 0.1%float by (vm_compute; reflexivity). reflexivity.
  - rewrite (update_ease_delta e 2%float 3) by (vm_compute; reflexivity).
    replace (ease_delta 2) with (next_up (-0.14)) by (vm_compute; reflexivity).
    reflexivity.
  - vm_compute. reflexivity.
  - rewrite (update_ease_delta e 5%float 0) by (vm_compute; reflexivity).
    replace (ease_delta 5) with (next_up (-0.8)) by (vm_compute; reflexivity).
    reflexivity.
  - vm_compute. reflexivity.
Qed.

(** C2 as stated fails, in two ways. Not every quality is accepted: where
    [5 - q] is [2^1024] the conversion to a float raises [OverflowError].
    And the gains are not the floats -0.14 and -0.8: at quality 3 an ease of
    2 becomes the float 1.86, which is above [2 + -0.14], and at quality 0
    an ease of 2.5 becomes 1.7000000000000002, which is above [2.5 + -0.8];
    nor is the sum taken from left to right: at quality 3 an ease of 2.5
    becomes the float 2.36, which is below
    [2.5 + 0.1 - 2 * (0.08 + 2 * 0.02)]. *)
Lemma ease_update_in_floats :
  _update_ease 2.5 (5 - 2 ^ 1024) = Exc OverflowError /\
  _update_ease 2 3 = Val 1.86%float /\
  (PyNum.fmax 1.3 (2 + -0.14) <? 1.86)%float = true /\
  _update_ease 2.5 0 = Val 1.7000000000000002%float /\
  (PyNum.fmax 1.3 (2.5 + -0.8) <? 1.7000000000000002)%float = true /\
  _update_ease 2.5 3 = Val 2.36%float /\
  (2.36 <? PyNum.fmax 1.3 (2.5 + 0.1 - 2 * (0.08 + 2 * 0.02)))%float = true.
Proof.
  repeat split; vm_compute; reflexivity.
Qed.

(** The update at work: from the default ease, from an ease of 2.0, at the
    floor, at qualities outside 0 to 5, and at a quality too large for a
    float. *)
Example ease_update_examples :
  _update_ease 2.5 5 = Val 2.6%float /\
  _update_ease 2.5 4 = Val 2.5%float /\
  _update_ease 2 3 = Val 1.86%float /\
  _update_ease 1.4 0 = Val 1.3%float /\
  _update_ease 2.5 7 = Val 2.68%float /\
  _update_ease 2.5 (-3) = Val 1.3%float /\
  _update_ease 2.5 (5 - 2 ^ 1024) = Exc OverflowError.
Proof.
  repeat split; vm_compute; reflexivity.
Qed.

(** ** The commands at work *)

(** A first task, a review at quality 5 and a review at quality 2: the task
    gets id 1; the first review graduates it to 6 days at an ease of 2.6,
    the second brings it back to 1 day at an ease of 2.28. *)
Example add_then_review_twice :
  (cmd_add_task AsciiText.strip AsciiText.lower " Math " "Algebra" ;;;
   cmd_review 1 5) fresh_world =
  Ok tt (mk_world
           (mk_files ["Math"%string]
                     [mk_task 1 "Math" "Algebra" STATUS_TODO]
                     [mk_review 1 6 739929 2.6%float]
                     [])
           739923
           [out_added_task 1 "Math" "Algebra"; out_next_review 1 6 739929]) /\
  (cmd_add_task AsciiText.strip AsciiText.lower " Math " "Algebra" ;;;
   cmd_review 1 5 ;;;
   cmd_review 1 2) fresh_world =
  Ok tt (mk_world
           (mk_files ["Math"%string]
                     [mk_task 1 "Math" "Algebra" STATUS_TODO]
                     [mk_review 1 1 739924 2.28%float]
                     [])
           739923
           [out_added_task 1 "Math" "Algebra"; out_next_review 1 6 739929;
            out_next_review 1 1 739924]).
Proof.
  split; vm_compute; reflexivity.
Qed.

(** [done 1] on a task added today: the status is overwritten and the
    review of quality 4 moves the due date by 6 days at an unchanged ease. *)
Example done_on_a_new_task :
  main_done 1 one_task_world =
  Ok tt (mk_world
           (mk_files ["Math"%string]
                     [mk_task 1 "Math" "Algebra" STATUS_DONE]
                     [mk_review 1 6 739929 2.5%float]
                     [])
           739923
           [out_status_updated 1 "Math" "Algebra" STATUS_DONE;
            out_next_review 1 6 739929]).
Proof.
  vm_compute. reflexivity.
Qed.

(** * Further properties

    The rest of the program: the files as text, the subjects, the study
    sessions and the command line. *)

(** ** The files as text *)

Module TextFacts.

Import Text.

#[local] Open Scope string_scope.

Lemma append_empty_r (s : string) : s ++ "" = s.
Proof. induction s as [|c s IH]; simpl; [reflexivity | now rewrite IH]. Qed.

Lemma append_assoc (a b c : string) : (a ++ b) ++ c = a ++ (b ++ c).
Proof. induction a as [|x a IH]; simpl; [reflexivity | now rewrite IH]. Qed.

Lemma write_unlines (lines : list string) : _write lines = Some (unlines lines).
Proof.
  unfold _write, join. f_equal.
  induction lines as [|l [|l' ls] IH].
  - reflexivity.
  - simpl. reflexivity.
  - change (String.concat (String LF "") (l :: l' :: ls))
      with (l ++ String LF "" ++ String.concat (String LF "") (l' :: ls)).
    rewrite append_assoc. simpl in *. now rewrite IH.
Qed.

Lemma contains_app (c : ascii) (a b : string) :
  contains c (a ++ b) = contains c a || contains c b.
Proof.
  induction a as [|x a IH]; simpl; [reflexivity|]. rewrite IH. now rewrite orb_assoc.
Qed.

Lemma universal_without_CR (s : string) :
  contains CR s = false -> universal_newlines s = s.
Proof.
  induction s as [|c s IH]; simpl; [reflexivity|].
  intros H. apply orb_false_iff in H. destruct H as [H1 H2].
  rewrite H1. now rewrite IH.
Qed.

Lemma file_lines_line (l rest : string) :
  contains LF l = false ->
  file_lines (l ++ String LF rest) = (l ++ String LF "") :: file_lines rest.
Proof.
  induction l as [|c l IH]; simpl; intros H.
  - reflexivity.
  - apply orb_false_iff in H. destruct H as [H1 H2].
    rewrite H1. now rewrite IH.
Qed.

Lemma rstrip_line (l : string) :
  contains LF l = false -> rstrip_newlines (l ++ String LF "") = l.
Proof.
  induction l as [|c l IH]; simpl; intros H.
  - reflexivity.
  - apply orb_false_iff in H. destruct H as [H1 H2].
    rewrite IH by exact H2. rewrite H1. now destruct l.
Qed.

Lemma one_line_parts (s : string) :
  one_line s = true -> contains LF s = false /\ contains CR s = false.
Proof.
  unfold one_line. intros H. apply andb_true_iff in H. destruct H as [A B].
  now rewrite negb_true_iff in A, B.
Qed.

Lemma unlines_without_CR (lines : list string) :
  forallb one_line lines = true -> contains CR (unlines lines) = false.
Proof.
  induction lines as [|l ls IH]; simpl; intros H; [reflexivity|].
  apply andb_true_iff in H. destruct H as [A B].
  destruct (one_line_parts l A) as [_ C].
  rewrite contains_app, C. simpl. now apply IH.
Qed.

Lemma read_unlines (lines : list string) :
  forallb one_line lines = true ->
  map rstrip_newlines (file_lines (unlines lines)) = lines.
Proof.
  induction lines as [|l ls IH]; simpl; intros H; [reflexivity|].
  apply andb_true_iff in H. destruct H as [A B].
  destruct (one_line_parts l A) as [C _].
  rewrite file_lines_line by exact C. simpl.
  rewrite rstrip_line by exact C. now rewrite IH.
Qed.

Lemma read_written (lines : list string) :
  forallb one_line lines = true -> _read (_write lines) = lines.
Proof.
  intros H. rewrite write_unlines. unfold _read.
  rewrite universal_without_CR by now apply unlines_without_CR.
  now apply read_unlines.
Qed.

Lemma terminated_text_cons (c : ascii) (s : string) :
  s <> "" -> terminated_text (String c s) = terminated_text s.
Proof. destruct s; [congruence | reflexivity]. Qed.

Lemma terminated_snoc (s : string) : terminated_text (s ++ String LF "") = true.
Proof.
  induction s as [|c s IH]; [reflexivity|].
  simpl append. rewrite terminated_text_cons; [exact IH | now destruct s].
Qed.

Lemma universal_app_len (n : nat) :
  forall a b, (String.length a <= n)%nat -> terminated_text a = true ->
    universal_newlines (a ++ b) = universal_newlines a ++ universal_newlines b /\
    terminated_text (universal_newlines a) = true.
Proof.
  induction n as [|n IH]; intros a b L T.
  - destruct a; [split; reflexivity | simpl in L; lia].
  - destruct a as [|c a]; [split; reflexivity|].
    simpl in L.
    destruct (Ascii.eqb c CR) eqn:E.
    + destruct a as [|c' a].
      * apply Ascii.eqb_eq in E. subst c. discriminate T.
      * destruct (Ascii.eqb c' LF) eqn:E'.
        -- assert (T' : terminated_text a = true).
           { destruct a; [reflexivity|]. exact T. }
           simpl in L. destruct (IH a b ltac:(lia) T') as [A B].
           simpl. rewrite E, E'. rewrite A. split; [reflexivity|].
           destruct (universal_newlines a) eqn:U; [reflexivity|]. exact B.
        -- assert (T' : terminated_text (String c' a) = true) by exact T.
           destruct (IH (String c' a) b ltac:(simpl in *; lia) T') as [A B].
           change (universal_newlines (String c (String c' a) ++ b))
             with (if Ascii.eqb c CR
                   then if Ascii.eqb c' LF then String LF (universal_newlines (a ++ b))
                        else String LF (universal_newlines (String c' a ++ b))
                   else String c (universal_newlines (String c' a ++ b))).
           change (universal_newlines (String c (String c' a)))
             with (if Ascii.eqb c CR
                   then if Ascii.eqb c' LF then String LF (universal_newlines a)
                        else String LF (universal_newlines (String c' a))
                   else String c (universal_newlines (String c' a))).
           rewrite E, E', A. split; [reflexivity|].
           rewrite terminated_text_cons; [exact B|].
           simpl. destruct (Ascii.eqb c' CR); [destruct a as [|c'' a]; [discriminate|destruct (Ascii.eqb c'' LF); discriminate] | discriminate].
    + destruct a as [|c' a].
      * simpl. rewrite E. split; [reflexivity|]. exact T.
      * assert (T' : terminated_text (String c' a) = true) by exact T.
        destruct (IH (String c' a) b ltac:(simpl in *; lia) T') as [A B].
        change (universal_newlines (String c (String c' a) ++ b))
          with (if Ascii.eqb c CR
                then if Ascii.eqb c' LF then String LF (universal_newlines (a ++ b))
                     else String LF (universal_newlines (String c' a ++ b))
                else String c (universal_newlines (String c' a ++ b))).
        change (universal_newlines (String c (String c' a)))
          with (if Ascii.eqb c CR
                then if Ascii.eqb c' LF then String LF (universal_newlines a)
                     else String LF (universal_newlines (String c' a))
                else String c (universal_newlines (String c' a))).
        rewrite E, A. split; [reflexivity|].
        rewrite terminated_text_cons; [exact B|].
        simpl. destruct (Ascii.eqb c' CR); [destruct a as [|c'' a]; [discriminate|destruct (Ascii.eqb c'' LF); discriminate] | discriminate].
Qed.

Lemma file_lines_nonempty (s : string) : s <> "" -> file_lines s <> [].
Proof.
  destruct s as [|c s]; [congruence|]. intros _. simpl.
  destruct (Ascii.eqb c LF); [discriminate|]. destruct (file_lines s); discriminate.
Qed.

Lemma file_lines_app (a b : string) :
  terminated_text a = true -> file_lines (a ++ b) = (file_lines a ++ file_lines b)%list.
Proof.
  induction a as [|c a IH]; intros T; [reflexivity|].
  destruct a as [|c' a].
  - simpl in T. simpl. rewrite T. reflexivity.
  - assert (T' : terminated_text (String c' a) = true) by exact T.
    specialize (IH T').
    change (file_lines (String c (String c' a) ++ b))
      with (if Ascii.eqb c LF then String c "" :: file_lines (String c' a ++ b)
            else match file_lines (String c' a ++ b) with
                 | [] => [String c ""]
                 | ln :: lns => String c ln :: lns
                 end).
    change (file_lines (String c (String c' a)))
      with (if Ascii.eqb c LF then String c "" :: file_lines (String c' a)
            else match file_lines (String c' a) with
                 | [] => [String c ""]
                 | ln :: lns => String c ln :: lns
                 end).
    rewrite IH. destruct (Ascii.eqb c LF); [reflexivity|].
    pose proof (file_lines_nonempty (String c' a) ltac:(discriminate)) as N.
    destruct (file_lines (String c' a)); [congruence | reflexivity].
Qed.

Lemma read_appended_line (line : string) :
  one_line line = true -> _read (_append None line) = [line].
Proof.
  intros O. destruct (one_line_parts line O) as [A B].
  unfold _append, _read. simpl append.
  rewrite universal_without_CR by (rewrite contains_app, B; reflexivity).
  replace (line ++ String LF "") with (unlines [line]) by reflexivity.
  apply read_unlines. simpl. now rewrite O.
Qed.

Lemma read_append (f : file) (line : string) :
  terminated f = true ->
  _read (_append f line) = (_read f ++ _read (_append None line))%list.
Proof.
  intros T. destruct f as [text|]; [|reflexivity].
  unfold _append, _read. simpl in T.
  destruct (universal_app_len (String.length text) text (line ++ String LF "")
              ltac:(lia) T) as [A B].
  rewrite A, file_lines_app by exact B. now rewrite map_app.
Qed.

Lemma append_terminated (f : file) (line : string) : terminated (_append f line) = true.
Proof. unfold _append, terminated. rewrite <- append_assoc. apply terminated_snoc. Qed.

Lemma write_terminated (lines : list string) : terminated (_write lines) = true.
Proof.
  rewrite write_unlines. simpl. induction lines as [|l ls IH]; [reflexivity|].
  simpl. destruct ls as [|l' ls].
  - simpl. apply terminated_snoc.
  - clear IH. replace (l ++ String LF (unlines (l' :: ls)))
      with ((l ++ String LF "") ++ unlines (l' :: ls)) by (rewrite append_assoc; reflexivity).
    revert l. induction (l' :: ls) as [|x xs IHx]; intros l.
    + rewrite append_empty_r. apply terminated_snoc.
    + simpl. replace ((l ++ String LF "") ++ x ++ String LF (unlines xs))
        with ((((l ++ String LF "") ++ x) ++ String LF "") ++ unlines xs)
        by (rewrite !append_assoc; reflexivity).
      apply IHx.
Qed.

Lemma universal_no_CR (n : nat) :
  forall s, (String.length s <= n)%nat -> contains CR (universal_newlines s) = false.
Proof.
  induction n as [|n IH]; intros s L.
  - destruct s; [reflexivity | simpl in L; lia].
  - destruct s as [|c s]; [reflexivity|]. simpl in L.
    destruct s as [|c' s].
    + simpl. destruct (Ascii.eqb c CR) eqn:E; simpl; [reflexivity|]. now rewrite E.
    + change (universal_newlines (String c (String c' s)))
        with (if Ascii.eqb c CR
              then if Ascii.eqb c' LF then String LF (universal_newlines s)
                   else String LF (universal_newlines (String c' s))
              else String c (universal_newlines (String c' s))).
      simpl in L.
      destruct (Ascii.eqb c CR) eqn:E.
      * destruct (Ascii.eqb c' LF); cbn [contains];
          change (Ascii.eqb LF CR) with false; cbn [orb]; apply IH; simpl; lia.
      * cbn [contains]. rewrite E. cbn [orb]. apply IH. simpl. lia.
Qed.

Lemma rstrip_one_line (c : ascii) (ln : string) :
  Ascii.eqb c LF = false -> Ascii.eqb c CR = false ->
  one_line (rstrip_newlines ln) = true ->
  one_line (rstrip_newlines (String c ln)) = true.
Proof.
  intros A B H. cbn [rstrip_newlines]. destruct (rstrip_newlines ln) as [|x kept].
  - rewrite A. unfold one_line. cbn [contains]. now rewrite A, B.
  - unfold one_line in *. cbn [contains] in *. now rewrite A, B.
Qed.

Lemma file_lines_one_line (s : string) :
  contains CR s = false ->
  forallb (fun ln => one_line (rstrip_newlines ln)) (file_lines s) = true.
Proof.
  induction s as [|c s IH]; intros H; [reflexivity|].
  cbn [contains] in H. apply orb_false_iff in H. destruct H as [H1 H2].
  specialize (IH H2). cbn [file_lines].
  destruct (Ascii.eqb c LF) eqn:E.
  - cbn [forallb]. rewrite IH. apply Ascii.eqb_eq in E. subst c. reflexivity.
  - destruct (file_lines s) as [|ln lns].
    + cbn [forallb]. rewrite andb_true_r.
      apply rstrip_one_line; [exact E | exact H1 | reflexivity].
    + cbn [forallb] in *. apply andb_true_iff in IH. destruct IH as [I1 I2].
      rewrite I2, andb_true_r. now apply rstrip_one_line.
Qed.

Lemma read_one_line (f : file) : forallb one_line (_read f) = true.
Proof.
  destruct f as [text|]; [|reflexivity]. unfold _read.
  pose proof (file_lines_one_line (universal_newlines text)
                (universal_no_CR (String.length text) text (le_n _))) as H.
  induction (file_lines (universal_newlines text)) as [|ln lns IH]; [reflexivity|].
  cbn [forallb map] in *. apply andb_true_iff in H. destruct H as [A B].
  now rewrite A, IH.
Qed.

(** X1. [_read] gives back the lines that [_write] wrote exactly when none
    of them holds a line feed or a carriage return. *)
Theorem written_lines_are_read_back (lines : list string) :
  _read (_write lines) = lines <-> forallb one_line lines = true.
Proof.
  split.
  - intros E. rewrite <- E. apply read_one_line.
  - apply read_written.
Qed.

(** X2. After [_append] to a file that is empty, missing, or ends in a line
    feed, [_read] gives the lines it gave before followed by the lines of
    what was appended, which is the one line itself when that holds no
    line feed and no carriage return; and the file ends in a line feed
    again. *)
Theorem appended_line_is_read_last (f : file) (line : string) :
  terminated f = true ->
  _read (_append f line) = (_read f ++ _read (_append None line))%list /\
  (one_line line = true -> _read (_append f line) = (_read f ++ [line])%list) /\
  terminated (_append f line) = true.
Proof.
  intros T. split; [now apply read_append|]. split.
  - intros O. rewrite read_append by exact T. now rewrite read_appended_line.
  - apply append_terminated.
Qed.

Lemma appended_line_is_read_last_witness :
  terminated (_write ["Math"; "Physics"]) = true /\
  _read (_append (_write ["Math"; "Physics"]) "Chemistry") =
    ["Math"; "Physics"; "Chemistry"].
Proof.
  split; [reflexivity|].
  exact (proj1 (proj2 (appended_line_is_read_last
                         (_write ["Math"; "Physics"]) "Chemistry" eq_refl)) eq_refl).
Defined.

Lemma split_nonempty (sep : ascii) (s : string) : split sep s <> [].
Proof.
  destruct s as [|c s]; simpl; [discriminate|].
  destruct (Ascii.eqb c sep); [discriminate|]. destruct (split sep s); discriminate.
Qed.

Lemma split_length (sep : ascii) (s : string) :
  List.length (split sep s) = S (count sep s).
Proof.
  induction s as [|c s IH]; simpl; [reflexivity|].
  destruct (Ascii.eqb c sep); simpl; [now rewrite IH|].
  pose proof (split_nonempty sep s) as N.
  destruct (split sep s); [congruence | exact IH].
Qed.

Lemma count_app (c : ascii) (a b : string) :
  count c (a ++ b) = (count c a + count c b)%nat.
Proof. induction a as [|x a IH]; simpl; [reflexivity | rewrite IH; lia]. Qed.

Lemma count_contains (c : ascii) (s : string) :
  contains c s = false <-> count c s = O.
Proof.
  induction s as [|x s IH]; simpl; [tauto|].
  destruct (Ascii.eqb x c); simpl; [split; [discriminate | lia] | exact IH].
Qed.

Lemma split_field (sep : ascii) (a b : string) :
  contains sep a = false -> split sep (a ++ String sep b) = a :: split sep b.
Proof.
  induction a as [|c a IH]; simpl; intros H.
  - now rewrite Ascii.eqb_refl.
  - apply orb_false_iff in H. destruct H as [H1 H2].
    rewrite H1, IH by exact H2. reflexivity.
Qed.

Lemma split_last (sep : ascii) (a : string) :
  contains sep a = false -> split sep a = [a].
Proof.
  induction a as [|c a IH]; simpl; intros H; [reflexivity|].
  apply orb_false_iff in H. destruct H as [H1 H2].
  rewrite H1, IH by exact H2. reflexivity.
Qed.

Lemma split_join (sep : ascii) (p : string) (ps : list string) :
  forallb (fun s => negb (contains sep s)) (p :: ps) = true ->
  split sep (join (String sep "") (p :: ps)) = p :: ps.
Proof.
  revert p. induction ps as [|q ps IH]; intros p H.
  - simpl in *. apply split_last. rewrite andb_true_r in H. now apply negb_true_iff.
  - change (join (String sep "") (p :: q :: ps))
      with (p ++ String sep (join (String sep "") (q :: ps))).
    simpl in H. apply andb_true_iff in H. destruct H as [A B].
    rewrite split_field by now apply negb_true_iff.
    f_equal. apply IH. exact B.
Qed.

Section TaskLines.

Variable strip : string -> string.

Lemma clean_field_parts (s : string) :
  clean_field strip s = true ->
  one_line s = true /\ contains BAR s = false /\ strip s = s.
Proof.
  unfold clean_field. intros H.
  apply andb_true_iff in H. destruct H as [H C].
  apply andb_true_iff in H. destruct H as [A B].
  apply negb_true_iff in B. apply String.eqb_eq in C. auto.
Qed.

Lemma one_line_app (a b : string) :
  one_line a = true -> one_line b = true -> one_line (a ++ b) = true.
Proof.
  intros A B. destruct (one_line_parts a A) as [A1 A2].
  destruct (one_line_parts b B) as [B1 B2].
  unfold one_line. now rewrite !contains_app, A1, A2, B1, B2.
Qed.

Lemma task_line_one_line (t : task) :
  one_line (id t) = true -> one_line (subject t) = true ->
  one_line (title t) = true -> one_line (status t) = true ->
  one_line (task_line t) = true.
Proof.
  intros A B C D. unfold task_line, join. simpl.
  repeat (apply one_line_app; [assumption|]; apply (one_line_app "|"); [reflexivity|]).
  exact D.
Qed.

Lemma parse_task_line (t : task) :
  clean_task strip t = true -> _parse_task strip (task_line t) = Some t.
Proof.
  unfold clean_task. intros H.
  apply andb_true_iff in H. destruct H as [H D].
  apply andb_true_iff in H. destruct H as [H C].
  apply andb_true_iff in H. destruct H as [A B].
  destruct (clean_field_parts _ A) as (_ & A2 & A3).
  destruct (clean_field_parts _ B) as (_ & B2 & B3).
  destruct (clean_field_parts _ C) as (_ & C2 & C3).
  destruct (clean_field_parts _ D) as (_ & D2 & D3).
  unfold _parse_task, task_line.
  rewrite (split_join BAR) by (simpl; now rewrite A2, B2, C2, D2).
  simpl. rewrite A3, B3, C3, D3. now destruct t.
Qed.

Lemma parse_task_barred (t : task) :
  barred t = true -> _parse_task strip (task_line t) = None.
Proof.
  unfold barred. intros H. unfold _parse_task.
  assert (L : List.length (map strip (split BAR (task_line t))) <> 4%nat).
  { rewrite length_map, split_length. unfold task_line, join. simpl.
    rewrite !count_app. simpl. rewrite !count_app. simpl. rewrite !count_app. simpl.
    assert (N : (count BAR (id t) + count BAR (subject t) +
                 count BAR (title t) + count BAR (status t) <> 0)%nat).
    { intros Z.
      assert (Z1 : count BAR (id t) = O) by lia.
      assert (Z2 : count BAR (subject t) = O) by lia.
      assert (Z3 : count BAR (title t) = O) by lia.
      assert (Z4 : count BAR (status t) = O) by lia.
      apply count_contains in Z1, Z2, Z3, Z4.
      rewrite Z1, Z2, Z3, Z4 in H. discriminate. }
    lia. }
  destruct (map strip (split BAR (task_line t))) as [|a [|b [|c [|d [|e l]]]]];
    try reflexivity.
  simpl in L. congruence.
Qed.

Lemma tasks_list_lines (lines : list string) :
  forallb one_line lines = true ->
  tasks_list strip (_write lines) =
  flat_map (fun ln => match _parse_task strip ln with Some t => [t] | None => [] end) lines.
Proof.
  intros H. unfold tasks_list. now rewrite read_written.
Qed.

End TaskLines.

Section SavedTasks.

Variable strip : string -> string.

Lemma stripped_field_parts (s : string) :
  stripped_field strip s = true -> one_line s = true /\ strip s = s.
Proof.
  unfold stripped_field. intros H. apply andb_true_iff in H. destruct H as [A B].
  apply String.eqb_eq in B. auto.
Qed.

Lemma stripped_task_line (t : task) :
  stripped_task strip t = true -> one_line (task_line t) = true.
Proof.
  unfold stripped_task. intros H.
  apply andb_true_iff in H. destruct H as [H D].
  apply andb_true_iff in H. destruct H as [H C].
  apply andb_true_iff in H. destruct H as [A B].
  apply task_line_one_line; eapply stripped_field_parts; eassumption.
Qed.

Lemma stripped_task_clean (t : task) :
  stripped_task strip t = true -> barred t = false -> clean_task strip t = true.
Proof.
  unfold stripped_task, barred, clean_task, clean_field, stripped_field. intros H N.
  apply orb_false_iff in N. destruct N as [N N4].
  apply orb_false_iff in N. destruct N as [N N3].
  apply orb_false_iff in N. destruct N as [N1 N2].
  rewrite N1, N2, N3, N4. simpl.
  apply andb_true_iff in H. destruct H as [H D].
  apply andb_true_iff in H. destruct H as [H C].
  apply andb_true_iff in H. destruct H as [A B].
  apply andb_true_iff in A, B, C, D.
  destruct A as [A1 A2], B as [B1 B2], C as [C1 C2], D as [D1 D2].
  now rewrite A1, A2, B1, B2, C1, C2, D1, D2.
Qed.

(** X3. The tasks that [tasks_list] reads from the file that [_save_tasks]
    wrote are the saved tasks without those that have a bar in a field, in
    the order they were saved in: a task without a bar comes back as it
    was, a task with one is lost. The fields are single lines that [strip]
    leaves as they are. *)
Theorem saved_tasks_are_read_back (tasks : list task) :
  forallb (stripped_task strip) tasks = true ->
  tasks_list strip (_save_tasks tasks) = filter (fun t => negb (barred t)) tasks.
Proof.
  intros H. unfold _save_tasks. rewrite tasks_list_lines.
  - induction tasks as [|t ts IH]; [reflexivity|].
    simpl in H. apply andb_true_iff in H. destruct H as [A B].
    simpl. rewrite (IH B). destruct (barred t) eqn:E; simpl.
    + now rewrite parse_task_barred.
    + now rewrite parse_task_line by now apply stripped_task_clean.
  - induction tasks as [|t ts IH]; [reflexivity|].
    simpl in H. apply andb_true_iff in H. destruct H as [A B].
    simpl. rewrite IH by exact B. rewrite andb_true_r.
    now apply stripped_task_line.
Qed.

End SavedTasks.

Lemma saved_tasks_are_read_back_witness :
  tasks_list AsciiText.strip
    (_save_tasks [mk_task "1" "Math" "Algebra" "todo";
                  mk_task "2" "Math" "Sets | Logic" "todo";
                  mk_task "3" "Physics" "Optics" "doing"]) =
  [mk_task "1" "Math" "Algebra" "todo"; mk_task "3" "Physics" "Optics" "doing"].
Proof.
  exact (saved_tasks_are_read_back AsciiText.strip
           [mk_task "1" "Math" "Algebra" "todo";
            mk_task "2" "Math" "Sets | Logic" "todo";
            mk_task "3" "Physics" "Optics" "doing"] eq_refl).
Defined.

Lemma replicate_length (n : nat) (c : ascii) : String.length (replicate n c) = n.
Proof. induction n; simpl; congruence. Qed.

Lemma append_length (a b : string) :
  String.length (a ++ b) = (String.length a + String.length b)%nat.
Proof. induction a as [|c a IH]; simpl; [reflexivity | now rewrite IH]. Qed.

Lemma ljust_length (s : string) (w : nat) :
  (String.length s <= w)%nat -> String.length (ljust s w) = w.
Proof. intros H. unfold ljust. rewrite append_length, replicate_length. lia. Qed.

Lemma join_length (sep : string) (parts : list string) :
  String.length (join sep parts) =
  (list_sum (map String.length parts) +
   String.length sep * (List.length parts - 1))%nat.
Proof.
  unfold join. induction parts as [|p [|q ps] IH].
  - simpl. lia.
  - simpl. lia.
  - change (String.concat sep (p :: q :: ps))
      with (p ++ sep ++ String.concat sep (q :: ps)).
    rewrite !append_length, IH. simpl. lia.
Qed.

Lemma cells_line_length (widths : list nat) (cells : list string) :
  fits cells widths -> String.length (cells_line widths cells) = line_width widths.
Proof.
  intros F. unfold cells_line, line_width. rewrite join_length.
  assert (A : map String.length
                (map (fun cw => ljust (fst cw) (snd cw)) (combine cells widths)) = widths).
  { induction F as [|c w cs ws L F IH]; [reflexivity|].
    simpl. rewrite ljust_length by exact L. now rewrite IH. }
  rewrite A, length_map, length_combine.
  assert (E : List.length cells = List.length widths).
  { clear A. induction F; simpl; [reflexivity | now f_equal]. }
  rewrite E, Nat.min_id. reflexivity.
Qed.

Lemma rule_length (widths : list nat) :
  String.length (join "-+-" (map (fun w => replicate w "-") widths)) =
  line_width widths.
Proof.
  unfold line_width. rewrite join_length, !length_map, map_map.
  rewrite (map_ext _ (fun w => w) (fun w => replicate_length w "-")), map_id.
  reflexivity.
Qed.

Lemma widen_fits (row : list string) :
  forall widths,
    List.length row = List.length widths ->
    exists widths',
      widen widths row = Some widths' /\
      Forall2 le widths widths' /\ fits row widths'.
Proof.
  induction row as [|cell cells IH]; intros [|w ws] L; simpl in L; try discriminate.
  - exists []. repeat split; constructor.
  - destruct (IH ws ltac:(lia)) as (ws' & E & M & F).
    exists (Nat.max w (String.length cell) :: ws'). simpl. rewrite E.
    repeat split; constructor; auto; lia.
Qed.

Lemma Forall2_le_length (a b : list nat) : Forall2 le a b -> List.length a = List.length b.
Proof. induction 1; simpl; [reflexivity | now f_equal]. Qed.

Lemma fits_mono (cells : list string) (a b : list nat) :
  fits cells a -> Forall2 le a b -> fits cells b.
Proof.
  intros F. revert b. induction F as [|c w cs ws L F IH]; intros b M; inversion M; subst.
  - constructor.
  - constructor; [lia | now apply IH].
Qed.

Lemma Forall2_le_refl (a : list nat) : Forall2 le a a.
Proof. induction a; constructor; auto. Qed.

Lemma Forall2_le_trans (a b c : list nat) :
  Forall2 le a b -> Forall2 le b c -> Forall2 le a c.
Proof.
  intros A. revert c. induction A; intros c B; inversion B; subst; constructor;
    [lia | auto].
Qed.

Lemma column_widths_fit (rows : list (list string)) :
  forall widths,
    Forall (fun row => List.length row = List.length widths) rows ->
    exists widths',
      column_widths widths rows = Some widths' /\
      Forall2 le widths widths' /\
      Forall (fun row => fits row widths') rows.
Proof.
  induction rows as [|row rest IH]; intros widths A.
  - exists widths. repeat split; [apply Forall2_le_refl | constructor].
  - inversion A as [|? ? L A']; subst.
    destruct (widen_fits row widths L) as (w1 & E1 & M1 & F1).
    assert (A1 : Forall (fun r => List.length r = List.length w1) rest).
    { rewrite <- (Forall2_le_length _ _ M1). exact A'. }
    destruct (IH w1 A1) as (w2 & E2 & M2 & F2).
    exists w2. simpl. rewrite E1. repeat split.
    + exact E2.
    + eapply Forall2_le_trans; eassumption.
    + constructor; [eapply fits_mono; eassumption | exact F2].
Qed.

Lemma widen_none (row : list string) :
  forall widths,
    widen widths row = None <-> (List.length widths < List.length row)%nat.
Proof.
  induction row as [|cell cells IH]; intros [|w ws]; simpl.
  - split; [discriminate | lia].
  - split; [discriminate | lia].
  - split; [lia | reflexivity].
  - specialize (IH ws). destruct (widen ws cells).
    + split; [discriminate|]. intros H.
      destruct IH as [_ IH]. specialize (IH ltac:(lia)). discriminate.
    + split; [|reflexivity]. intros _. destruct IH as [IH _]. specialize (IH eq_refl). lia.
Qed.

Lemma widen_length (row : list string) :
  forall widths widths', widen widths row = Some widths' ->
                         List.length widths' = List.length widths.
Proof.
  induction row as [|cell cells IH]; intros [|w ws] ws' E; simpl in E;
    try (injection E as <-; reflexivity); try discriminate.
  destruct (widen ws cells) eqn:W; [|discriminate]. injection E as <-.
  simpl. f_equal. now apply IH.
Qed.

Lemma column_widths_none (rows : list (list string)) :
  forall widths,
    column_widths widths rows = None <->
    Exists (fun row => (List.length widths < List.length row)%nat) rows.
Proof.
  induction rows as [|row rest IH]; intros widths; simpl.
  - split; [discriminate | intros H; inversion H].
  - destruct (widen widths row) as [w1|] eqn:W.
    + rewrite IH. rewrite (widen_length _ _ _ W).
      split; intros H.
      * now apply Exists_cons_tl.
      * inversion H as [? ? H1|? ? H1]; subst; [|exact H1].
        apply widen_none in H1. congruence.
    + split; [|reflexivity]. intros _. apply Exists_cons_hd. now apply widen_none.
Qed.

(** X4. [_table] raises [IndexError], before it prints anything, exactly
    when some row has more cells than there are headers. When every row has
    as many cells as there are headers it prints the header line, the rule
    and one line for each row, no cell is wider than its column, and all
    the lines have the same length. *)
Theorem table_lines_are_aligned (headers : list string) (rows : list (list string)) :
  (_table headers rows = None <->
   Exists (fun row => (List.length headers < List.length row)%nat) rows) /\
  (Forall (fun row => List.length row = List.length headers) rows ->
   exists widths lines,
     _table headers rows = Some lines /\
     List.length lines = (2 + List.length rows)%nat /\
     fits headers widths /\
     Forall (fun row => fits row widths) rows /\
     Forall (fun ln => String.length ln = line_width widths) lines).
Proof.
  unfold _table. split.
  - rewrite <- (length_map String.length headers).
    rewrite <- column_widths_none.
    destruct (column_widths _ rows); split; congruence.
  - intros A.
    assert (A' : Forall (fun row => List.length row =
                                   List.length (map String.length headers)) rows)
      by now rewrite length_map.
    destruct (column_widths_fit rows _ A') as (W & E & M & F).
    assert (FH : fits headers W).
    { apply fits_mono with (a := map String.length headers); [|exact M].
      clear. induction headers; simpl; constructor; auto. }
    exists W. eexists. rewrite E. split; [reflexivity|].
    split; [simpl; now rewrite length_map|].
    split; [exact FH|]. split; [exact F|].
    constructor; [now apply cells_line_length|].
    constructor; [apply rule_length|].
    apply Forall_map. eapply Forall_impl; [|exact F].
    intros row Hr. now apply cells_line_length.
Qed.

End TextFacts.

(** ** Commands on the console *)

Lemma console_eta (c : console) : mk_console (disk c) (now c) (screen c) = c.
Proof. now destruct c. Qed.

Lemma scheduler_run {A : Type} (m : M A) (c : console) :
  scheduler m c =
  match m (world_in c) with
  | Ok a w => Returned a (console_after c w)
  | Raise e w => Raised e (console_after c w)
  end.
Proof. reflexivity. Qed.

Lemma console_after_reads (c : console) : console_after c (world_in c) = c.
Proof. unfold console_after, world_in. simpl. rewrite app_nil_r. apply console_eta. Qed.

Lemma scheduler_subjects_list (strip : string -> string) (c : console) :
  scheduler (subjects_list strip) c = Returned (subject_names strip (disk c)) c.
Proof.
  rewrite scheduler_run. unfold subjects_list. run_monad.
  now rewrite console_after_reads.
Qed.

Lemma scheduler_tasks_list (c : console) :
  scheduler tasks_list c = Returned (TASKS_FILE (disk c)) c.
Proof.
  rewrite scheduler_run. run_monad. now rewrite console_after_reads.
Qed.

Lemma scheduler_load_reviews (c : console) :
  scheduler load_reviews c = Returned (REVIEWS_FILE (disk c)) c.
Proof.
  rewrite scheduler_run. run_monad. now rewrite console_after_reads.
Qed.

(** ** Subjects *)

Lemma cmd_add_subject_run (strip lower : string -> string) (name0 : string)
  (c : console) :
  cmd_add_subject strip lower name0 c =
  Returned tt
    (if String.eqb (strip name0) "" then show c out_subject_empty
     else if existsb (String.eqb (lower (strip name0)))
                     (map lower (subject_names strip (disk c)))
     then show c (out_subject_exists (strip name0))
     else mk_console
            (with_subjects (disk c) (SUBJECTS_FILE (disk c) ++ appended (strip name0)))
            (now c) (screen c ++ [out_added_subject (strip name0)])).
Proof.
  unfold cmd_add_subject. destruct (String.eqb (strip name0) ""); [reflexivity|].
  unfold cbind at 1. rewrite scheduler_subjects_list.
  destruct (existsb _ _); reflexivity.
Qed.

Lemma existsb_eqb_In (x : string) (l : list string) :
  existsb (String.eqb x) l = true <-> In x l.
Proof.
  rewrite existsb_exists. split.
  - intros [y [I E]]. apply String.eqb_eq in E. now subst.
  - intros I. exists x. split; [exact I | apply String.eqb_refl].
Qed.

Lemma subject_names_app (strip : string -> string) (f : files) (lines : list string) :
  subject_names strip (with_subjects f (SUBJECTS_FILE f ++ lines)) =
  subject_names strip f ++ filter (fun s => negb (String.eqb s "")) (map strip lines).
Proof. unfold subject_names. simpl. now rewrite map_app, filter_app. Qed.

Lemma NoDup_snoc_string (x : string) (l : list string) :
  NoDup l -> ~ In x l -> NoDup (l ++ [x]).
Proof.
  intros N I. induction N as [|y l Hy N IH]; simpl.
  - constructor; [intros [] | constructor].
  - constructor.
    + rewrite in_app_iff. intros [H|[H|[]]]; [contradiction|].
      subst. apply I. now left.
    + apply IH. intros H. apply I. now right.
Qed.

Lemma cmd_add_task_subjects (strip lower : string -> string) (subject0 title0 : string)
  (w : world) :
  SUBJECTS_FILE (fs (world_of (cmd_add_task strip lower subject0 title0 w))) =
  if String.eqb (strip subject0) "" || String.eqb (strip title0) ""
  then SUBJECTS_FILE (fs w)
  else if existsb (String.eqb (lower (strip subject0)))
                  (map lower (subject_names strip (fs w)))
  then SUBJECTS_FILE (fs w)
  else SUBJECTS_FILE (fs w) ++ [strip subject0].
Proof.
  unfold cmd_add_task, subject_names.
  destruct (String.eqb (strip subject0) "" || String.eqb (strip title0) "");
    [reflexivity|].
  unfold subjects_list, append_subject, upsert_review. run_monad.
  destruct (existsb _ _); simpl;
    match goal with
    | |- context [replace_first ?a ?b ?c] => destruct (replace_first a b c)
    end; reflexivity.
Qed.

Lemma subject_names_snoc (strip : string -> string) (f : files) (name : string) :
  strip name = name -> name <> ""%string ->
  subject_names strip (with_subjects f (SUBJECTS_FILE f ++ [name])) =
  subject_names strip f ++ [name].
Proof.
  intros S N. rewrite subject_names_app. simpl. rewrite S.
  apply String.eqb_neq in N. now rewrite N.
Qed.

Lemma subject_names_of (strip : string -> string) (f : files) :
  subject_names strip f =
  filter (fun s => negb (String.eqb s "")) (map strip (SUBJECTS_FILE f)).
Proof. reflexivity. Qed.

Lemma lowered_stay_distinct (lower : string -> string) (names : list string)
  (name : string) :
  NoDup (map lower names) ->
  existsb (String.eqb (lower name)) (map lower names) = false ->
  NoDup (map lower (names ++ [name])).
Proof.
  intros N E. rewrite map_app. simpl. apply NoDup_snoc_string; [exact N|].
  intros I. apply existsb_eqb_In in I. congruence.
Qed.

(** X5. The subjects stay distinct up to case under [cmd_add_subject] and
    [cmd_add_task], for a name that [strip] leaves in one line. *)
Theorem subjects_stay_distinct (strip lower : string -> string)
  (name0 title0 : string) (c : console) :
  NoDup (map lower (subject_names strip (disk c))) ->
  strip (strip name0) = strip name0 ->
  Text.one_line (strip name0) = true ->
  (exists c',
      cmd_add_subject strip lower name0 c = Returned tt c' /\
      TASKS_FILE (disk c') = TASKS_FILE (disk c) /\
      REVIEWS_FILE (disk c') = REVIEWS_FILE (disk c) /\
      SESSIONS_FILE (disk c') = SESSIONS_FILE (disk c) /\
      NoDup (map lower (subject_names strip (disk c'))) /\
      (subject_names strip (disk c') = subject_names strip (disk c) \/
       subject_names strip (disk c') = subject_names strip (disk c) ++ [strip name0]) /\
      (strip name0 <> ""%string ->
       In (lower (strip name0)) (map lower (subject_names strip (disk c'))))) /\
  (NoDup (map lower
            (subject_names strip
               (fs (world_of (cmd_add_task strip lower name0 title0 (world_in c)))))) /\
   (strip name0 <> ""%string -> strip title0 <> ""%string ->
    In (lower (strip name0))
       (map lower
          (subject_names strip
             (fs (world_of (cmd_add_task strip lower name0 title0 (world_in c)))))))).
Proof.
  intros N S O. split.
  - rewrite cmd_add_subject_run. eexists. split; [reflexivity|].
    destruct (String.eqb_spec (strip name0) "") as [E|E].
    + simpl. repeat split; auto. intros H. contradiction.
    + destruct (existsb _ _) eqn:X.
      * simpl. repeat split; auto. intros _. now apply existsb_eqb_In.
      * simpl. unfold appended. rewrite (TextFacts.read_appended_line _ O).
        change (mk_files (SUBJECTS_FILE (disk c) ++ [strip name0]) (TASKS_FILE (disk c))
                         (REVIEWS_FILE (disk c)) (SESSIONS_FILE (disk c)))
          with (with_subjects (disk c) (SUBJECTS_FILE (disk c) ++ [strip name0])).
        rewrite (subject_names_snoc strip (disk c) (strip name0) S E).
        repeat split; auto.
        -- now apply lowered_stay_distinct.
        -- intros _. rewrite map_app, in_app_iff. right. now left.
  - pose proof (cmd_add_task_subjects strip lower name0 title0 (world_in c)) as A.
    rewrite !subject_names_of, A.
    destruct (String.eqb_spec (strip name0) "") as [E|E];
      [simpl; split; [exact N | intros H; contradiction]|].
    destruct (String.eqb_spec (strip title0) "") as [E'|E'];
      [simpl; split; [exact N | intros _ H; contradiction]|].
    simpl. destruct (existsb _ _) eqn:X.
    + split; [exact N|]. intros _ _. now apply existsb_eqb_In.
    + pose proof (subject_names_snoc strip (fs (world_in c)) (strip name0) S E) as B.
      rewrite !subject_names_of in B. simpl in B. simpl. rewrite B.
      split; [now apply lowered_stay_distinct|].
      intros _ _. rewrite map_app, in_app_iff. right. now left.
Qed.

Lemma subjects_stay_distinct_witness :
  NoDup (map AsciiText.lower (subject_names AsciiText.strip (disk study_console))) /\
  exists c',
    cmd_add_subject AsciiText.strip AsciiText.lower " Physics " study_console =
      Returned tt c' /\
    subject_names AsciiText.strip (disk c') = ["Math"; "Physics"]%string.
Proof.
  assert (N : NoDup (map AsciiText.lower
                       (subject_names AsciiText.strip (disk study_console)))).
  { simpl. constructor; [intros [] | constructor]. }
  split; [exact N|].
  destruct (subjects_stay_distinct AsciiText.strip AsciiText.lower " Physics " "Optics"
              study_console N eq_refl eq_refl)
    as [(c' & E & _ & _ & _ & _ & [S|S] & I) _].
  - exfalso. assert (P : AsciiText.strip " Physics " <> ""%string) by discriminate.
    specialize (I P). rewrite S in I. simpl in I. destruct I as [I|[]]. discriminate I.
  - exists c'. split; [exact E | exact S].
Defined.

(** ** Sessions *)

Lemma split_parts_clean (sep : ascii) (s : string) :
  Forall (fun p => Text.contains sep p = false) (Text.split sep s).
Proof.
  induction s as [|c s IH]; simpl.
  - constructor; [reflexivity | constructor].
  - destruct (Ascii.eqb c sep) eqn:E.
    + constructor; [reflexivity | exact IH].
    + destruct (Text.split sep s) as [|p ps]; [repeat constructor; simpl; now rewrite E|].
      inversion IH; subst. constructor; [simpl; now rewrite E | assumption].
Qed.

Lemma tally_session (int_of_str : string -> option Z) (strptime : string -> option date)
  (keep : date -> bool) (totals : list (string * Z)) (ln : string) :
  tally int_of_str strptime keep totals ln =
  match session_of int_of_str strptime ln with
  | Some (day, s, n) =>
      if keep day
      then dict_set s (match dict_find s totals with Some v => v | None => 0 end + n) totals
      else totals
  | None => totals
  end.
Proof.
  unfold tally, session_of.
  destruct (Text.split Text.BAR ln) as [|d [|s [|x [|m rest]]]]; try reflexivity.
  destruct (strptime d) as [day|]; [|reflexivity].
  destruct (int_of_str m); [reflexivity|]. now destruct (keep day).
Qed.

Lemma fold_tally (int_of_str : string -> option Z) (strptime : string -> option date)
  (keep : date -> bool) (lines : list string) :
  forall totals,
    fold_left (tally int_of_str strptime keep) lines totals =
    fold_left dict_add (counted int_of_str strptime keep lines) totals.
Proof.
  induction lines as [|ln lines IH]; intros totals; [reflexivity|].
  simpl. rewrite IH, tally_session, fold_left_app. unfold counted at 2.
  destruct (session_of int_of_str strptime ln) as [[[day s] n]|]; [|reflexivity].
  destruct (keep day); reflexivity.
Qed.

Lemma dict_find_set {V : Type} (k k' : string) (v : V) (d : list (string * V)) :
  dict_find k' (dict_set k v d) = if String.eqb k k' then Some v else dict_find k' d.
Proof.
  induction d as [|[k0 v0] d IH]; simpl.
  - reflexivity.
  - destruct (String.eqb_spec k0 k) as [E|E]; simpl.
    + subst k0. destruct (String.eqb k k'); reflexivity.
    + rewrite IH. destruct (String.eqb_spec k0 k') as [E'|E']; [|reflexivity].
      subst k0. destruct (String.eqb_spec k k'); [congruence | reflexivity].
Qed.

Lemma dict_set_keys {V : Type} (k : string) (v : V) (d : list (string * V)) :
  map fst (dict_set k v d) =
  if existsb (String.eqb k) (map fst d) then map fst d else map fst d ++ [k].
Proof.
  induction d as [|[k0 v0] d IH]; simpl; [reflexivity|].
  rewrite (String.eqb_sym k k0).
  destruct (String.eqb k0 k); simpl; [reflexivity|].
  rewrite IH. now destruct (existsb _ _).
Qed.

Lemma dict_find_key {V : Type} (k : string) (d : list (string * V)) :
  dict_find k d = None <-> ~ In k (map fst d).
Proof.
  induction d as [|[k0 v0] d IH]; simpl; [tauto|].
  destruct (String.eqb_spec k0 k) as [E|E].
  - split; [discriminate | intros H; elim H; now left].
  - rewrite IH. tauto.
Qed.

Lemma dict_sum_set (k : string) (v : Z) (d : list (string * Z)) :
  dict_sum (dict_set k v d) =
  dict_sum d - match dict_find k d with Some v0 => v0 | None => 0 end + v.
Proof.
  induction d as [|[k0 v0] d IH]; simpl; [lia|].
  destruct (String.eqb k0 k); simpl; [lia | rewrite IH; lia].
Qed.

Lemma fold_add_sum (l : list Z) (a : Z) :
  fold_left Z.add l a = a + fold_right Z.add 0 l.
Proof.
  revert a. induction l as [|x l IH]; intros a; simpl; [lia | rewrite IH; lia].
Qed.

Lemma sum_values (d : list (string * Z)) :
  fold_left Z.add (map snd d) 0 = dict_sum d.
Proof.
  rewrite fold_add_sum. unfold dict_sum.
  induction d as [|e d IH]; simpl; [reflexivity | simpl in IH; lia].
Qed.

Lemma fold_dict_add (entries : list (string * Z)) :
  forall totals,
    NoDup (map fst totals) ->
    NoDup (map fst (fold_left dict_add entries totals)) /\
    (forall s,
        dict_find s (fold_left dict_add entries totals) =
        if existsb (String.eqb s) (map fst entries) || existsb (String.eqb s) (map fst totals)
        then Some (match dict_find s totals with Some v => v | None => 0 end +
                   minutes_of s entries)
        else None) /\
    dict_sum (fold_left dict_add entries totals) = dict_sum totals + minutes_total entries.
Proof.
  induction entries as [|[k n] entries IH]; intros totals N.
  - simpl. split; [exact N|]. split; [|lia].
    intros s. destruct (existsb (String.eqb s) (map fst totals)) eqn:X.
    + apply existsb_eqb_In in X. destruct (dict_find s totals) eqn:F.
      * f_equal. lia.
      * apply dict_find_key in F. contradiction.
    + apply dict_find_key. intros I. apply existsb_eqb_In in I. congruence.
  - simpl fold_left.
    assert (N' : NoDup (map fst (dict_add totals (k, n)))).
    { unfold dict_add. simpl. rewrite dict_set_keys.
      destruct (existsb (String.eqb k) (map fst totals)) eqn:X; [exact N|].
      apply NoDup_snoc_string; [exact N|]. intros I. apply existsb_eqb_In in I. congruence. }
    destruct (IH _ N') as (A & B & C). split; [exact A|]. split.
    + intros s. rewrite B. unfold dict_add. simpl fst. simpl snd.
      rewrite dict_set_keys, dict_find_set. simpl.
      rewrite (String.eqb_sym s k).
      destruct (String.eqb_spec k s) as [E|E].
      * subst k. simpl.
        assert (X : existsb (String.eqb s) (map fst entries) ||
                    existsb (String.eqb s)
                      (if existsb (String.eqb s) (map fst totals)
                       then map fst totals else map fst totals ++ [s]) = true).
        { apply orb_true_iff. right.
          destruct (existsb (String.eqb s) (map fst totals)) eqn:Y; [exact Y|].
          apply existsb_eqb_In. rewrite in_app_iff. right. now left. }
        rewrite X. f_equal. lia.
      * simpl.
        assert (X : existsb (String.eqb s)
                      (if existsb (String.eqb k) (map fst totals)
                       then map fst totals else map fst totals ++ [k]) =
                    existsb (String.eqb s) (map fst totals)).
        { destruct (existsb (String.eqb k) (map fst totals)); [reflexivity|].
          rewrite existsb_app. simpl.
          destruct (String.eqb_spec s k); [congruence|]. now rewrite !orb_false_r. }
        rewrite X. reflexivity.
    + rewrite C. unfold dict_add. simpl fst. simpl snd. rewrite dict_sum_set. simpl. lia.
Qed.

(** *** Sorting *)

Section SortedBy.

Variable A : Type.
Variable leb : A -> A -> bool.
Hypothesis leb_total : forall a b, leb a b = false -> leb b a = true.
Hypothesis leb_trans : forall a b c, leb a b = true -> leb b c = true -> leb a c = true.

Lemma insert_by_perm (x : A) (l : list A) : Permutation (insert_by leb x l) (x :: l).
Proof.
  induction l as [|y l IH]; simpl; [apply Permutation_refl|].
  destruct (leb x y); [apply Permutation_refl|].
  eapply Permutation_trans; [apply perm_skip; exact IH | apply perm_swap].
Qed.

Lemma sorted_by_perm (l : list A) : Permutation (sorted_by leb l) l.
Proof.
  induction l as [|x l IH]; simpl; [constructor|].
  eapply Permutation_trans; [apply insert_by_perm | now apply perm_skip].
Qed.

Lemma insert_by_sorted (x : A) (l : list A) :
  StronglySorted (fun a b => leb a b = true) l ->
  StronglySorted (fun a b => leb a b = true) (insert_by leb x l).
Proof.
  induction 1 as [|y l S IH F]; simpl.
  - constructor; [constructor | constructor].
  - destruct (leb x y) eqn:E.
    + constructor; [constructor; assumption|].
      constructor; [exact E|].
      eapply Forall_impl; [|exact F]. intros z Hz. now apply leb_trans with y.
    + constructor; [exact IH|].
      apply (Permutation_Forall (Permutation_sym (insert_by_perm x l))).
      constructor; [now apply leb_total | exact F].
Qed.

Lemma sorted_by_sorted (l : list A) :
  StronglySorted (fun a b => leb a b = true) (sorted_by leb l).
Proof.
  induction l as [|x l IH]; simpl; [constructor | now apply insert_by_sorted].
Qed.

End SortedBy.

Lemma ascii_compare_trans (a b c : ascii) (r : comparison) :
  Ascii.compare a b = r -> Ascii.compare b c = r -> Ascii.compare a c = r.
Proof.
  unfold Ascii.compare. intros H1 H2. destruct r.
  - apply N.compare_eq_iff in H1, H2. apply N.compare_eq_iff. congruence.
  - rewrite N.compare_lt_iff in *. lia.
  - rewrite N.compare_gt_iff in *. lia.
Qed.

Lemma string_compare_refl (s : string) : String.compare s s = Eq.
Proof.
  induction s as [|c s IH]; simpl; [reflexivity|].
  unfold Ascii.compare. now rewrite N.compare_refl.
Qed.

Lemma string_compare_lt_trans (a : string) :
  forall b c, String.compare a b = Lt -> String.compare b c = Lt -> String.compare a c = Lt.
Proof.
  induction a as [|x a IH]; intros [|y b] [|z c]; simpl; try discriminate; try reflexivity.
  destruct (Ascii.compare x y) eqn:XY; try discriminate;
    destruct (Ascii.compare y z) eqn:YZ; try discriminate; intros H1 H2.
  - rewrite (ascii_compare_trans _ _ _ _ XY YZ). now apply IH with b.
  - apply Ascii.compare_eq_iff in XY. subst y. now rewrite YZ.
  - apply Ascii.compare_eq_iff in YZ. subst z. now rewrite XY.
  - now rewrite (ascii_compare_trans _ _ _ _ XY YZ).
Qed.

Lemma string_leb_trans (a b c : string) :
  String.leb a b = true -> String.leb b c = true -> String.leb a c = true.
Proof.
  unfold String.leb.
  destruct (String.compare a b) eqn:AB; try discriminate;
    destruct (String.compare b c) eqn:BC; try discriminate; intros _ _.
  - apply String.compare_eq_iff in AB, BC. subst. now rewrite string_compare_refl.
  - apply String.compare_eq_iff in AB. subst. now rewrite BC.
  - apply String.compare_eq_iff in BC. subst. now rewrite AB.
  - now rewrite (string_compare_lt_trans _ _ _ AB BC).
Qed.

Lemma minutes_key_order (a b : string * Z) :
  minutes_key_leb a b = true <-> minutes_order a b.
Proof.
  unfold minutes_key_leb, minutes_order.
  rewrite orb_true_iff, andb_true_iff, Z.ltb_lt, Z.eqb_eq. split.
  - intros [H|[H1 H2]]; [left; lia | right; split; [lia | exact H2]].
  - intros [H|[H1 H2]]; [left; lia | right; split; [lia | exact H2]].
Qed.

Lemma minutes_key_total (a b : string * Z) :
  minutes_key_leb a b = false -> minutes_key_leb b a = true.
Proof.
  unfold minutes_key_leb. intros H.
  apply orb_false_iff in H. destruct H as [H1 H2].
  apply Z.ltb_ge in H1. apply orb_true_iff.
  destruct (Z.eqb_spec (- snd a) (- snd b)) as [E|E].
  - right. simpl in H2. rewrite <- E, Z.eqb_refl. simpl.
    destruct (String.leb_total (fst a) (fst b)) as [T|T]; [congruence | exact T].
  - left. apply Z.ltb_lt. lia.
Qed.

Lemma minutes_key_trans (a b c : string * Z) :
  minutes_key_leb a b = true -> minutes_key_leb b c = true -> minutes_key_leb a c = true.
Proof.
  rewrite !minutes_key_order. unfold minutes_order.
  intros [H1|[H1 H1']] [H2|[H2 H2']]; try (left; lia).
  right. split; [lia | now apply string_leb_trans with (fst b)].
Qed.

Lemma sorted_minutes (totals : list (string * Z)) :
  Permutation (sorted_by minutes_key_leb totals) totals /\
  StronglySorted minutes_order (sorted_by minutes_key_leb totals).
Proof.
  split; [apply sorted_by_perm|].
  pose proof (sorted_by_sorted _ minutes_key_leb minutes_key_total minutes_key_trans totals)
    as S.
  induction S as [|x l S IH F]; constructor; [exact IH|].
  eapply Forall_impl; [|exact F]. intros y. apply minutes_key_order.
Qed.

(** *** The report *)

Lemma cmd_report_run (int_of_str : string -> option Z) (strptime : string -> option date)
  (days : option Z) (c : console) :
  cmd_report int_of_str strptime days c =
  match report_cutoff (now c) days with
  | Exc e => Raised e c
  | Val cutoff =>
      Returned tt
        match fold_left dict_add
                (counted int_of_str strptime (report_keep cutoff) (SESSIONS_FILE (disk c)))
                [] with
        | [] => show c out_no_sessions
        | totals =>
            mk_console (disk c) (now c)
              (screen c ++ [out_minutes_table (sorted_by minutes_key_leb totals);
                            out_total (dict_sum totals)])
        end
  end.
Proof.
  unfold cmd_report, report_cutoff.
  unfold cbind at 1, get_today at 1.
  assert (K : forall cutoff,
             (f <- get_disk ;;
              let keep day := match cutoff with Some c0 => negb (day <? c0) | None => true end in
              let totals := fold_left (tally int_of_str strptime keep) (SESSIONS_FILE f) [] in
              match totals with
              | [] => cprint out_no_sessions
              | _ =>
                  cprint (out_minutes_table (sorted_by minutes_key_leb totals)) ;;;
                  cprint (out_total (fold_left Z.add (map snd totals) 0))
              end)%cmd c =
             Returned tt
               match fold_left dict_add
                       (counted int_of_str strptime (report_keep cutoff)
                          (SESSIONS_FILE (disk c))) [] with
               | [] => show c out_no_sessions
               | totals =>
                   mk_console (disk c) (now c)
                     (screen c ++ [out_minutes_table (sorted_by minutes_key_leb totals);
                                   out_total (dict_sum totals)])
               end).
  { intros cutoff. unfold cbind at 1, get_disk at 1. cbv zeta.
    change (fun day => match cutoff with Some c0 => negb (day <? c0) | None => true end)
      with (report_keep cutoff).
    rewrite fold_tally.
    destruct (fold_left dict_add _ []) as [|e totals] eqn:F; [reflexivity|].
    rewrite sum_values. unfold cbind, cprint. simpl. rewrite <- app_assoc. reflexivity. }
  destruct days as [n|].
  - destruct (negb (n =? 0) && (0 <? n)).
    + destruct (add_days (now c) (- n)) as [d|e]; unfold result_bind.
      * unfold cbind at 1, cret at 1. exact (K (Some d)).
      * reflexivity.
    + unfold cbind at 1, cret at 1. exact (K None).
  - unfold cbind at 1, cret at 1. exact (K None).
Qed.

Lemma dict_find_In {V : Type} (d : list (string * V)) (s : string) (v : V) :
  NoDup (map fst d) -> (In (s, v) d <-> dict_find s d = Some v).
Proof.
  induction d as [|[k v0] d IH]; simpl; intros N.
  - split; [intros [] | discriminate].
  - inversion N as [|? ? Hk N']; subst.
    destruct (String.eqb_spec k s) as [E|E].
    + subst k. split.
      * intros [H|H]; [congruence|].
        elim Hk. apply in_map_iff. exists (s, v). auto.
      * intros H. left. congruence.
    + rewrite <- (IH N'). split; [intros [H|H]; [congruence | exact H] | auto].
Qed.

(** The rows of a table of minutes, from the sessions that count. *)
Lemma minutes_table_rows (entries : list (string * Z)) :
  (entries = [] -> fold_left dict_add entries [] = []) /\
  (entries <> [] ->
   fold_left dict_add entries [] <> [] /\
   dict_sum (fold_left dict_add entries []) = minutes_total entries /\
   NoDup (map fst (sorted_by minutes_key_leb (fold_left dict_add entries []))) /\
   (forall s m,
       In (s, m) (sorted_by minutes_key_leb (fold_left dict_add entries [])) <->
       In s (map fst entries) /\ m = minutes_of s entries) /\
   StronglySorted minutes_order
     (sorted_by minutes_key_leb (fold_left dict_add entries []))).
Proof.
  split; [intros ->; reflexivity|]. intros NE.
  destruct (fold_dict_add entries [] (NoDup_nil _)) as (N & F & S).
  simpl in F, S.
  destruct (sorted_minutes (fold_left dict_add entries [])) as [P O].
  split; [|split; [exact S|split; [|split; [|exact O]]]].
  - destruct entries as [|[k n] entries]; [congruence|].
    intros E. specialize (F k). rewrite E in F. simpl in F.
    rewrite String.eqb_refl in F. discriminate.
  - apply (Permutation_NoDup (Permutation_sym (Permutation_map fst P))). exact N.
  - intros s m. split.
    + intros I. apply (Permutation_in _ P) in I.
      apply (dict_find_In _ _ _ N) in I. rewrite F, orb_false_r in I.
      destruct (existsb (String.eqb s) (map fst entries)) eqn:X; [|discriminate].
      apply existsb_eqb_In in X. split; [exact X|]. inversion I. lia.
    + intros [I ->]. apply (Permutation_in _ (Permutation_sym P)).
      apply (dict_find_In _ _ _ N). rewrite F, orb_false_r.
      apply existsb_eqb_In in I. rewrite I. f_equal.
Qed.

(** X6. The report. Its cutoff is the day [days] before today when [days] is
    positive, and no day otherwise; [OverflowError] when that day is before
    the first day of the calendar or [days] is more than a [timedelta]
    holds, and then nothing is printed. The sessions that count are the
    lines with four fields or more whose first field is a date not before
    the cutoff and whose fourth field is a number. With none the command
    says so. Otherwise it prints one row for each subject among them, with
    the sum of its minutes, rows with more minutes first and the lesser
    subject first among equal minutes, and then the sum of all the minutes.
    No file is changed. *)
Theorem report_totals (int_of_str : string -> option Z) (strptime : string -> option date)
  (days : option Z) (c : console) :
  (forall n, days = Some n -> n <= 0 -> report_cutoff (now c) days = Val None) /\
  (days = None -> report_cutoff (now c) days = Val None) /\
  (forall n,
      days = Some n -> 0 < n ->
      (n <= MAX_DELTA_DAYS /\ MINORDINAL <= now c - n <= MAXORDINAL ->
       report_cutoff (now c) days = Val (Some (now c - n))) /\
      (MAX_DELTA_DAYS < n \/ now c - n < MINORDINAL ->
       report_cutoff (now c) days = Exc OverflowError)) /\
  (forall cutoff day,
      report_keep cutoff day = true <->
      match cutoff with Some first => first <= day | None => True end) /\
  (forall e,
      report_cutoff (now c) days = Exc e ->
      cmd_report int_of_str strptime days c = Raised e c) /\
  (forall cutoff,
      report_cutoff (now c) days = Val cutoff ->
      exists c',
        cmd_report int_of_str strptime days c = Returned tt c' /\
        disk c' = disk c /\
        (counted int_of_str strptime (report_keep cutoff) (SESSIONS_FILE (disk c)) = [] ->
         screen c' = screen c ++ [out_no_sessions]) /\
        (counted int_of_str strptime (report_keep cutoff) (SESSIONS_FILE (disk c)) <> [] ->
         exists rows,
           screen c' =
             screen c ++
             [out_minutes_table rows;
              out_total
                (minutes_total
                   (counted int_of_str strptime (report_keep cutoff)
                      (SESSIONS_FILE (disk c))))] /\
           NoDup (map fst rows) /\
           (forall s m,
               In (s, m) rows <->
               In s (map fst (counted int_of_str strptime (report_keep cutoff)
                                (SESSIONS_FILE (disk c)))) /\
               m = minutes_of s (counted int_of_str strptime (report_keep cutoff)
                                   (SESSIONS_FILE (disk c)))) /\
           StronglySorted minutes_order rows)).
Proof.
  split; [|split; [|split; [|split; [|split]]]].
  - intros n -> H. unfold report_cutoff.
    destruct (Z.ltb_spec 0 n); [lia|]. now rewrite andb_false_r.
  - intros ->. reflexivity.
  - intros n -> H. unfold report_cutoff.
    destruct (Z.eqb_spec n 0); [lia|]. destruct (Z.ltb_spec 0 n); [|lia]. simpl.
    split.
    + intros [A B].
      assert (E : add_days (now c) (- n) = Val (now c - n)).
      { apply add_days_val. lia. }
      now rewrite E.
    + intros A. destruct (add_days (now c) (- n)) as [d|[]] eqn:E; simpl.
      * apply add_days_val in E. lia.
      * reflexivity.
      * unfold add_days in E. destruct (MAX_DELTA_DAYS <? Z.abs (- n)); [discriminate|].
        destruct ((MINORDINAL <=? now c + - n) && (now c + - n <=? MAXORDINAL));
          discriminate.
  - intros [first|] day; simpl; [|tauto].
    rewrite negb_true_iff, Z.ltb_ge. tauto.
  - intros e E. rewrite cmd_report_run, E. reflexivity.
  - intros cutoff E. rewrite cmd_report_run, E.
    destruct (minutes_table_rows
                (counted int_of_str strptime (report_keep cutoff) (SESSIONS_FILE (disk c))))
      as [A B].
    eexists. split; [reflexivity|]. split; [|split].
    + destruct (fold_left dict_add _ []); reflexivity.
    + intros Z0. rewrite (A Z0). reflexivity.
    + intros NZ. destruct (B NZ) as (B1 & B2 & B3 & B4 & B5).
      destruct (fold_left dict_add _ []) as [|p l] eqn:F; [congruence|].
      eexists. split; [simpl; rewrite <- B2; reflexivity|].
      split; [exact B3|]. split; [exact B4 | exact B5].
Qed.

(** *** The log *)

Lemma cmd_log_run (int_of_str : string -> option Z) (str_of_int : Z -> string)
  (isoformat : date -> string) (subject : string) (tid minutes : Z) (notes : string)
  (c : console) :
  cmd_log int_of_str str_of_int isoformat subject tid minutes notes c =
  Returned tt
    (mk_console
       (with_sessions (disk c)
          (SESSIONS_FILE (disk c) ++
           appended (session_line str_of_int isoformat (now c) subject tid minutes notes)))
       (now c)
       (screen c ++
        [out_logged minutes tid subject
           (logged_minutes int_of_str (isoformat (now c)) subject
              (SESSIONS_FILE (disk c) ++
               appended (session_line str_of_int isoformat (now c) subject tid minutes
                           notes)))])).
Proof. reflexivity. Qed.

Lemma logged_minutes_app (int_of_str : string -> option Z) (today_str subject : string)
  (old new : list string) :
  logged_minutes int_of_str today_str subject (old ++ new) =
  logged_minutes int_of_str today_str subject old +
  logged_minutes int_of_str today_str subject new.
Proof.
  unfold logged_minutes. rewrite fold_left_app.
  generalize (fold_left (log_total int_of_str today_str subject) old 0) as a.
  induction new as [|ln new IH]; intros a; simpl; [lia|].
  rewrite IH, (IH (log_total int_of_str today_str subject 0 ln)).
  assert (E : log_total int_of_str today_str subject a ln =
              a + log_total int_of_str today_str subject 0 ln).
  { unfold log_total.
    destruct (Text.split Text.BAR ln) as [|d [|s [|x [|m rest]]]]; try lia.
    destruct (String.eqb d today_str && String.eqb s subject); [|lia].
    destruct (int_of_str m); lia. }
  rewrite E. lia.
Qed.

Lemma split_session_line (str_of_int : Z -> string) (isoformat : date -> string)
  (d : date) (subject : string) (tid minutes : Z) (notes : string) :
  Text.contains Text.BAR (isoformat d) = false ->
  Text.contains Text.BAR subject = false ->
  Text.contains Text.BAR (str_of_int tid) = false ->
  Text.contains Text.BAR (str_of_int minutes) = false ->
  Text.split Text.BAR (session_line str_of_int isoformat d subject tid minutes notes) =
  isoformat d :: subject :: str_of_int tid :: str_of_int minutes ::
  Text.split Text.BAR notes.
Proof.
  intros A B C D. unfold session_line, Text.join. simpl.
  change "|"%string with (String Text.BAR "").
  simpl. rewrite !TextFacts.split_field by assumption. reflexivity.
Qed.

Lemma split_notes_cons (notes : string) :
  exists p ps, Text.split Text.BAR notes = p :: ps.
Proof.
  pose proof (TextFacts.split_nonempty Text.BAR notes) as N.
  destruct (Text.split Text.BAR notes) as [|p ps]; [congruence | eauto].
Qed.

Lemma log_total_barred (int_of_str : string -> option Z) (today_str subject : string)
  (lines : list string) :
  Text.contains Text.BAR subject = true ->
  logged_minutes int_of_str today_str subject lines = 0.
Proof.
  intros B. unfold logged_minutes.
  assert (K : forall ln a, log_total int_of_str today_str subject a ln = a).
  { intros ln a. unfold log_total.
    pose proof (split_parts_clean Text.BAR ln) as F.
    destruct (Text.split Text.BAR ln) as [|d [|s [|x [|m rest]]]]; try reflexivity.
    inversion F as [|? ? _ F1]; subst. inversion F1 as [|? ? Hs _]; subst.
    destruct (String.eqb_spec s subject) as [E|E];
      [subst s; congruence | now rewrite andb_false_r]. }
  induction lines as [|ln lines IH]; simpl; [reflexivity | now rewrite K].
Qed.

(** X7. [cmd_log] appends the line of the session and leaves the other files
    alone. When the line is a single line and the date, the subject and the
    two numbers hold no bar, and [int] reads the minutes back, the total it
    reports is the total of the lines that were there, for today and this
    subject, plus the minutes logged. *)
Theorem log_adds_minutes (int_of_str : string -> option Z) (str_of_int : Z -> string)
  (isoformat : date -> string) (subject : string) (tid minutes : Z) (notes : string)
  (c : console) :
  Text.one_line (session_line str_of_int isoformat (now c) subject tid minutes notes)
    = true ->
  Text.contains Text.BAR (isoformat (now c)) = false ->
  Text.contains Text.BAR subject = false ->
  Text.contains Text.BAR (str_of_int tid) = false ->
  Text.contains Text.BAR (str_of_int minutes) = false ->
  int_of_str (str_of_int minutes) = Some minutes ->
  cmd_log int_of_str str_of_int isoformat subject tid minutes notes c =
  Returned tt
    (mk_console
       (with_sessions (disk c)
          (SESSIONS_FILE (disk c) ++
           [session_line str_of_int isoformat (now c) subject tid minutes notes]))
       (now c)
       (screen c ++
        [out_logged minutes tid subject
           (logged_minutes int_of_str (isoformat (now c)) subject (SESSIONS_FILE (disk c))
            + minutes)])).
Proof.
  intros O A B C D I. rewrite cmd_log_run.
  unfold appended. rewrite (TextFacts.read_appended_line _ O).
  rewrite logged_minutes_app. do 4 f_equal.
  unfold logged_minutes. simpl. unfold log_total.
  rewrite split_session_line by assumption.
  now rewrite !String.eqb_refl, I.
Qed.

Lemma log_adds_minutes_witness :
  cmd_log Plain.int_of_str Plain.str_of_int Plain.isoformat
          "Math" 1 25 "chapter 2" study_console =
  Returned tt
    (mk_console
       (with_sessions (disk study_console)
          ["2026-11-03|Math|1|30|"; "2026-11-03|Math|1|25|chapter 2"]%string)
       739923
       [out_logged 25 1 "Math" 55]).
Proof.
  exact (log_adds_minutes Plain.int_of_str Plain.str_of_int Plain.isoformat
           "Math" 1 25 "chapter 2" study_console
           eq_refl eq_refl eq_refl eq_refl eq_refl eq_refl).
Defined.

(** X8. With a bar in the subject no line of the sessions counts for it, the
    line just logged included: the total that [cmd_log] reports is 0. *)
Theorem log_of_barred_subject (int_of_str : string -> option Z) (str_of_int : Z -> string)
  (isoformat : date -> string) (subject : string) (tid minutes : Z) (notes : string)
  (c : console) :
  Text.contains Text.BAR subject = true ->
  exists c',
    cmd_log int_of_str str_of_int isoformat subject tid minutes notes c = Returned tt c' /\
    screen c' = screen c ++ [out_logged minutes tid subject 0].
Proof.
  intros B. rewrite cmd_log_run. eexists. split; [reflexivity|].
  simpl. now rewrite log_total_barred.
Qed.

Lemma log_of_barred_subject_witness :
  exists c',
    cmd_log Plain.int_of_str Plain.str_of_int Plain.isoformat
            "Math|Sets" 1 25 "" study_console = Returned tt c' /\
    screen c' = [out_logged 25 1 "Math|Sets" 0].
Proof.
  exact (log_of_barred_subject Plain.int_of_str Plain.str_of_int Plain.isoformat
           "Math|Sets" 1 25 "" study_console eq_refl).
Defined.

Lemma counted_app (int_of_str : string -> option Z) (strptime : string -> option date)
  (keep : date -> bool) (a b : list string) :
  counted int_of_str strptime keep (a ++ b) =
  counted int_of_str strptime keep a ++ counted int_of_str strptime keep b.
Proof. unfold counted. apply flat_map_app. Qed.

Lemma minutes_total_app (a b : list (string * Z)) :
  minutes_total (a ++ b) = minutes_total a + minutes_total b.
Proof. induction a as [|e a IH]; simpl; [reflexivity | rewrite IH; lia]. Qed.

Lemma minutes_of_app (s : string) (a b : list (string * Z)) :
  minutes_of s (a ++ b) = minutes_of s a + minutes_of s b.
Proof.
  induction a as [|e a IH]; simpl; [reflexivity|].
  rewrite IH. destruct (String.eqb (fst e) s); lia.
Qed.

(** X9. A session that [cmd_log] has logged is in the next report: the row
    of its subject and the total have grown by the minutes logged. This is
    so when the line that [cmd_log] writes is a single line, when the date,
    the subject and the two numbers hold no bar, so that the fields of the
    line are those that were logged, and when [int] reads the minutes back
    and [strptime] reads the date of today back. *)
Theorem logged_session_is_reported (int_of_str : string -> option Z)
  (str_of_int : Z -> string) (isoformat : date -> string)
  (strptime : string -> option date)
  (subject : string) (tid minutes : Z) (notes : string) (c : console) :
  Text.one_line (session_line str_of_int isoformat (now c) subject tid minutes notes)
    = true ->
  Text.contains Text.BAR (isoformat (now c)) = false ->
  Text.contains Text.BAR subject = false ->
  Text.contains Text.BAR (str_of_int tid) = false ->
  Text.contains Text.BAR (str_of_int minutes) = false ->
  int_of_str (str_of_int minutes) = Some minutes ->
  strptime (isoformat (now c)) = Some (now c) ->
  exists c1 c2 rows,
    cmd_log int_of_str str_of_int isoformat subject tid minutes notes c = Returned tt c1 /\
    cmd_report int_of_str strptime None c1 = Returned tt c2 /\
    screen c2 =
      screen c1 ++
      [out_minutes_table rows;
       out_total
         (minutes_total
            (counted int_of_str strptime (fun _ => true) (SESSIONS_FILE (disk c)))
          + minutes)] /\
    In (subject,
        minutes_of subject
          (counted int_of_str strptime (fun _ => true) (SESSIONS_FILE (disk c)))
        + minutes) rows.
Proof.
  intros O A B C D I P. rewrite cmd_log_run.
  unfold appended. rewrite (TextFacts.read_appended_line _ O).
  set (c1 := mk_console _ _ _).
  assert (L : counted int_of_str strptime (fun _ => true)
                [session_line str_of_int isoformat (now c) subject tid minutes notes] =
              [(subject, minutes)]).
  { unfold counted, session_of. simpl. rewrite split_session_line by assumption.
    now rewrite P, I. }
  set (old := counted int_of_str strptime (fun _ => true) (SESSIONS_FILE (disk c))).
  assert (E : counted int_of_str strptime (report_keep None) (SESSIONS_FILE (disk c1)) =
              old ++ [(subject, minutes)]).
  { change (report_keep None) with (fun _ : date => true).
    unfold c1. simpl. now rewrite counted_app, L. }
  destruct (minutes_table_rows (old ++ [(subject, minutes)])) as [_ R].
  destruct (R ltac:(now destruct old)) as (R1 & R2 & _ & R4 & _).
  pose proof (cmd_report_run int_of_str strptime None c1) as K.
  simpl report_cutoff in K. cbv iota in K. rewrite E in K.
  destruct (fold_left dict_add (old ++ [(subject, minutes)]) []) as [|p l] eqn:F;
    [congruence|].
  exists c1. eexists. eexists. split; [reflexivity|]. split; [exact K|]. split.
  - cbn [screen]. rewrite R2, minutes_total_app. simpl. do 4 f_equal. lia.
  - apply R4. split.
    + rewrite map_app, in_app_iff. right. now left.
    + rewrite minutes_of_app. simpl. rewrite String.eqb_refl. lia.
Qed.

Lemma logged_session_is_reported_witness :
  exists c1 c2 rows,
    cmd_log Plain.int_of_str Plain.str_of_int Plain.isoformat
            "Math" 1 25 "chapter 2" study_console = Returned tt c1 /\
    cmd_report Plain.int_of_str Plain.strptime None c1 = Returned tt c2 /\
    screen c2 = screen c1 ++ [out_minutes_table rows; out_total 55] /\
    In ("Math"%string, 55) rows.
Proof.
  exact (logged_session_is_reported Plain.int_of_str Plain.str_of_int Plain.isoformat
           Plain.strptime "Math" 1 25 "chapter 2" study_console
           eq_refl eq_refl eq_refl eq_refl eq_refl eq_refl eq_refl).
Defined.

(** *** The summary of the day *)

Lemma cmd_today_run (int_of_str : string -> option Z) (strptime : string -> option date)
  (c : console) :
  cmd_today int_of_str strptime c =
  Returned tt
    (mk_console (disk c) (now c)
       (screen c ++
        [out_reviews_due_today;
         match filter (fun r => due r =? now c) (REVIEWS_FILE (disk c)) with
         | [] => out_none_due_today
         | rs =>
             out_today_table
               (map (today_row_of (TASKS_FILE (disk c)))
                    (sorted_by (fun a b => task_id a <=? task_id b) rs))
         end;
         out_minutes_today] ++
        match fold_left dict_add
                (counted int_of_str strptime (fun day => day =? now c)
                   (SESSIONS_FILE (disk c))) [] with
        | [] => [out_no_study_today]
        | totals =>
            [out_minutes_table (sorted_by minutes_key_leb totals);
             out_total_today (dict_sum totals)]
        end)).
Proof.
  unfold cmd_today.
  unfold cbind at 1, get_today at 1. unfold cbind at 1, cprint at 1.
  unfold cbind at 1. rewrite scheduler_run. unfold load_reviews. run_monad.
  unfold console_after, world_in. simpl. rewrite app_nil_r.
  unfold today_row_of.
  destruct (filter (fun r => due r =? now c) (REVIEWS_FILE (disk c))) as [|r rs] eqn:F.
  - unfold cbind at 1, cprint at 1. simpl.
    unfold cbind at 1, cprint at 1. simpl.
    unfold cbind at 1, get_disk at 1. simpl. rewrite fold_tally.
    destruct (fold_left dict_add _ []) as [|p l] eqn:T.
    + unfold cprint. simpl. repeat rewrite <- app_assoc. reflexivity.
    + rewrite sum_values. unfold cbind, cprint. simpl.
      repeat rewrite <- app_assoc. reflexivity.
  - unfold cbind at 1. unfold cbind at 1. rewrite scheduler_run. run_monad.
    unfold console_after, world_in. simpl. rewrite app_nil_r.
    unfold cprint at 1. simpl.
    unfold cbind at 1, cprint at 1. simpl.
    unfold cbind at 1, get_disk at 1. simpl. rewrite fold_tally.
    destruct (fold_left dict_add _ []) as [|p l] eqn:T.
    + unfold cprint. simpl. repeat rewrite <- app_assoc. reflexivity.
    + rewrite sum_values. unfold cbind, cprint. simpl.
      repeat rewrite <- app_assoc. reflexivity.
Qed.

Lemma sorted_by_id (rs : list review) :
  Permutation (sorted_by (fun a b => task_id a <=? task_id b) rs) rs /\
  StronglySorted (fun a b => task_id a <= task_id b)
    (sorted_by (fun a b => task_id a <=? task_id b) rs).
Proof.
  split; [apply sorted_by_perm|].
  assert (S : StronglySorted (fun a b => (task_id a <=? task_id b) = true)
                (sorted_by (fun a b => task_id a <=? task_id b) rs)).
  { apply sorted_by_sorted.
    - intros a b H. apply Z.leb_gt in H. apply Z.leb_le. lia.
    - intros a b c H1 H2. apply Z.leb_le in H1, H2. apply Z.leb_le. lia. }
  induction S as [|x l S IH F]; constructor; [exact IH|].
  eapply Forall_impl; [|exact F]. intros y. apply Z.leb_le.
Qed.

(** X10. The summary of the day changes no file and prints four things: a
    heading; the reviews whose due date is today, in ascending order of
    task id, each with the subject and the title of its task (or what stands
    for a missing task), or that none is due; a second heading; and the
    minutes of the sessions whose first field reads as today's date, one row
    for each subject with the sum of its minutes, rows with more minutes
    first, and their total, or that nothing was logged. *)
Theorem today_summary (int_of_str : string -> option Z) (strptime : string -> option date)
  (c : console) :
  exists c' reviews_part minutes_part,
    cmd_today int_of_str strptime c = Returned tt c' /\
    disk c' = disk c /\
    screen c' =
      screen c ++ [out_reviews_due_today; reviews_part; out_minutes_today] ++ minutes_part /\
    (filter (fun r => due r =? now c) (REVIEWS_FILE (disk c)) = [] ->
     reviews_part = out_none_due_today) /\
    (filter (fun r => due r =? now c) (REVIEWS_FILE (disk c)) <> [] ->
     exists rs,
       reviews_part = out_today_table (map (today_row_of (TASKS_FILE (disk c))) rs) /\
       Permutation rs (filter (fun r => due r =? now c) (REVIEWS_FILE (disk c))) /\
       (forall r, In r rs <-> In r (REVIEWS_FILE (disk c)) /\ due r = now c) /\
       StronglySorted (fun a b => task_id a <= task_id b) rs) /\
    (counted int_of_str strptime (fun day => day =? now c) (SESSIONS_FILE (disk c)) = [] ->
     minutes_part = [out_no_study_today]) /\
    (counted int_of_str strptime (fun day => day =? now c) (SESSIONS_FILE (disk c)) <> [] ->
     exists rows,
       minutes_part =
         [out_minutes_table rows;
          out_total_today
            (minutes_total
               (counted int_of_str strptime (fun day => day =? now c)
                  (SESSIONS_FILE (disk c))))] /\
       NoDup (map fst rows) /\
       (forall s m,
           In (s, m) rows <->
           In s (map fst (counted int_of_str strptime (fun day => day =? now c)
                            (SESSIONS_FILE (disk c)))) /\
           m = minutes_of s (counted int_of_str strptime (fun day => day =? now c)
                               (SESSIONS_FILE (disk c)))) /\
       StronglySorted minutes_order rows).
Proof.
  rewrite cmd_today_run.
  destruct (minutes_table_rows
              (counted int_of_str strptime (fun day => day =? now c)
                 (SESSIONS_FILE (disk c)))) as [A B].
  eexists. eexists. eexists. split; [reflexivity|]. split; [reflexivity|].
  split; [reflexivity|]. split; [|split; [|split]].
  - intros ->. reflexivity.
  - intros NE.
    destruct (filter (fun r => due r =? now c) (REVIEWS_FILE (disk c))) as [|r rs] eqn:F;
      [congruence|].
    destruct (sorted_by_id (r :: rs)) as [P S].
    eexists. split; [reflexivity|]. split; [exact P|]. split; [|exact S].
    intros x. split.
    + intros I. apply (Permutation_in _ P) in I. rewrite <- F in I.
      apply filter_In in I. destruct I as [I E]. apply Z.eqb_eq in E. auto.
    + intros [I E]. apply (Permutation_in _ (Permutation_sym P)). rewrite <- F.
      apply filter_In. split; [exact I | now apply Z.eqb_eq].
  - intros Z0. now rewrite (A Z0).
  - intros NZ. destruct (B NZ) as (B1 & B2 & B3 & B4 & B5).
    destruct (fold_left dict_add _ []) as [|p l] eqn:F; [congruence|].
    eexists. split; [rewrite <- B2; reflexivity|].
    split; [exact B3|]. split; [exact B4 | exact B5].
Qed.

(** ** What [cmd_review] can raise *)

Lemma shr_fexp_nonneg (m e : Z) :
  0 <= m -> 0 <= shr_m (fst (shr_fexp prec emax m e loc_Exact)).
Proof.
  intros H. destruct (fexp prec emax (Zdigits2 m + e) - e) as [|n|n] eqn:N.
  - rewrite shr_fexp_none by lia. exact H.
  - rewrite (shr_fexp_some m e n N). cbn [fst].
    destruct (shr_iter m n H) as [Q _]. rewrite Q.
    apply Z.div_pos; [exact H | apply pow2_pos; lia].
  - rewrite shr_fexp_none by lia. exact H.
Qed.

Lemma round_nearest_even_nonneg (m : Z) (l : location) :
  0 <= m -> 0 <= round_nearest_even m l.
Proof.
  intros H. destruct l as [|[| |]]; simpl; try lia. destruct (Z.even m); lia.
Qed.

Lemma binary_round_aux_not_nan (s : bool) (m e : Z) :
  0 <= m -> binary_round_aux prec emax s m e loc_Exact <> S754_nan.
Proof.
  intros H. unfold binary_round_aux.
  pose proof (shr_fexp_nonneg m e H) as A.
  destruct (shr_fexp prec emax m e loc_Exact) as [mrs' e'] eqn:S1. cbn [fst] in A.
  pose proof (shr_fexp_nonneg _ e'
                (round_nearest_even_nonneg _ (loc_of_shr_record mrs') A)) as B.
  destruct (shr_fexp prec emax (round_nearest_even (shr_m mrs') (loc_of_shr_record mrs'))
              e' loc_Exact) as [mrs'' e''] eqn:S2. cbn [fst] in B.
  destruct (shr_m mrs'') as [|p|p]; [discriminate | | lia].
  destruct (e'' <=? emax - prec); discriminate.
Qed.

(** The float of an integer that is not zero is not a zero. *)
Lemma float_of_int_finite (n : Z) (k : float) :
  n <> 0 -> PyNum.float_of_int n = Val k ->
  exists s m e, Prim2SF k = S754_finite s m e.
Proof.
  intros NZ E.
  destruct (float_of_int_spec n) as [F O].
  destruct (Z.lt_ge_cases (Z.abs n) (2 ^ 1024 - 2 ^ 970)) as [B|B].
  - destruct (F B) as (k' & K & V & _). rewrite K in E. inversion E; subst k'.
    rewrite V. unfold nearest.
    pose proof (pow2_pos 1074 ltac:(lia)) as P.
    destruct (Z.eqb_spec (n * 2 ^ 1074) 0) as [Z0|Z0]; [nia|].
    destruct (Z.ltb_spec 0 (n * 2 ^ 1074)) as [L|L].
    + destruct (round_units_shape false (n * 2 ^ 1074) L) as [(m & e & R)|R].
      * rewrite R. eauto.
      * exfalso. destruct (F B) as (k2 & K2 & V2 & F2).
        rewrite K in K2. inversion K2; subst k2.
        rewrite V2 in F2. unfold nearest in F2.
        destruct (Z.eqb_spec (n * 2 ^ 1074) 0); [lia|].
        destruct (Z.ltb_spec 0 (n * 2 ^ 1074)); [|lia]. rewrite R in F2. discriminate.
    + destruct (round_units_shape true (- (n * 2 ^ 1074)) ltac:(lia)) as [(m & e & R)|R].
      * rewrite R. eauto.
      * exfalso. destruct (F B) as (k2 & K2 & V2 & F2).
        rewrite K in K2. inversion K2; subst k2.
        rewrite V2 in F2. unfold nearest in F2.
        destruct (Z.eqb_spec (n * 2 ^ 1074) 0); [lia|].
        destruct (Z.ltb_spec 0 (n * 2 ^ 1074)); [lia|]. rewrite R in F2. discriminate.
  - rewrite (O B) in E. discriminate.
Qed.

(** The ease after an update is a positive number or the positive
    infinity. *)
Lemma fmax_floor_shape (u : float) :
  (exists m e, Prim2SF (PyNum.fmax 1.3 u) = S754_finite false m e) \/
  Prim2SF (PyNum.fmax 1.3 u) = S754_infinity false.
Proof.
  unfold PyNum.fmax. destruct (1.3 <? u)%float eqn:L.
  - rewrite ltb_spec in L.
    destruct (Prim2SF u) as [s|s| |s m e] eqn:U.
    + vm_compute in L. discriminate.
    + destruct s; [vm_compute in L; discriminate | now right].
    + vm_compute in L. discriminate.
    + destruct s; [vm_compute in L; discriminate | left; eauto].
  - left. vm_compute. eauto.
Qed.

Lemma update_ease_shape (e0 : float) (quality : Z) (e : float) :
  _update_ease e0 quality = Val e ->
  (exists m x, Prim2SF e = S754_finite false m x) \/ Prim2SF e = S754_infinity false.
Proof.
  unfold _update_ease. destruct (PyNum.float_of_int (5 - quality)) as [k|x]; simpl;
    [|discriminate].
  intros H. inversion H. apply fmax_floor_shape.
Qed.

Lemma update_ease_raises (e0 : float) (quality : Z) (x : exn) :
  _update_ease e0 quality = Exc x -> x = OverflowError.
Proof.
  unfold _update_ease, PyNum.float_of_int.
  destruct (binary_normalize prec emax (5 - quality) 0 false); simpl; congruence.
Qed.

Lemma next_interval_raises (quality interval : Z) (e : float) (x : exn) :
  (exists m y, Prim2SF e = S754_finite false m y) \/ Prim2SF e = S754_infinity false ->
  next_interval quality interval e = Exc x -> x = OverflowError.
Proof.
  intros S. unfold next_interval.
  destruct (quality <? 3); [discriminate|].
  destruct (Z.eqb_spec interval 0) as [Z0|Z0]; [discriminate|].
  destruct (interval =? 1); [discriminate|]. cbn [orb].
  unfold PyNum.int_mul_float.
  destruct (PyNum.float_of_int interval) as [f|y] eqn:F.
  - cbn [result_bind].
    destruct (float_of_int_finite interval f Z0 F) as (s & m & ex & Hf).
    assert (N : Prim2SF (f * e)%float <> S754_nan).
    { rewrite mul_spec, Hf.
      destruct S as [(m' & y & He)|He]; rewrite He.
      - apply binary_round_aux_not_nan. lia.
      - discriminate. }
    unfold PyNum.py_round.
    destruct (Prim2SF (f * e)%float); simpl; congruence.
  - cbn [result_bind]. unfold PyNum.float_of_int in F.
    destruct (binary_normalize prec emax interval 0 false); congruence.
Qed.

Lemma add_days_raises (d n : Z) (x : exn) : add_days d n = Exc x -> x = OverflowError.
Proof.
  unfold add_days. destruct (MAX_DELTA_DAYS <? Z.abs n); [congruence|].
  destruct ((MINORDINAL <=? d + n) && (d + n <=? MAXORDINAL)); congruence.
Qed.

Lemma cmd_review_raises (tid quality : Z) (w w' : world) (x : exn) :
  cmd_review tid quality w = Raise x w' -> x = OverflowError /\ w' = w.
Proof.
  rewrite cmd_review_run.
  destruct (_update_ease _ _) as [e|y] eqn:E1.
  - destruct (next_interval _ _ _) as [n|y] eqn:E2.
    + destruct (add_days _ _) as [d|y] eqn:E3; [discriminate|].
      intros H. inversion H; subst. split; [now apply add_days_raises in E3 | reflexivity].
    + intros H. inversion H; subst. split; [|reflexivity].
      eapply next_interval_raises; [|exact E2]. eapply update_ease_shape. exact E1.
  - intros H. inversion H; subst. split; [now apply update_ease_raises in E1 | reflexivity].
Qed.

(** ** The command line *)

Ltac dispatch :=
  unfold main, len, arg;
  cbn [String.eqb Ascii.eqb Bool.eqb andb orb negb List.length Z.of_nat Pos.of_succ_nat
       Pos.succ Z.leb Z.eqb Z.compare Pos.compare Pos.compare_cont Pos.eqb nth skipn].

Section CommandLine.

Variable strip : string -> string.
Variable lower : string -> string.
Variable int_of_str : string -> option Z.
Variable str_of_int : Z -> string.
Variable isoformat : date -> string.
Variable strptime : string -> option date.

Lemma main_review (a b : string) (c : console) :
  main strip lower int_of_str str_of_int isoformat strptime ["review"; a; b]%string c =
  match int_of_str a, int_of_str b with
  | Some tid, Some quality =>
      match cmd_review tid quality (world_in c) with
      | Ok _ w => Returned 0 (console_after c w)
      | Raise ValueError w => Returned 1 (show (console_after c w) out_usage_review)
      | Raise e w => Raised e (console_after c w)
      end
  | _, _ => Returned 1 (show c out_usage_review)
  end.
Proof.
  dispatch. unfold except_ValueError, py_int.
  destruct (int_of_str a) as [tid|]; [|reflexivity].
  unfold cbind at 1, cret at 1.
  destruct (int_of_str b) as [quality|]; [|reflexivity].
  unfold cbind at 1, cret at 1. unfold cbind at 1. rewrite scheduler_run.
  destruct (cmd_review tid quality (world_in c)) as [[] w|[] w]; reflexivity.
Qed.

Lemma main_unknown (cmd : string) (words : list string) (c : console) :
  ~ In cmd ["add-subject"; "list-subjects"; "add-task"; "list-tasks"; "start"; "done";
            "review-due"; "review"; "log"; "report"; "today"; "clear"]%string ->
  main strip lower int_of_str str_of_int isoformat strptime (cmd :: words) c =
  Returned 1 (show c out_usage).
Proof.
  intros N. unfold main.
  repeat match goal with
         | |- context [String.eqb cmd ?s] =>
             let H := fresh "E" in
             assert (H : String.eqb cmd s = false)
               by (apply String.eqb_neq; intros ->; apply N; simpl; tauto);
             rewrite H; clear H
         end.
  reflexivity.
Qed.

(** X11. [review]: the review is made and the status is 0 when both arguments
    are integers, unless [cmd_review] raises [OverflowError], the one
    exception it can raise, and then nothing has been printed or written.
    Otherwise the usage line is printed, nothing is written and the status
    is 1. *)
Theorem review_command (a b : string) (c : console) :
  (int_of_str a = None \/ int_of_str b = None ->
   main strip lower int_of_str str_of_int isoformat strptime ["review"; a; b]%string c =
   Returned 1 (show c out_usage_review)) /\
  (forall tid quality,
      int_of_str a = Some tid -> int_of_str b = Some quality ->
      (forall w',
          cmd_review tid quality (world_in c) = Ok tt w' ->
          main strip lower int_of_str str_of_int isoformat strptime
            ["review"; a; b]%string c = Returned 0 (console_after c w')) /\
      (forall x w',
          cmd_review tid quality (world_in c) = Raise x w' ->
          x = OverflowError /\
          main strip lower int_of_str str_of_int isoformat strptime
            ["review"; a; b]%string c = Raised OverflowError c)).
Proof.
  split.
  - intros H. rewrite main_review.
    destruct (int_of_str a); [|reflexivity].
    destruct (int_of_str b); [|reflexivity].
    destruct H; discriminate.
  - intros tid quality A B. rewrite main_review, A, B. split.
    + intros w' E. now rewrite E.
    + intros x w' E. destruct (cmd_review_raises _ _ _ _ _ E) as [-> ->].
      split; [reflexivity|]. rewrite E. now rewrite console_after_reads.
Qed.

(** X12. With no word the usage is printed and the status is 0. With a first
    word that is no command, or a command with too few or too many words
    after it, the usage is printed, nothing is written and the status is
    1. *)
Theorem usage_exit_status (cmd : string) (words : list string) (c : console) :
  main strip lower int_of_str str_of_int isoformat strptime [] c =
    Returned 0 (show c out_usage) /\
  (~ In cmd ["add-subject"; "list-subjects"; "add-task"; "list-tasks"; "start"; "done";
             "review-due"; "review"; "log"; "report"; "today"; "clear"]%string ->
   main strip lower int_of_str str_of_int isoformat strptime (cmd :: words) c =
   Returned 1 (show c out_usage)) /\
  (cmd = "add-subject"%string /\ (List.length words < 1)%nat \/
   cmd = "add-task"%string /\ (List.length words < 2)%nat \/
   cmd = "start"%string /\ List.length words <> 1%nat \/
   cmd = "done"%string /\ List.length words <> 1%nat \/
   cmd = "review"%string /\ List.length words <> 2%nat \/
   cmd = "log"%string /\ (List.length words < 4)%nat \/
   cmd = "clear"%string /\ List.length words <> 1%nat ->
   main strip lower int_of_str str_of_int isoformat strptime (cmd :: words) c =
   Returned 1 (show c out_usage)).
Proof.
  split; [reflexivity|]. split; [apply main_unknown|].
  intros H. unfold main, len. cbn [List.length].
  destruct H as [[-> L]|[[-> L]|[[-> L]|[[-> L]|[[-> L]|[[-> L]|[-> L]]]]]]];
    cbn [String.eqb Ascii.eqb Bool.eqb andb].
  - destruct (Z.leb_spec 2 (Z.of_nat (S (List.length words)))); [lia | reflexivity].
  - destruct (Z.leb_spec 3 (Z.of_nat (S (List.length words)))); [lia | reflexivity].
  - destruct (Z.eqb_spec (Z.of_nat (S (List.length words))) 2); [lia | reflexivity].
  - destruct (Z.eqb_spec (Z.of_nat (S (List.length words))) 2); [lia | reflexivity].
  - destruct (Z.eqb_spec (Z.of_nat (S (List.length words))) 3); [lia | reflexivity].
  - destruct (Z.leb_spec 5 (Z.of_nat (S (List.length words)))); [lia | reflexivity].
  - destruct (Z.eqb_spec (Z.of_nat (S (List.length words))) 2); [lia | reflexivity].
Qed.

(** X13. Arguments that are not what the command reads. [start] and [done]
    with a word that is no integer raise [ValueError], with nothing printed
    or written. [log] with a task id or minutes that are no integer prints
    its usage, [report --days] with a word that is no integer says so, and
    [review-due --on] with a word that is no date says so: the status is 1
    and nothing is written. *)
Theorem malformed_arguments (a : string) (words : list string) (c : console) :
  (int_of_str a = None ->
   main strip lower int_of_str str_of_int isoformat strptime ["start"; a]%string c =
     Raised ValueError c /\
   main strip lower int_of_str str_of_int isoformat strptime ["done"; a]%string c =
     Raised ValueError c /\
   main strip lower int_of_str str_of_int isoformat strptime ["report"; "--days"; a]%string c =
     Returned 1 (show c out_days_not_integer)) /\
  (forall subject tid minutes,
      int_of_str tid = None \/ int_of_str minutes = None ->
      main strip lower int_of_str str_of_int isoformat strptime
        ("log" :: subject :: tid :: minutes :: a :: words)%string c =
      Returned 1 (show c out_usage_log)) /\
  (strptime a = None ->
   main strip lower int_of_str str_of_int isoformat strptime
     ("review-due" :: "--on" :: a :: words)%string c =
   Returned 1 (show c out_invalid_date)).
Proof.
  split; [|split].
  - intros H. repeat split; dispatch; unfold py_int; unfold cbind at 1; now rewrite H.
  - intros subject tid minutes H. unfold main, len, arg. cbn [List.length].
    cbn [String.eqb Ascii.eqb Bool.eqb andb nth].
    destruct (Z.leb_spec 5 (Z.of_nat (S (S (S (S (S (List.length words))))))));
      [|lia].
    unfold except_ValueError, py_int.
    destruct (int_of_str tid) as [t|]; [|reflexivity].
    unfold cbind at 1, cret at 1.
    destruct (int_of_str minutes) as [m|]; [|reflexivity].
    destruct H; discriminate.
  - intros H. unfold main, len, arg. cbn [List.length].
    cbn [String.eqb Ascii.eqb Bool.eqb andb nth].
    destruct (Z.leb_spec 3 (Z.of_nat (S (S (S (List.length words)))))); [|lia].
    now rewrite H.
Qed.

End CommandLine.

(** ** Tasks and their reviews *)

Lemma review_of_replace_first_other (tid other : Z) (new : review) (l l' : list review) :
  task_id new = tid -> other <> tid ->
  replace_first tid new l = Some l' ->
  review_of other l' = review_of other l.
Proof.
  intros Hn Ho. unfold review_of. revert l'.
  induction l as [|r l IH]; simpl; intros l' H; [discriminate|].
  destruct (Z.eqb_spec (task_id r) tid) as [E|E].
  - inversion H; subst l'. simpl. rewrite Hn.
    destruct (Z.eqb_spec tid other); [congruence|].
    destruct (Z.eqb_spec (task_id r) other); [congruence | reflexivity].
  - destruct (replace_first tid new l) as [l0|]; [|discriminate].
    inversion H; subst l'. simpl.
    destruct (task_id r =? other); [reflexivity | now apply IH].
Qed.

Lemma review_of_upserted_other (other : Z) (new : review) (l : list review) :
  other <> task_id new ->
  review_of other (upserted new l) = review_of other l.
Proof.
  intros Ho. unfold upserted.
  destruct (replace_first (task_id new) new l) as [l'|] eqn:R.
  - exact (review_of_replace_first_other (task_id new) other new l l' eq_refl Ho R).
  - unfold review_of. clear R. induction l as [|r l IH]; simpl.
    + destruct (Z.eqb_spec (task_id new) other); [congruence | reflexivity].
    + destruct (task_id r =? other); [reflexivity | exact IH].
Qed.

Lemma upserted_length (new : review) (l : list review) :
  List.length (upserted new l) =
  (List.length l + match review_of (task_id new) l with Some _ => 0 | None => 1 end)%nat.
Proof.
  pose proof (f_equal (@List.length Z) (upserted_ids new l)) as H.
  rewrite !length_map in H. rewrite H.
  destruct (in_dec Z.eq_dec (task_id new) (map task_id l)) as [I|I].
  - destruct (review_of (task_id new) l) eqn:R.
    + rewrite length_map. lia.
    + exfalso. apply in_map_iff in I. destruct I as [r [E I]].
      unfold review_of in R. apply (find_none _ _ R) in I.
      rewrite E, Z.eqb_refl in I. discriminate.
  - destruct (review_of (task_id new) l) as [r|] eqn:R.
    + exfalso. apply I. unfold review_of in R. apply find_some in R.
      destruct R as [R E]. apply Z.eqb_eq in E. rewrite <- E. now apply in_map.
    + rewrite length_app, length_map. simpl. lia.
Qed.

(** X14. [cmd_add_task] and the review store. With a blank subject or title it
    prints its usage and writes nothing. Otherwise the new task is
    scheduled for today with interval 1 and ease 2.5, in place of whatever
    record the store had for its id; the records of the other tasks stay,
    each as [_save_reviews] writes it; the store grows by one record unless
    it had one for the id. *)
Theorem add_task_schedules_review (strip lower : string -> string)
  (subject0 title0 : string) (w : world) :
  (strip subject0 = ""%string \/ strip title0 = ""%string ->
   cmd_add_task strip lower subject0 title0 w = Ok tt (say w out_usage_add_task)) /\
  (strip subject0 <> ""%string -> strip title0 <> ""%string ->
   exists w',
     cmd_add_task strip lower subject0 title0 w = Ok tt w' /\
     review_of (next_task_id (tasks_in w)) (reviews_in w') =
       Some (mk_review (next_task_id (tasks_in w)) 1 (clock w) 2.5%float) /\
     (forall tid,
         tid <> next_task_id (tasks_in w) ->
         review_of tid (reviews_in w') = option_map saved (review_of tid (reviews_in w))) /\
     List.length (reviews_in w') =
       (List.length (reviews_in w) +
        match review_of (next_task_id (tasks_in w)) (reviews_in w) with
        | Some _ => 0
        | None => 1
        end)%nat /\
     SESSIONS_FILE (fs w') = SESSIONS_FILE (fs w) /\
     stdout w' =
       stdout w ++
       [out_added_task (next_task_id (tasks_in w)) (strip subject0) (strip title0)]).
Proof.
  split.
  - intros H. unfold cmd_add_task.
    assert (E : String.eqb (strip subject0) "" || String.eqb (strip title0) "" = true).
    { apply orb_true_iff. destruct H as [H|H]; rewrite H; auto. }
    now rewrite E.
  - intros Hs Ht.
    destruct (cmd_add_task_run strip lower subject0 title0 w Hs Ht) as [subjects E].
    match type of E with _ = Ok tt ?x => set (w' := x) in * end.
    assert (R : reviews_in w' =
                map saved
                  (upserted (mk_review (next_task_id (tasks_in w)) 1 (clock w) 2.5%float)
                            (reviews_in w))) by reflexivity.
    exists w'. split; [exact E|]. rewrite R.
    split; [|split; [|split; [|split; reflexivity]]].
    + rewrite review_of_saved.
      rewrite (review_of_upserted
                 (mk_review (next_task_id (tasks_in w)) 1 (clock w) 2.5%float)).
      reflexivity.
    + intros tid N. rewrite review_of_saved. f_equal.
      now apply review_of_upserted_other.
    + rewrite length_map. apply upserted_length.
Qed.

Lemma status_set_ids (tid : Z) (s : string) (tasks : list task) :
  map id (status_set tid s tasks) = map id tasks /\
  map subject (status_set tid s tasks) = map subject tasks /\
  map title (status_set tid s tasks) = map title tasks.
Proof.
  unfold status_set.
  destruct (set_status_first tid s tasks) as [[t tasks']|] eqn:E; [|auto].
  revert tasks' E. induction tasks as [|t1 rest IH]; simpl; intros tasks' E; [discriminate|].
  destruct (id t1 =? tid).
  - inversion E; subst. simpl. auto.
  - destruct (set_status_first tid s rest) as [[t0 rest']|]; [|discriminate].
    inversion E; subst. simpl. destruct (IH rest' eq_refl) as (A & B & C).
    now rewrite A, B, C.
Qed.

Lemma status_set_first (tid : Z) (s : string) (before after : list task) (t : task) :
  id t = tid -> ~ In tid (map id before) ->
  status_set tid s (before ++ t :: after) =
  before ++ mk_task (id t) (subject t) (title t) s :: after.
Proof.
  intros E N. unfold status_set.
  assert (K : set_status_first tid s (before ++ t :: after) =
              Some (t, before ++ mk_task (id t) (subject t) (title t) s :: after)).
  { induction before as [|b before IH]; simpl.
    - rewrite E, Z.eqb_refl. reflexivity.
    - destruct (Z.eqb_spec (id b) tid) as [B|B]; [elim N; now left|].
      rewrite IH; [reflexivity|]. intros I. apply N. now right. }
  now rewrite K.
Qed.

(** X15. [cmd_update_status] with one of the two statuses that the command
    line passes, [doing] and [done], always returns. It keeps the ids, the
    subjects and the titles of the task store, in their order, and the three
    other files. The status goes to the first task with the id, and to no
    other; with no such task the store stays as it was. *)
Theorem status_update_touches_one_task (tid : Z) (s : string) (w : world) :
  In s [STATUS_DOING; STATUS_DONE] ->
  exists w',
    cmd_update_status tid s w = Ok tt w' /\
    map id (tasks_in w') = map id (tasks_in w) /\
    map subject (tasks_in w') = map subject (tasks_in w) /\
    map title (tasks_in w') = map title (tasks_in w) /\
    reviews_in w' = reviews_in w /\
    SUBJECTS_FILE (fs w') = SUBJECTS_FILE (fs w) /\
    SESSIONS_FILE (fs w') = SESSIONS_FILE (fs w) /\
    (forall before t after,
        tasks_in w = before ++ t :: after -> id t = tid -> ~ In tid (map id before) ->
        tasks_in w' = before ++ mk_task (id t) (subject t) (title t) s :: after) /\
    (~ In tid (map id (tasks_in w)) -> tasks_in w' = tasks_in w).
Proof.
  intros _. rewrite cmd_update_status_run. eexists. split; [reflexivity|].
  unfold tasks_in at 1 3 5 8 10. simpl.
  destruct (status_set_ids tid s (tasks_in w)) as (A & B & C).
  repeat split; auto.
  - intros before t after E I N. rewrite E. now apply status_set_first.
  - intros N. apply status_set_absent. unfold task_of.
    destruct (find (fun t => id t =? tid) (tasks_in w)) as [t|] eqn:F; [|reflexivity].
    apply find_some in F. destruct F as [F E]. apply Z.eqb_eq in E.
    elim N. rewrite <- E. now apply in_map.
Qed.

Lemma status_update_touches_one_task_witness :
  exists w',
    cmd_update_status 2 STATUS_DONE three_tasks = Ok tt w' /\
    tasks_in w' = [mk_task 1 "Math" "Algebra" STATUS_TODO;
                   mk_task 2 "Math" "Calculus" STATUS_DONE;
                   mk_task 3 "Math" "Logic" STATUS_DONE].
Proof.
  destruct (status_update_touches_one_task 2 STATUS_DONE three_tasks
              (or_intror (or_introl eq_refl)))
    as (w' & E & _ & _ & _ & _ & _ & _ & F & _).
  exists w'. split; [exact E|].
  apply (F [mk_task 1 "Math" "Algebra" STATUS_TODO]
           (mk_task 2 "Math" "Calculus" STATUS_DOING)
           [mk_task 3 "Math" "Logic" STATUS_DONE]); [reflexivity | reflexivity |].
  simpl. intros [H|[]]. discriminate H.
Defined.

Lemma cmd_add_task_tasks (strip lower : string -> string) (subject0 title0 : string)
  (w : world) :
  tasks_in (world_of (cmd_add_task strip lower subject0 title0 w)) =
  if String.eqb (strip subject0) "" || String.eqb (strip title0) ""
  then tasks_in w
  else tasks_in w ++
       [mk_task (next_task_id (tasks_in w)) (strip subject0) (strip title0) STATUS_TODO].
Proof.
  destruct (String.eqb_spec (strip subject0) "") as [A|A].
  - unfold cmd_add_task. rewrite A. reflexivity.
  - destruct (String.eqb_spec (strip title0) "") as [B|B].
    + unfold cmd_add_task. rewrite B, orb_true_r. reflexivity.
    + destruct (cmd_add_task_run strip lower subject0 title0 w A B) as [subjects E].
      rewrite E. reflexivity.
Qed.

(** X16. Distinct task ids stay distinct: under [cmd_add_task], whose new
    id is none of those in the store, under a status update, under a review
    and under [done]. The subject and the title are such that the task file
    gives them back as they were written: single lines with no bar that
    [strip] leaves as they are; the status is [doing] or [done]. *)
Theorem task_ids_stay_distinct (strip lower : string -> string)
  (subject0 title0 status0 : string) (tid quality : Z) (w : world) :
  NoDup (map id (tasks_in w)) ->
  Text.clean_field strip (strip subject0) = true ->
  Text.clean_field strip (strip title0) = true ->
  In status0 [STATUS_DOING; STATUS_DONE] ->
  NoDup (map id (tasks_in (world_of (cmd_add_task strip lower subject0 title0 w)))) /\
  ~ In (next_task_id (tasks_in w)) (map id (tasks_in w)) /\
  NoDup (map id (tasks_in (world_of (cmd_update_status tid status0 w)))) /\
  NoDup (map id (tasks_in (world_of (cmd_review tid quality w)))) /\
  NoDup (map id (tasks_in (world_of (main_done tid w)))).
Proof.
  intros N _ _ _.
  assert (F : ~ In (next_task_id (tasks_in w)) (map id (tasks_in w))).
  { intros I. apply in_map_iff in I. destruct I as [t [E I]].
    destruct (next_task_id_spec (tasks_in w)) as (_ & _ & L).
    specialize (L t I). lia. }
  split; [|split; [exact F|split; [|split]]].
  - rewrite cmd_add_task_tasks.
    destruct (String.eqb (strip subject0) "" || String.eqb (strip title0) "");
      [exact N|].
    rewrite map_app. simpl. now apply NoDup_snoc.
  - rewrite cmd_update_status_run. unfold tasks_in at 1. simpl.
    destruct (status_set_ids tid status0 (tasks_in w)) as (A & _). now rewrite A.
  - destruct (cmd_review_keeps_tasks tid quality w) as [A _]. now rewrite A.
  - rewrite main_done_run.
    match goal with
    | |- context [cmd_review tid 4 ?x] =>
        destruct (cmd_review_keeps_tasks tid 4 x) as [A _]; rewrite A
    end.
    unfold tasks_in at 1. simpl.
    destruct (status_set_ids tid STATUS_DONE (tasks_in w)) as (B & _). now rewrite B.
Qed.

Lemma task_ids_stay_distinct_witness :
  NoDup (map id (tasks_in three_tasks)) /\
  NoDup (map id (tasks_in (world_of
           (cmd_add_task AsciiText.strip AsciiText.lower "Math" " Geometry " three_tasks)))).
Proof.
  assert (N : NoDup (map id (tasks_in three_tasks))).
  { simpl. repeat constructor; simpl; intuition discriminate. }
  split; [exact N|].
  exact (proj1 (task_ids_stay_distinct AsciiText.strip AsciiText.lower
                  "Math" " Geometry " STATUS_DOING 2 4 three_tasks
                  N eq_refl eq_refl (or_introl eq_refl))).
Defined.

(** *** The task listing *)

Lemma filter_filter {A : Type} (f g : A -> bool) (l : list A) :
  filter f (filter g l) = filter (fun x => g x && f x) l.
Proof.
  induction l as [|x l IH]; simpl; [reflexivity|].
  destruct (g x); simpl; [destruct (f x); now rewrite IH | exact IH].
Qed.

Lemma filter_all {A : Type} (l : list A) : filter (fun _ => true) l = l.
Proof. induction l as [|x l IH]; simpl; [reflexivity | now rewrite IH]. Qed.

Lemma selected_tasks_filter (lower : string -> string)
  (subject_filter status_filter : option string) (tasks : list task) :
  selected_tasks lower subject_filter status_filter tasks =
  filter (fun t => passes lower subject_filter (subject t) &&
                   passes lower status_filter (status t)) tasks.
Proof.
  unfold selected_tasks, passes.
  destruct subject_filter as [s|]; destruct status_filter as [s'|];
    try destruct (String.eqb s ""); try destruct (String.eqb s' ""); simpl;
    rewrite ?filter_filter;
    try (symmetry; apply filter_all);
    apply filter_ext; intros t; now rewrite ?andb_true_r.
Qed.

Lemma dict_get_snoc {V : Type} (entries : list (Z * V)) (k : Z) (v : V) (key : Z) :
  dict_get (entries ++ [(k, v)]) key = if k =? key then Some v else dict_get entries key.
Proof. unfold dict_get. rewrite fold_left_app. reflexivity. Qed.

Lemma dict_get_absent {V : Type} (entries : list (Z * V)) (key : Z) :
  ~ In key (map fst entries) -> dict_get entries key = None.
Proof.
  induction entries as [|[k v] entries IH] using rev_ind; [reflexivity|].
  rewrite map_app, in_app_iff. simpl. intros N. rewrite dict_get_snoc.
  destruct (Z.eqb_spec k key); [tauto|]. apply IH. tauto.
Qed.

(** With one record for each task, the [dict] of [cmd_list_tasks] holds
    for a task what [cmd_review] finds for it. *)
Lemma dict_get_review_of (reviews : list review) (key : Z) :
  NoDup (map task_id reviews) ->
  dict_get (map (fun r => (task_id r, due r)) reviews) key =
  option_map due (review_of key reviews).
Proof.
  unfold review_of. induction reviews as [|r reviews IH]; intros N; [reflexivity|].
  inversion N as [|? ? Hr N']; subst. simpl find.
  destruct (Z.eqb_spec (task_id r) key) as [E|E].
  - subst key. simpl option_map.
    change (map (fun r0 => (task_id r0, due r0)) (r :: reviews))
      with ([(task_id r, due r)] ++ map (fun r0 => (task_id r0, due r0)) reviews).
    unfold dict_get. rewrite fold_left_app. simpl fold_left at 2.
    rewrite Z.eqb_refl.
    assert (K : forall (l : list review) acc,
               ~ In (task_id r) (map task_id l) ->
               fold_left (fun acc kv => if fst kv =? task_id r then Some (snd kv) else acc)
                         (map (fun r0 => (task_id r0, due r0)) l) acc = acc).
    { induction l as [|x l IHl]; intros acc Hn; [reflexivity|]. simpl.
      destruct (Z.eqb_spec (task_id x) (task_id r)) as [X|X];
        [elim Hn; left; exact X|].
      apply IHl. intros I. apply Hn. now right. }
    now apply K.
  - rewrite <- (IH N').
    change (map (fun r0 => (task_id r0, due r0)) (r :: reviews))
      with ([(task_id r, due r)] ++ map (fun r0 => (task_id r0, due r0)) reviews).
    unfold dict_get. rewrite fold_left_app. simpl fold_left at 2.
    destruct (Z.eqb_spec (task_id r) key); [contradiction | reflexivity].
Qed.

(** X17. [cmd_list_tasks] changes no file. The rows of its table are the tasks
    of the store that pass both filters, in the order of the store; a
    filter passes a task when it is absent or empty, or equal to the field
    of the task up to case. With no such task it says so. The due date of
    a row is that of the last record of the review store for the id of the
    task, which is the record that [cmd_review] finds when the store has
    one record for each task. *)
Theorem list_tasks_rows (lower : string -> string)
  (subject_filter status_filter : option string) (w : world) :
  exists o,
    cmd_list_tasks lower subject_filter status_filter w = Ok tt (say w o) /\
    (filter (fun t => passes lower subject_filter (subject t) &&
                      passes lower status_filter (status t)) (tasks_in w) = [] ->
     o = out_no_matching_tasks) /\
    (filter (fun t => passes lower subject_filter (subject t) &&
                      passes lower status_filter (status t)) (tasks_in w) <> [] ->
     exists rows,
       o = out_task_table rows /\
       map lrow_task rows =
         filter (fun t => passes lower subject_filter (subject t) &&
                          passes lower status_filter (status t)) (tasks_in w) /\
       (forall row,
           In row rows ->
           lrow_due row =
             dict_get (map (fun r => (task_id r, due r)) (reviews_in w))
                      (id (lrow_task row))) /\
       (NoDup (map task_id (reviews_in w)) ->
        forall row,
          In row rows ->
          lrow_due row = option_map due (review_of (id (lrow_task row)) (reviews_in w)))).
Proof.
  eexists. split; [apply cmd_list_tasks_run|].
  rewrite selected_tasks_filter.
  destruct (filter _ (tasks_in w)) as [|t ts] eqn:F.
  - split; [reflexivity | congruence].
  - split; [congruence|]. intros _. eexists. split; [reflexivity|].
    split; [|split].
    + rewrite map_map. simpl. f_equal. rewrite <- map_id. apply map_ext. reflexivity.
    + intros row I. apply in_map_iff in I. destruct I as [x [<- _]]. reflexivity.
    + intros N row I. apply in_map_iff in I. destruct I as [x [<- _]].
      simpl. now apply dict_get_review_of.
Qed.

(** *** After a review *)

Lemma review_of_unique (l : list review) (r : review) :
  NoDup (map task_id l) -> In r l -> review_of (task_id r) l = Some r.
Proof.
  unfold review_of. induction l as [|x l IH]; intros N I; [destruct I|].
  inversion N as [|? ? Hx N']; subst. simpl.
  destruct I as [->|I]; [now rewrite Z.eqb_refl|].
  destruct (Z.eqb_spec (task_id x) (task_id r)) as [E|E]; [|now apply IH].
  elim Hx. rewrite E. now apply in_map.
Qed.

Lemma sorted_In (l : list review) (r : review) : In r (sorted l) <-> In r l.
Proof.
  split; intros I.
  - exact (Permutation_in _ (sorted_perm l) I).
  - exact (Permutation_in _ (Permutation_sym (sorted_perm l)) I).
Qed.

(** X18. A task that has just been reviewed is not due. When the review store
    has one record for each task and [cmd_review] returns, the record of the
    task is due after today; the due query of the same day does not list the
    task, and the task listing shows its new due date with no flag. *)
Theorem reviewed_task_is_not_due (lower : string -> string)
  (subject_filter status_filter : option string) (tid quality : Z) (w w' : world) :
  NoDup (map task_id (reviews_in w)) ->
  cmd_review tid quality w = Ok tt w' ->
  (exists r, review_of tid (reviews_in w') = Some r /\ clock w' < due r) /\
  (forall rows row,
      cmd_review_due None w' = Ok tt (say w' (out_due_table rows)) ->
      In row rows -> task_id (row_review row) <> tid) /\
  (forall rows row,
      cmd_list_tasks lower subject_filter status_filter w' =
        Ok tt (say w' (out_task_table rows)) ->
      In row rows -> id (lrow_task row) = tid ->
      lrow_flag row = ""%string /\ exists d, lrow_due row = Some d /\ clock w' < d).
Proof.
  intros N E.
  destruct (cmd_review_returns _ _ _ _ E) as (e & n & E1 & E2 & E3 & R & W).
  pose proof (next_interval_positive _ _ _ _ E2) as P.
  assert (C : clock w' = clock w) by (subst w'; reflexivity).
  assert (N' : NoDup (map task_id (reviews_in w'))).
  { subst w'. unfold reviews_in at 1. simpl. rewrite saved_task_id.
    now apply upserted_NoDup. }
  split; [|split].
  - eexists. split; [exact R|]. simpl. lia.
  - intros rows row Q I T.
    rewrite cmd_review_due_run in Q.
    assert (Q' : match due_items None w' with
                 | [] => match reviews_in w' with
                         | r :: rest => out_no_reviews_due (due (min_by_due r rest))
                         | [] => out_no_reviews_scheduled
                         end
                 | _ => out_due_table
                          (map (due_row_of (clock w') (tasks_in w')) (sorted (due_items None w')))
                 end = out_due_table rows).
    { inversion Q as [Q1]. apply app_inv_head in Q1. now inversion Q1. }
    remember (due_items None w') as its eqn:D. destruct its as [|r0 items].
    + destruct (reviews_in w'); discriminate.
    + injection Q' as Q2.
      change (insert_sorted r0 (sorted items)) with (sorted (r0 :: items)) in Q2.
      rewrite <- Q2 in I.
      apply in_map_iff in I. destruct I as [r [Er Ir]]. subst row. simpl in T.
      apply (proj1 (sorted_In _ _)) in Ir. rewrite D in Ir. unfold due_items in Ir.
      apply filter_In in Ir. destruct Ir as [Ir Dr]. apply Z.leb_le in Dr.
      pose proof (review_of_unique _ _ N' Ir) as U. rewrite T, R in U.
      inversion U; subst r. simpl in Dr. lia.
  - intros rows row Q I T.
    rewrite cmd_list_tasks_run in Q.
    assert (Q' : match selected_tasks lower subject_filter status_filter (tasks_in w') with
                 | [] => out_no_matching_tasks
                 | ts => out_task_table (map (list_row (clock w') (reviews_in w')) ts)
                 end = out_task_table rows).
    { inversion Q as [Q1]. apply app_inv_head in Q1. now inversion Q1. }
    destruct (selected_tasks _ _ _ _) as [|t ts]; [discriminate|].
    injection Q' as Q2. rewrite <- Q2 in I.
    change (In row (map (list_row (clock w') (reviews_in w')) (t :: ts))) in I.
    apply in_map_iff in I. destruct I as [x [Ex Ix]]. subst row.
    simpl in T. unfold list_row, list_flag. simpl.
    rewrite (dict_get_review_of _ _ N'), T, R. simpl.
    destruct (negb (String.eqb (status x) STATUS_DONE)); simpl.
    + destruct (Z.ltb_spec (clock w + n) (clock w')); [lia|].
      split; [reflexivity | eexists; split; [reflexivity | lia]].
    + split; [reflexivity | eexists; split; [reflexivity | lia]].
Qed.

Lemma reviewed_task_is_not_due_witness :
  NoDup (map task_id (reviews_in three_tasks)) /\
  exists r,
    review_of 1 (reviews_in (world_of (cmd_review 1 4 three_tasks))) = Some r /\
    739923 < due r.
Proof.
  assert (N : NoDup (map task_id (reviews_in three_tasks))).
  { simpl. repeat constructor; simpl; intuition discriminate. }
  split; [exact N|].
  assert (E : cmd_review 1 4 three_tasks = Ok tt (world_of (cmd_review 1 4 three_tasks)))
    by (vm_compute; reflexivity).
  exact (proj1 (reviewed_task_is_not_due AsciiText.lower None None 1 4 three_tasks _ N E)).
Defined.

(** *** After a clear of the tasks *)

Lemma dict_get_empty {V : Type} (key : Z) : dict_get (@nil (Z * V)) key = None.
Proof. reflexivity. Qed.

(** X19. [clear tasks] empties the task store and keeps the review store. The
    task listing then finds no task, and every row of a due query stands
    for a task that is missing: a question mark for its subject and
    [<missing>] for its title. *)
Theorem cleared_tasks_leave_reviews (lower : string -> string)
  (subject_filter status_filter : option string) (on : option date) (w : world) :
  exists w1,
    cmd_clear "tasks" w = Ok tt w1 /\
    tasks_in w1 = [] /\
    reviews_in w1 = reviews_in w /\
    clock w1 = clock w /\
    cmd_list_tasks lower subject_filter status_filter w1 =
      Ok tt (say w1 out_no_matching_tasks) /\
    (due_items on w <> [] ->
     exists rows,
       cmd_review_due on w1 = Ok tt (say w1 (out_due_table rows)) /\
       map row_review rows = sorted (due_items on w) /\
       forall row, In row rows ->
                   row_subject row = "?"%string /\ row_title row = "<missing>"%string).
Proof.
  eexists. split; [reflexivity|]. simpl.
  split; [reflexivity|]. split; [reflexivity|]. split; [reflexivity|]. split.
  - rewrite cmd_list_tasks_run. unfold tasks_in. simpl.
    unfold selected_tasks.
    destruct subject_filter as [s|]; destruct status_filter as [s'|];
      try destruct (negb (String.eqb s "")); try destruct (negb (String.eqb s' ""));
      reflexivity.
  - intros D. rewrite cmd_review_due_run.
    match goal with
    | |- context [due_items on ?x] =>
        change (due_items on x) with (due_items on w)
    end.
    destruct (due_items on w) as [|r0 items] eqn:F; [congruence|].
    eexists. split; [reflexivity|]. split.
    + apply row_review_of_rows.
    + intros row I. apply in_map_iff in I. destruct I as [r [<- _]].
      split; reflexivity.
Qed.

(** ** Quotients of integers *)

Lemma loc_code_range (l : location) : 0 <= loc_code l <= 3.
Proof. destruct l as [|[| |]]; simpl; lia. Qed.

Lemma record_of_loc (q : Z) (l : location) :
  0 <= q ->
  shr_record_of_loc q l =
  Pos.iter shr_1 (Build_shr_record (4 * q + loc_code l) false false) 2.
Proof.
  intros H. unfold Pos.iter. pose proof (loc_code_range l) as C.
  assert (D1 : (4 * q + loc_code l) / 2 = 2 * q + loc_code l / 2).
  { replace (4 * q + loc_code l) with (2 * q * 2 + loc_code l) by lia.
    rewrite Z.div_add_l by lia. reflexivity. }
  assert (O1 : Z.odd (4 * q + loc_code l) = Z.odd (loc_code l)).
  { replace (4 * q + loc_code l) with (loc_code l + 2 * (2 * q)) by lia.
    apply Z.odd_add_mul_2. }
  assert (K : 0 <= loc_code l / 2 <= 1).
  { clear. destruct l as [|[| |]]; vm_compute; split; discriminate. }
  assert (D2 : (2 * q + loc_code l / 2) / 2 = q).
  { symmetry. apply (Z.div_unique _ _ _ (loc_code l / 2)); lia. }
  assert (O2 : Z.odd (2 * q + loc_code l / 2) = Z.odd (loc_code l / 2)).
  { replace (2 * q + loc_code l / 2) with (loc_code l / 2 + 2 * q) by lia.
    apply Z.odd_add_mul_2. }
  rewrite (shr_1_spec (Build_shr_record (4 * q + loc_code l) false false))
    by (cbn [shr_m]; lia).
  cbn [shr_m shr_r shr_s orb].
  rewrite shr_1_spec by (cbn [shr_m]; rewrite D1; lia).
  cbn [shr_m shr_r shr_s]. rewrite D1, D2, O1, O2.
  destruct l as [|[| |]]; reflexivity.
Qed.

Lemma first_step (q e : Z) (l : location) :
  0 <= q ->
  round_nearest_even (shr_m (fst (shr_fexp prec emax q e l)))
                     (loc_of_shr_record (fst (shr_fexp prec emax q e l))) =
    rhe (4 * q + loc_code l) (first_shift q e + 2) /\
  snd (shr_fexp prec emax q e l) = e + first_shift q e.
Proof.
  intros H. pose proof (loc_code_range l) as C.
  unfold shr_fexp, shr, first_shift. rewrite fexp_eq.
  destruct (Z.max (Zdigits2 q + e - 53) (-1074) - e) as [|n|n] eqn:N.
  - cbn [fst snd]. rewrite record_of_loc by exact H.
    rewrite (shr_round (4 * q + loc_code l) 2) by lia.
    replace (Z.max 0 (Z.max (Zdigits2 q - 53) (-1074 - e))) with 0 by lia.
    split; [reflexivity | lia].
  - cbn [fst snd]. rewrite iter_pos_iter, record_of_loc by exact H.
    rewrite <- Pos.iter_add.
    rewrite (shr_round (4 * q + loc_code l) (n + 2)) by lia.
    replace (Z.max 0 (Z.max (Zdigits2 q - 53) (-1074 - e))) with (Z.pos n) by lia.
    split; [f_equal; lia | lia].
  - cbn [fst snd]. rewrite record_of_loc by exact H.
    rewrite (shr_round (4 * q + loc_code l) 2) by lia.
    replace (Z.max 0 (Z.max (Zdigits2 q - 53) (-1074 - e))) with 0 by lia.
    split; [reflexivity | lia].
Qed.

Lemma Zdigits2_le (N d : Z) : 0 <= N -> 0 <= d -> N < 2 ^ d -> Zdigits2 N <= d.
Proof.
  intros HN Hd H. destruct (Z.eq_dec N 0) as [->|NZ]; [simpl; lia|].
  pose proof (Zdigits2_spec N ltac:(lia)) as [L U].
  destruct (Z.leb_spec (Zdigits2 N) d); [assumption|].
  assert (2 ^ d <= 2 ^ (Zdigits2 N - 1)) by (apply Z.pow_le_mono_r; lia). lia.
Qed.

Lemma second_step (s : bool) (M e1 : Z) :
  0 <= M <= 2 ^ 53 -> -1074 <= e1 ->
  match shr_m (fst (shr_fexp prec emax M e1 loc_Exact)) with
  | 0 => S754_zero s
  | Z.pos m =>
      if snd (shr_fexp prec emax M e1 loc_Exact) <=? emax - prec
      then S754_finite s m (snd (shr_fexp prec emax M e1 loc_Exact))
      else S754_infinity s
  | Z.neg _ => S754_nan
  end =
  if M =? 2 ^ 53 then pack s (2 ^ 52) (e1 + 1075) else pack s M (e1 + 1074).
Proof.
  intros HM He.
  destruct (Z.eqb_spec M (2 ^ 53)) as [E|E].
  - subst M.
    assert (S1 : shr_fexp prec emax (2 ^ 53) e1 loc_Exact =
                 (Build_shr_record (2 ^ 52) false false, e1 + 1)).
    { rewrite (shr_fexp_some _ _ 1); [reflexivity|].
      change (Zdigits2 (2 ^ 53)) with 54. rewrite fexp_eq. lia. }
    rewrite S1. cbn [fst snd shr_m]. rewrite pack_finish. f_equal. lia.
  - assert (D : Zdigits2 M <= 53) by (apply Zdigits2_le; lia).
    rewrite shr_fexp_none by (rewrite fexp_eq; lia).
    cbn [fst snd shr_m]. apply pack_finish.
Qed.

(** Rounding a mantissa with its location. *)
Lemma binary_round_aux_loc (s : bool) (q e : Z) (l : location) :
  0 <= q -> (-1074 < e -> 2 ^ 52 <= q) ->
  let M := rhe (4 * q + loc_code l) (first_shift q e + 2) in
  let E := e + first_shift q e + 1074 in
  binary_round_aux prec emax s q e l =
    (if M =? 2 ^ 53 then pack s (2 ^ 52) (E + 1) else pack s M E) /\
  0 <= M <= 2 ^ 53 /\ 0 <= E /\ (0 < E -> 2 ^ 52 <= M).
Proof.
  intros Hq Hn M E. pose proof (loc_code_range l) as C.
  assert (F0 : 0 <= first_shift q e) by (unfold first_shift; lia).
  assert (X0 : 0 <= 4 * q + loc_code l) by lia.
  assert (B : 0 <= M <= 2 ^ 53 /\ (0 < E -> 2 ^ 52 <= M)).
  { unfold M, E.
    pose proof (rhe_between (4 * q + loc_code l) (first_shift q e + 2) ltac:(lia)) as RB.
    pose proof (pow2_pos (first_shift q e + 2) ltac:(lia)) as P.
    assert (L0 : 0 <= (4 * q + loc_code l) / 2 ^ (first_shift q e + 2))
      by (apply Z.div_pos; lia).
    destruct (Z.eq_dec q 0) as [Q0|Q0].
    - subst q. unfold first_shift in *. simpl Zdigits2 in *.
      assert (Xs : 4 * 0 + loc_code l <= 3) by lia.
      assert (2 ^ 2 <= 2 ^ (Z.max 0 (Z.max (0 - 53) (-1074 - e)) + 2))
        by (apply Z.pow_le_mono_r; lia).
      assert ((4 * 0 + loc_code l) / 2 ^ (Z.max 0 (Z.max (0 - 53) (-1074 - e)) + 2) = 0)
        by (apply Z.div_small; simpl in *; lia).
      split; [simpl in *; lia|]. intros HE.
      assert (-1074 < e) by lia. specialize (Hn ltac:(lia)). simpl in Hn. lia.
    - pose proof (Zdigits2_spec q ltac:(lia)) as [DL DU].
      assert (D0 : 0 < Zdigits2 q).
      { destruct (Z.ltb_spec 0 (Zdigits2 q)); [assumption|].
        assert (2 ^ Zdigits2 q <= 2 ^ 0) by
          (destruct (Z.ltb_spec (Zdigits2 q) 0);
           [rewrite Z.pow_neg_r by lia; simpl; lia | apply Z.pow_le_mono_r; lia]).
        simpl in *. lia. }
      assert (XU : 4 * q + loc_code l <= 2 ^ (Zdigits2 q + 2) - 1).
      { rewrite Z.pow_add_r by lia. change (2 ^ 2) with 4. lia. }
      assert (XL : 2 ^ (Zdigits2 q + 1) <= 4 * q + loc_code l).
      { replace (Zdigits2 q + 1) with (Zdigits2 q - 1 + 2) by lia.
        rewrite Z.pow_add_r by lia. change (2 ^ 2) with 4. lia. }
      split.
      + split; [lia|].
        destruct (Z.le_gt_cases (first_shift q e) (Zdigits2 q)) as [G|G].
        * apply Z.le_trans with
            (rhe (2 ^ (Zdigits2 q - first_shift q e) * 2 ^ (first_shift q e + 2))
                 (first_shift q e + 2)).
          -- apply rhe_mono; [lia|]. rewrite <- Z.pow_add_r by lia.
             replace (Zdigits2 q - first_shift q e + (first_shift q e + 2))
               with (Zdigits2 q + 2) by lia. lia.
          -- rewrite rhe_exact by lia. apply Z.pow_le_mono_r; [lia|].
             unfold first_shift. lia.
        * assert ((4 * q + loc_code l) / 2 ^ (first_shift q e + 2) = 0).
          { apply Z.div_small. split; [lia|].
            apply Z.le_lt_trans with (2 ^ (Zdigits2 q + 2) - 1); [exact XU|].
            assert (2 ^ (Zdigits2 q + 2) <= 2 ^ (first_shift q e + 2))
              by (apply Z.pow_le_mono_r; lia). lia. }
          assert (1 <= 2 ^ 53) by (change (2 ^ 53) with 9007199254740992; lia). lia.
      + intros HE.
        assert (D53 : 53 <= Zdigits2 q).
        { destruct (Z.le_gt_cases 53 (Zdigits2 q)) as [G|G]; [exact G|].
          assert (-1074 < e) by (unfold first_shift in HE; lia).
          specialize (Hn ltac:(lia)).
          assert (2 ^ Zdigits2 q <= 2 ^ 52) by (apply Z.pow_le_mono_r; lia). lia. }
        assert (FS : first_shift q e = Zdigits2 q - 53) by (unfold first_shift in *; lia).
        apply Z.le_trans with (rhe (2 ^ 52 * 2 ^ (first_shift q e + 2))
                                   (first_shift q e + 2)).
        * rewrite rhe_exact by lia. lia.
        * apply rhe_mono; [lia|]. rewrite <- Z.pow_add_r by lia.
          replace (52 + (first_shift q e + 2)) with (Zdigits2 q + 1) by lia. exact XL. }
  assert (E0 : 0 <= E) by (unfold E, first_shift; lia).
  split; [|split; [tauto | split; [exact E0 | tauto]]].
  unfold binary_round_aux.
  destruct (first_step q e l Hq) as [R1 R2].
  destruct (shr_fexp prec emax q e l) as [mrs e1] eqn:S1. cbn [fst snd] in R1, R2.
  rewrite R1. fold M.
  pose proof (second_step s M e1 ltac:(tauto) ltac:(unfold E in E0; lia)) as S2.
  destruct (shr_fexp prec emax M e1 loc_Exact) as [mrs2 e2] eqn:S3.
  cbn [fst snd] in S2. rewrite S2. subst e1. unfold E.
  replace (e + first_shift q e + 1075) with (e + first_shift q e + 1074 + 1) by lia.
  reflexivity.
Qed.

(** *** Division of integers *)

Lemma new_location_exact (t : Z) : new_location t 0 = loc_Exact.
Proof. unfold new_location, new_location_even, new_location_odd. now destruct (Z.even t). Qed.

Lemma SFdiv_ints (d t : positive) :
  SFdiv prec emax (S754_finite false d 0) (S754_finite false t 0) =
    binary_round_aux prec emax false (div_quotient d t) (div_exponent d t)
                     (div_location d t) /\
  -1074 <= div_exponent d t <= 0 /\
  0 <= div_quotient d t /\
  (-1074 < div_exponent d t -> 2 ^ 52 <= div_quotient d t).
Proof.
  pose proof (digits_spec d) as [DL DU]. pose proof (digits_spec t) as [TL TU].
  assert (E : -1074 <= div_exponent d t <= 0) by (unfold div_exponent; lia).
  pose proof (pow2_pos (- div_exponent d t) ltac:(lia)) as P.
  split; [|split; [exact E|split]].
  - unfold SFdiv, SFdiv_core_binary. cbn [xorb].
    change (Zdigits2 (Z.pos d)) with (Z.pos (digits2_pos d)).
    change (Zdigits2 (Z.pos t)) with (Z.pos (digits2_pos t)).
    rewrite fexp_eq.
    replace (Z.min (Z.max (Z.pos (digits2_pos d) + 0 - (Z.pos (digits2_pos t) + 0) - 53)
                          (-1074)) (0 - 0))
      with (div_exponent d t) by (unfold div_exponent; f_equal; lia).
    replace (0 - 0 - div_exponent d t) with (- div_exponent d t) by lia.
    assert (M : match - div_exponent d t with
                | 0 => Z.pos d
                | Z.pos _ => Z.shiftl (Z.pos d) (- div_exponent d t)
                | Z.neg _ => 0
                end = Z.pos d * 2 ^ (- div_exponent d t)).
    { destruct (- div_exponent d t) as [|p|p] eqn:S; [simpl; lia| |lia].
      rewrite Z.shiftl_mul_pow2 by lia. reflexivity. }
    rewrite M. unfold div_quotient, div_location, Z.div, Z.modulo.
    destruct (Z.div_eucl (Z.pos d * 2 ^ (- div_exponent d t)) (Z.pos t)); reflexivity.
  - unfold div_quotient. apply Z.div_pos; lia.
  - intros H. unfold div_quotient.
    apply Z.div_le_lower_bound; [lia|].
    unfold div_exponent in *.
    destruct (Z.le_gt_cases (Z.pos (digits2_pos d) - Z.pos (digits2_pos t) - 53) 0) as [C|C].
    + replace (Z.min (Z.max (Z.pos (digits2_pos d) - Z.pos (digits2_pos t) - 53) (-1074)) 0)
        with (Z.pos (digits2_pos d) - Z.pos (digits2_pos t) - 53) in * by lia.
      replace (- (Z.pos (digits2_pos d) - Z.pos (digits2_pos t) - 53))
        with (Z.pos (digits2_pos t) + 53 - Z.pos (digits2_pos d)) by lia.
      apply Z.le_trans with (2 ^ Z.pos (digits2_pos t) * 2 ^ 52); [nia|].
      apply Z.le_trans with
        (2 ^ (Z.pos (digits2_pos d) - 1) *
         2 ^ (Z.pos (digits2_pos t) + 53 - Z.pos (digits2_pos d))).
      * rewrite <- !Z.pow_add_r by lia. apply Z.pow_le_mono_r; lia.
      * apply Z.mul_le_mono_nonneg_r; [|lia]. apply Z.pow_nonneg. lia.
    + replace (Z.min (Z.max (Z.pos (digits2_pos d) - Z.pos (digits2_pos t) - 53) (-1074)) 0)
        with 0 in * by lia.
      simpl Z.opp. rewrite Z.pow_0_r, Z.mul_1_r.
      apply Z.le_trans with (2 ^ Z.pos (digits2_pos t) * 2 ^ 52); [nia|].
      apply Z.le_trans with (2 ^ (Z.pos (digits2_pos d) - 1)); [|lia].
      rewrite <- Z.pow_add_r by lia. apply Z.pow_le_mono_r; lia.
Qed.

Lemma round_at_most (q e : Z) (l : location) (B : Z) :
  0 <= q -> (-1074 < e -> 2 ^ 52 <= q) -> e <= 0 -> 1 <= B < 2 ^ 53 ->
  4 * q + loc_code l <= 4 * B * 2 ^ (- e) ->
  valid_binary (binary_round_aux prec emax false q e l) = true /\
  at_most B (binary_round_aux prec emax false q e l).
Proof.
  intros Hq Hn He HB HX. pose proof (loc_code_range l) as C.
  destruct (binary_round_aux_loc false q e l Hq Hn) as (R & (M0 & M53) & E0 & EM).
  set (f := first_shift q e) in *.
  set (M := rhe (4 * q + loc_code l) (f + 2)) in *.
  pose proof (pow2_pos (- e) ltac:(lia)) as P.
  assert (F0 : 0 <= f) by (unfold f, first_shift; lia).
  assert (FE : f <= - e).
  { unfold f, first_shift.
    assert (D : Zdigits2 q <= 53 - e).
    { apply Zdigits2_le; [lia | lia |].
      replace (53 - e) with (53 + - e) by lia. rewrite Z.pow_add_r by lia.
      assert (q <= B * 2 ^ (- e)) by lia. nia. }
    lia. }
  assert (MB : M <= B * 2 ^ (- e - f)).
  { unfold M.
    apply Z.le_trans with (rhe (B * 2 ^ (- e - f) * 2 ^ (f + 2)) (f + 2)).
    - apply rhe_mono; [lia|]. rewrite <- Z.mul_assoc, <- Z.pow_add_r by lia.
      replace (- e - f + (f + 2)) with (- e + 2) by lia.
      rewrite Z.pow_add_r by lia. change (2 ^ 2) with 4. lia.
    - rewrite rhe_exact by lia. lia. }
  rewrite R.
  destruct (Z.eqb_spec M (2 ^ 53)) as [E53|E53].
  - assert (X1 : e + f <= -1).
    { destruct (Z.eq_dec (e + f) 0) as [Z0|Z0]; [|lia].
      replace (- e - f) with 0 in MB by lia. simpl in MB. lia. }
    split.
    + apply pack_valid. unfold canonical.
      change (2 ^ 52) with 4503599627370496. change (2 ^ 53) with 9007199254740992. lia.
    + right. unfold pack. change (2 ^ 52) with (Z.pos 4503599627370496).
      destruct (Z.leb_spec (e + f + 1074 + 1) 2045); [|lia].
      eexists. eexists. split; [reflexivity|]. split; [lia|].
      replace (- (e + f + 1074 + 1 - 1074)) with (- e - f - 1) by lia.
      assert (2 ^ (- e - f) = 2 * 2 ^ (- e - f - 1)).
      { rewrite <- Z.pow_succ_r by lia. f_equal. lia. }
      change (Z.pos 4503599627370496) with (2 ^ 52).
      change (2 ^ 53) with (2 * 2 ^ 52) in E53. nia.
  - destruct (Z.eq_dec M 0) as [Z0|Z0].
    + rewrite Z0. split; [reflexivity | now left].
    + split.
      * apply pack_valid. unfold canonical. lia.
      * right. unfold pack. destruct M as [|m|m]; try lia.
        destruct (Z.leb_spec (e + f + 1074) 2045); [|lia].
        eexists. eexists. split; [reflexivity|]. split; [lia|].
        replace (- (e + f + 1074 - 1074)) with (- e - f) by lia. exact MB.
Qed.

Lemma py_round_at_most (y : float) (B : Z) :
  0 <= B -> at_most B (Prim2SF y) -> exists n, PyNum.py_round y = Val n /\ 0 <= n <= B.
Proof.
  intros HB [Z0|(m & x & E & X & L)]; unfold PyNum.py_round.
  - rewrite Z0. exists 0. split; [reflexivity | lia].
  - rewrite E. eexists. split; [reflexivity|].
    destruct (Z.leb_spec 0 x) as [G|G].
    + replace x with 0 in * by lia. simpl in *. lia.
    + pose proof (rhe_between (Z.pos m) (- x) ltac:(lia)) as RB.
      pose proof (pow2_pos (- x) ltac:(lia)) as P.
      assert (0 <= Z.pos m / 2 ^ (- x)) by (apply Z.div_pos; lia).
      split; [unfold rhe in RB; lia|].
      apply Z.le_trans with (rhe (B * 2 ^ (- x)) (- x)).
      * apply (rhe_mono _ _ (- x)); lia.
      * rewrite rhe_exact by lia. lia.
Qed.

(** *** The percentage of [cmd_list_subjects] *)

Lemma truediv_at_most_one (d t : positive) :
  Z.pos d <= Z.pos t ->
  valid_binary (SFdiv prec emax (S754_finite false d 0) (S754_finite false t 0)) = true /\
  at_most 1 (SFdiv prec emax (S754_finite false d 0) (S754_finite false t 0)).
Proof.
  intros H. destruct (SFdiv_ints d t) as (R & E & Q0 & QN). rewrite R.
  pose proof (pow2_pos (- div_exponent d t) ltac:(lia)) as P.
  apply round_at_most; [exact Q0 | exact QN | lia | change (2 ^ 53) with 9007199254740992; lia |].
  assert (QU : div_quotient d t <= 2 ^ (- div_exponent d t)).
  { unfold div_quotient. apply Z.div_le_upper_bound; [lia | nia]. }
  destruct (Z.eq_dec (div_quotient d t) (2 ^ (- div_exponent d t))) as [QE|QE].
  - assert (DT : Z.pos d = Z.pos t).
    { unfold div_quotient in QE.
      pose proof (Z.mul_div_le (Z.pos d * 2 ^ (- div_exponent d t)) (Z.pos t) ltac:(lia)) as L.
      rewrite QE in L. nia. }
    unfold div_location. rewrite DT.
    rewrite (Z.mul_comm (Z.pos t)), Z.mod_mul by lia.
    rewrite new_location_exact. simpl loc_code. lia.
  - pose proof (loc_code_range (div_location d t)). lia.
Qed.

Lemma percent_bounds (done total : Z) :
  0 <= done <= total -> 0 < total ->
  exists pct, percent done total = Val pct /\ 0 <= pct <= 100.
Proof.
  intros H T. unfold percent.
  destruct (Z.eqb_spec total 0); [lia|].
  destruct total as [|t|t]; try lia.
  destruct done as [|d|d]; try lia.
  - exists 0. split; [|lia]. vm_compute. reflexivity.
  - unfold int_truediv. cbn [sf_of_int].
    destruct (truediv_at_most_one d t ltac:(lia)) as [V A].
    assert (S1 : forall r,
               valid_binary r = true -> at_most 1 r ->
               exists pct,
                 PyNum.py_round (SF2Prim r * 100)%float = Val pct /\ 0 <= pct <= 100).
    { intros r Vr Ar. apply py_round_at_most; [lia|].
      rewrite mul_spec, (Prim2SF_SF2Prim _ Vr).
      change (Prim2SF 100%float) with (S754_finite false 7036874417766400 (-46)).
      destruct Ar as [->|(m & x & -> & X & L)]; [left; reflexivity|].
      unfold SFmul. cbn [xorb].
      apply round_at_most.
      - lia.
      - intros _. change (2 ^ 52) with 4503599627370496. lia.
      - lia.
      - change (2 ^ 53) with 9007199254740992. lia.
      - simpl loc_code. replace (- (x + -46)) with (- x + 46) by lia.
        rewrite Z.pow_add_r by lia. change (2 ^ 46) with 70368744177664.
        rewrite Pos2Z.inj_mul. lia. }
    destruct (SFdiv prec emax (S754_finite false d 0) (S754_finite false t 0)) as [s|s| |s m x] eqn:R.
    + cbn [result_bind]. exact (S1 _ V A).
    + destruct A as [A|(m & x & A & _)]; discriminate.
    + destruct A as [A|(m & x & A & _)]; discriminate.
    + cbn [result_bind]. exact (S1 _ V A).
Qed.

(** *** The ease in the file *)

Lemma round_at_least_two (q e : Z) (l : location) :
  0 <= q -> (-1074 < e -> 2 ^ 52 <= q) -> e <= 0 -> 2 ^ (1 - e) <= q ->
  valid_binary (binary_round_aux prec emax false q e l) = true /\
  at_least_two (binary_round_aux prec emax false q e l).
Proof.
  intros Hq Hn He HQ.
  destruct (binary_round_aux_loc false q e l Hq Hn) as (R & (M0 & M53) & E0 & EM).
  set (f := first_shift q e) in *.
  set (M := rhe (4 * q + loc_code l) (f + 2)) in *.
  pose proof (pow2_pos (1 - e) ltac:(lia)) as P.
  pose proof (Zdigits2_spec q ltac:(lia)) as [DL DU].
  assert (D : 2 - e <= Zdigits2 q).
  { destruct (Z.le_gt_cases (2 - e) (Zdigits2 q)) as [G|G]; [exact G|].
    assert (2 ^ Zdigits2 q <= 2 ^ (1 - e)).
    { destruct (Z.ltb_spec (Zdigits2 q) 0);
        [rewrite Z.pow_neg_r by lia; lia | apply Z.pow_le_mono_r; lia]. }
    lia. }
  assert (X : -51 <= e + f) by (unfold f, first_shift; lia).
  specialize (EM ltac:(lia)).
  assert (P52 : 0 < 2 ^ 52) by (apply pow2_pos; lia).
  rewrite R. destruct (Z.eqb_spec M (2 ^ 53)) as [E53|E53].
  - split.
    + apply pack_valid. unfold canonical.
      change (2 ^ 52) with 4503599627370496. change (2 ^ 53) with 9007199254740992. lia.
    + unfold pack. change (2 ^ 52) with (Z.pos 4503599627370496).
      destruct (Z.leb_spec (e + f + 1074 + 1) 2045); [|now left].
      right. eexists. eexists. split; [reflexivity | lia].
  - split.
    + apply pack_valid. unfold canonical. lia.
    + unfold pack. destruct M as [|m|m]; try lia.
      destruct (Z.leb_spec (e + f + 1074) 2045); [|now left].
      right. eexists. eexists. split; [reflexivity | lia].
Qed.

Lemma at_least_two_floor (r : spec_float) : at_least_two r -> SFleb sf_1_3 r = true.
Proof.
  intros [->|(m & x & -> & X)]; [reflexivity|].
  unfold SFleb, SFcompare, sf_1_3.
  destruct (Z.compare_spec (-52) x); [lia | reflexivity | lia].
Qed.

(** From 1.30 to 1.99. *)
Lemma hundredths_floor_small (k : positive) :
  130 <= Z.pos k < 200 ->
  valid_binary (SFdiv prec emax (S754_finite false k 0) (S754_finite false 100 0)) = true /\
  SFleb sf_1_3 (SFdiv prec emax (S754_finite false k 0) (S754_finite false 100 0)) = true.
Proof.
  intros H.
  assert (A : forallb (fun n =>
                let r := SFdiv prec emax (S754_finite false (Pos.of_nat n) 0)
                               (S754_finite false 100 0) in
                valid_binary r && SFleb sf_1_3 r) (seq 130 70) = true)
    by (vm_compute; reflexivity).
  rewrite forallb_forall in A.
  specialize (A (Pos.to_nat k)). rewrite Pos2Nat.id in A.
  apply andb_true_iff. apply A. apply in_seq. lia.
Qed.

Lemma hundredths_floor (k : positive) :
  130 <= Z.pos k ->
  valid_binary (SFdiv prec emax (S754_finite false k 0) (S754_finite false 100 0)) = true /\
  SFleb sf_1_3 (SFdiv prec emax (S754_finite false k 0) (S754_finite false 100 0)) = true.
Proof.
  intros H. destruct (Z.lt_ge_cases (Z.pos k) 200) as [S|L].
  - apply hundredths_floor_small. lia.
  - destruct (SFdiv_ints k 100) as (R & E & Q0 & QN). rewrite R.
    pose proof (pow2_pos (- div_exponent k 100) ltac:(lia)) as P.
    destruct (round_at_least_two (div_quotient k 100) (div_exponent k 100)
                (div_location k 100) Q0 QN ltac:(lia)) as [V A].
    + unfold div_quotient. apply Z.div_le_lower_bound; [lia|].
      replace (1 - div_exponent k 100) with (1 + - div_exponent k 100) by lia.
      rewrite Z.pow_add_r by lia. change (2 ^ 1) with 2. nia.
    + split; [exact V | now apply at_least_two_floor].
Qed.

Lemma valid_normal (s : bool) (m : positive) (e : Z) :
  valid_binary (S754_finite s m e) = true -> -1074 < e -> 2 ^ 52 <= Z.pos m.
Proof.
  unfold valid_binary, bounded, canonical_mantissa. rewrite andb_true_iff, Z.eqb_eq.
  rewrite fexp_eq. intros [C _] H. pose proof (digits_spec m) as [L U].
  replace (Z.pos (digits2_pos m)) with 53 in L by lia. exact L.
Qed.

Lemma two_decimals_floor (x : float) :
  (1.3 <=? x)%float = true -> (1.3 <=? PyNum.two_decimals x)%float = true.
Proof.
  rewrite !leb_spec. change (Prim2SF 1.3%float) with sf_1_3.
  pose proof (Prim2SF_valid x) as V.
  unfold PyNum.two_decimals.
  destruct (Prim2SF x) as [s|s| |s m ex] eqn:X; intros L.
  - rewrite X. exact L.
  - rewrite X. exact L.
  - discriminate.
  - destruct s; [discriminate|].
    assert (K : 130 <= (if 0 <=? ex then Z.pos m * 2 ^ ex * 100
                        else PyNum.round_half_even_shift (Z.pos m * 100) (- ex))).
    { unfold SFleb, SFcompare, sf_1_3 in L.
      destruct (Z.compare_spec (-52) ex) as [EQ|LT|GT]; [| |discriminate].
      - subst ex. simpl Z.leb. cbv iota.
        apply Z.le_trans with (rhe (5854679515581645 * 100) 52);
          [vm_compute; discriminate|].
        apply (rhe_mono _ _ 52); [lia|].
        assert (5854679515581645 <= Z.pos m); [|lia].
        change (Pos.compare_cont Eq 5854679515581645 m)
          with (Pos.compare 5854679515581645 m) in L.
        destruct (Pos.compare_spec 5854679515581645 m); [lia | lia | discriminate].
      - pose proof (valid_normal _ _ _ V ltac:(lia)) as N.
        destruct (Z.leb_spec 0 ex) as [G|G].
        + pose proof (pow2_pos ex G). change (2 ^ 52) with 4503599627370496 in N. nia.
        + apply Z.le_trans with (rhe (100 * 2 ^ (52 + ex) * 2 ^ (- ex)) (- ex)).
          * rewrite rhe_exact by lia.
            assert (2 ^ 1 <= 2 ^ (52 + ex)) by (apply Z.pow_le_mono_r; lia).
            change (2 ^ 1) with 2 in *. lia.
          * apply (rhe_mono _ _ (- ex)); [lia|].
            rewrite <- Z.mul_assoc, <- Z.pow_add_r by lia.
            replace (52 + ex + - ex) with 52 by lia. lia. }
    destruct (if 0 <=? ex then Z.pos m * 2 ^ ex * 100
              else PyNum.round_half_even_shift (Z.pos m * 100) (- ex)) as [|k|k];
      try lia.
    destruct (hundredths_floor k K) as [Vr Lr].
    rewrite (Prim2SF_SF2Prim _ Vr). exact Lr.
Qed.

(** ** The list of subjects *)

Lemma subject_stats_step (tasks : list task) (t : task) :
  subject_stats (tasks ++ [t]) =
  dict_set (subject t)
    (fst (match dict_find (subject t) (subject_stats tasks) with
          | Some v => v | None => (0, 0) end) + 1,
     if String.eqb (status t) STATUS_DONE
     then snd (match dict_find (subject t) (subject_stats tasks) with
               | Some v => v | None => (0, 0) end) + 1
     else snd (match dict_find (subject t) (subject_stats tasks) with
               | Some v => v | None => (0, 0) end))
    (subject_stats tasks).
Proof.
  unfold subject_stats. rewrite fold_left_app. simpl.
  destruct (dict_find (subject t) _) as [[total done]|]; reflexivity.
Qed.

Lemma count_tasks_snoc (s : string) (tasks : list task) (t : task) :
  count_tasks s (tasks ++ [t]) =
  count_tasks s tasks + (if String.eqb (subject t) s then 1 else 0).
Proof.
  unfold count_tasks. rewrite filter_app, length_app. simpl.
  destruct (String.eqb (subject t) s); simpl; lia.
Qed.

Lemma count_done_snoc (s : string) (tasks : list task) (t : task) :
  count_done s (tasks ++ [t]) =
  count_done s tasks +
  (if String.eqb (subject t) s && String.eqb (status t) STATUS_DONE then 1 else 0).
Proof.
  unfold count_done. rewrite filter_app, length_app. simpl.
  destruct (String.eqb (subject t) s && String.eqb (status t) STATUS_DONE); simpl; lia.
Qed.

Lemma count_done_le (s : string) (tasks : list task) :
  0 <= count_done s tasks <= count_tasks s tasks.
Proof.
  unfold count_done, count_tasks. split; [lia|]. apply inj_le.
  induction tasks as [|t tasks IH]; simpl; [lia|].
  destruct (String.eqb (subject t) s); simpl; [|exact IH].
  destruct (String.eqb (status t) STATUS_DONE); simpl; lia.
Qed.

(** What the first loop of [cmd_list_subjects] has counted. *)
Lemma subject_stats_find (tasks : list task) (s : string) :
  dict_find s (subject_stats tasks) =
  if count_tasks s tasks =? 0 then None
  else Some (count_tasks s tasks, count_done s tasks).
Proof.
  induction tasks as [|t tasks IH] using rev_ind; [reflexivity|].
  rewrite subject_stats_step, dict_find_set, count_tasks_snoc, count_done_snoc.
  assert (P : 0 <= count_tasks s tasks) by (unfold count_tasks; lia).
  destruct (String.eqb_spec (subject t) s) as [E|E].
  - subst s. rewrite IH. simpl andb.
    destruct (Z.eqb_spec (count_tasks (subject t) tasks + 1) 0); [lia|].
    destruct (Z.eqb_spec (count_tasks (subject t) tasks) 0) as [Z0|Z0]; simpl fst; simpl snd.
    + pose proof (count_done_le (subject t) tasks). rewrite Z0.
      replace (count_done (subject t) tasks) with 0 by lia.
      destruct (String.eqb (status t) STATUS_DONE); reflexivity.
    + destruct (String.eqb (status t) STATUS_DONE); do 2 f_equal; lia.
  - rewrite IH. simpl andb. now rewrite !Z.add_0_r.
Qed.

Lemma print_subjects_run (tasks : list task) (subs : list string) :
  forall (i : Z) (c : console),
  exists pcts,
    Forall2 (fun s pct =>
               percent (count_done s tasks) (count_tasks s tasks) = Val pct /\
               0 <= pct <= 100) subs pcts /\
    print_subjects (subject_stats tasks) i subs c =
      Returned tt
        (mk_console (disk c) (now c) (screen c ++ subject_rows tasks i subs pcts)).
Proof.
  induction subs as [|s subs IH]; intros i c.
  - exists []. split; [constructor|].
    simpl. rewrite app_nil_r. unfold cret. now rewrite console_eta.
  - simpl print_subjects. rewrite subject_stats_find.
    pose proof (count_done_le s tasks) as L.
    assert (P : exists pct,
               percent (count_done s tasks) (count_tasks s tasks) = Val pct /\
               0 <= pct <= 100).
    { destruct (Z.eq_dec (count_tasks s tasks) 0) as [Z0|Z0].
      - exists 0. split; [|lia]. unfold percent. rewrite Z0. reflexivity.
      - apply percent_bounds; lia. }
    destruct P as (pct & Pp & Pb).
    destruct (IH (i + 1)
                (mk_console (disk c) (now c)
                   (screen c ++
                    [out_subject_stats i s (count_done s tasks) (count_tasks s tasks) pct])))
      as (pcts & F & Run).
    exists (pct :: pcts). split; [constructor; [split; assumption | exact F]|].
    destruct (Z.eqb_spec (count_tasks s tasks) 0) as [Z0|Z0].
    + assert (D0 : count_done s tasks = 0) by lia.
      assert (P0 : pct = 0).
      { unfold percent in Pp. rewrite Z0 in Pp. simpl in Pp. now inversion Pp. }
      change (percent 0 0) with (Val (A := Z) 0). cbv iota beta.
      unfold cbind at 1, cprint at 1. cbn [disk now screen].
      rewrite P0, Z0, D0 in Run. rewrite Run. cbn [disk now screen subject_rows].
      rewrite P0, Z0, D0, <- app_assoc. reflexivity.
    + cbv iota beta. rewrite Pp. unfold cbind at 1, cprint at 1. cbn [disk now screen].
      rewrite Run. cbn [disk now screen subject_rows]. rewrite <- app_assoc. reflexivity.
Qed.

(** X20. [cmd_list_subjects] changes no file and always returns. With no
    subject it says so. Otherwise it prints one line for each subject, in
    the order of the file and numbered from 1, with the number of tasks
    whose subject is that very name, the number of those that are done,
    which is no more, and the percentage of the two, an integer from 0 to
    100 that is 0 when there is no such task. *)
Theorem list_subjects_counts (strip : string -> string) (c : console) :
  exists c',
    cmd_list_subjects strip c = Returned tt c' /\
    disk c' = disk c /\
    (subject_names strip (disk c) = [] -> screen c' = screen c ++ [out_no_subjects]) /\
    (subject_names strip (disk c) <> [] ->
     exists pcts,
       screen c' =
         screen c ++
         subject_rows (TASKS_FILE (disk c)) 1 (subject_names strip (disk c)) pcts /\
       Forall2 (fun s pct =>
                  percent (count_done s (TASKS_FILE (disk c)))
                          (count_tasks s (TASKS_FILE (disk c))) = Val pct /\
                  0 <= pct <= 100 /\
                  0 <= count_done s (TASKS_FILE (disk c))
                    <= count_tasks s (TASKS_FILE (disk c)) /\
                  (count_tasks s (TASKS_FILE (disk c)) = 0 -> pct = 0))
               (subject_names strip (disk c)) pcts).
Proof.
  unfold cmd_list_subjects. unfold cbind at 1. rewrite scheduler_subjects_list.
  destruct (subject_names strip (disk c)) as [|s subs] eqn:N.
  - eexists. split; [reflexivity|]. split; [reflexivity|].
    split; [reflexivity | congruence].
  - unfold cbind at 1. rewrite scheduler_tasks_list.
    destruct (print_subjects_run (TASKS_FILE (disk c)) (s :: subs) 1 c) as (pcts & F & Run).
    rewrite Run. eexists. split; [reflexivity|]. split; [reflexivity|].
    split; [congruence|]. intros _. exists pcts. split; [reflexivity|].
    eapply Forall2_impl; [|exact F]. intros x pct [A B].
    pose proof (count_done_le x (TASKS_FILE (disk c))) as L.
    repeat split; try lia; try assumption.
    intros Z0. unfold percent in A. rewrite Z0 in A. simpl in A. now inversion A.
Qed.

(** ** The ease in the review store *)

Lemma saved_floor (r : review) :
  (1.3 <=? ease r)%float = true -> (1.3 <=? ease (saved r))%float = true.
Proof. apply two_decimals_floor. Qed.

Lemma replace_first_Forall (P : review -> Prop) (tid : Z) (new : review)
  (l l' : list review) :
  P new -> Forall P l -> replace_first tid new l = Some l' -> Forall P l'.
Proof.
  intros Hn F. revert l'. induction F as [|r l Hr F IH]; simpl; intros l' H; [discriminate|].
  destruct (task_id r =? tid).
  - inversion H; subst. now constructor.
  - destruct (replace_first tid new l) as [l0|]; [|discriminate].
    inversion H; subst. constructor; [exact Hr | now apply IH].
Qed.

Lemma upserted_Forall (P : review -> Prop) (new : review) (l : list review) :
  P new -> Forall P l -> Forall P (upserted new l).
Proof.
  intros Hn F. unfold upserted.
  destruct (replace_first (task_id new) new l) as [l'|] eqn:R.
  - eapply replace_first_Forall; eassumption.
  - apply Forall_app. split; [exact F | now constructor].
Qed.

Lemma saved_upserted_floor (new : review) (l : list review) :
  (1.3 <=? ease new)%float = true ->
  Forall (fun r => (1.3 <=? ease r)%float = true) l ->
  Forall (fun r => (1.3 <=? ease r)%float = true) (map saved (upserted new l)).
Proof.
  intros Hn F. apply Forall_map.
  eapply Forall_impl; [|apply (upserted_Forall _ new l Hn F)].
  intros r. apply saved_floor.
Qed.

Lemma update_ease_floor (e0 : float) (quality : Z) (e : float) :
  _update_ease e0 quality = Val e -> (1.3 <=? e)%float = true.
Proof.
  unfold _update_ease. destruct (PyNum.float_of_int (5 - quality)); simpl; [|discriminate].
  intros H. inversion H. apply fmax_floor.
Qed.

(** X21. No ease below 1.3 comes into the review store. If every record has an
    ease of 1.3 or more, so has every record after [cmd_review], after
    [cmd_add_task] and after [done], as the file gives them back; and the
    record that a review stores for its task has such an ease whatever the
    store held. *)
Theorem stored_ease_floor (strip lower : string -> string) (subject0 title0 : string)
  (tid quality : Z) (w : world) :
  (forall w',
      cmd_review tid quality w = Ok tt w' ->
      exists r, review_of tid (reviews_in w') = Some r /\ (1.3 <=? ease r)%float = true) /\
  (Forall (fun r => (1.3 <=? ease r)%float = true) (reviews_in w) ->
   Forall (fun r => (1.3 <=? ease r)%float = true)
          (reviews_in (world_of (cmd_review tid quality w))) /\
   Forall (fun r => (1.3 <=? ease r)%float = true)
          (reviews_in (world_of (cmd_add_task strip lower subject0 title0 w))) /\
   Forall (fun r => (1.3 <=? ease r)%float = true)
          (reviews_in (world_of (main_done tid w)))).
Proof.
  assert (R : forall q w0,
             Forall (fun r => (1.3 <=? ease r)%float = true) (reviews_in w0) ->
             Forall (fun r => (1.3 <=? ease r)%float = true)
                    (reviews_in (world_of (cmd_review tid q w0)))).
  { intros q w0 F.
    destruct (cmd_review_world tid q w0) as [[x E]|(e & n & d & E1 & _ & _ & E)];
      rewrite E; simpl; [exact F|].
    unfold reviews_in at 1. simpl. apply saved_upserted_floor; [|exact F].
    simpl. eapply update_ease_floor. exact E1. }
  split.
  - intros w' E. destruct (cmd_review_returns _ _ _ _ E) as (e & n & E1 & _ & _ & Rv & _).
    eexists. split; [exact Rv|]. simpl. apply two_decimals_floor.
    eapply update_ease_floor. exact E1.
  - intros F. split; [now apply R|]. split.
    + destruct (String.eqb_spec (strip subject0) "") as [A|A].
      { unfold cmd_add_task. rewrite A. exact F. }
      destruct (String.eqb_spec (strip title0) "") as [B|B].
      { unfold cmd_add_task. rewrite B, orb_true_r. exact F. }
      destruct (cmd_add_task_run strip lower subject0 title0 w A B) as [subjects E].
      rewrite E. unfold reviews_in at 1. simpl.
      apply saved_upserted_floor; [reflexivity | exact F].
    + rewrite main_done_run. apply R. exact F.
Qed.

(** ** One command after another *)

Lemma saved_new_review (tid : Z) (d : date) :
  saved (mk_review tid 1 d 2.5%float) = mk_review tid 1 d 2.5%float.
Proof. reflexivity. Qed.

Lemma selected_tasks_none (lower : string -> string)
  (subject_filter status_filter : option string) :
  selected_tasks lower subject_filter status_filter [] = [].
Proof.
  unfold selected_tasks.
  destruct subject_filter as [s|], status_filter as [s'|]; simpl;
    repeat match goal with |- context [if ?b then _ else _] => destruct b end;
    reflexivity.
Qed.

(** X22. A task that has just been added is due today. After [cmd_add_task]
    with a subject and a title that are not blank, the due query of the
    same day prints a table, and the table has a row for the new task with
    its subject and its title, an interval of one day, today as the due
    date and the flag [DUE]. The subject and the title are such that the
    task file gives them back as they were written. *)
Theorem new_task_is_due_today (strip lower : string -> string)
  (subject0 title0 : string) (w : world) :
  strip subject0 <> ""%string -> strip title0 <> ""%string ->
  Text.clean_field strip (strip subject0) = true ->
  Text.clean_field strip (strip title0) = true ->
  exists w' rows,
    cmd_add_task strip lower subject0 title0 w = Ok tt w' /\
    cmd_review_due None w' = Ok tt (say w' (out_due_table rows)) /\
    In (mk_due_row (mk_review (next_task_id (tasks_in w)) 1 (clock w) 2.5%float)
                   (strip subject0) (strip title0) "DUE") rows.
Proof.
  intros Hs Ht _ _.
  destruct (cmd_add_task_run strip lower subject0 title0 w Hs Ht) as [subjects E].
  match type of E with _ = Ok tt ?x => set (w' := x) in * end.
  set (tid := next_task_id (tasks_in w)) in *.
  set (new := mk_review tid 1 (clock w) 2.5%float) in *.
  assert (R : reviews_in w' = map saved (upserted new (reviews_in w))) by reflexivity.
  assert (T : tasks_in w' =
              tasks_in w ++ [mk_task tid (strip subject0) (strip title0) STATUS_TODO])
    by reflexivity.
  assert (C : clock w' = clock w) by reflexivity.
  assert (I : In new (due_items None w')).
  { unfold due_items. apply filter_In. split.
    - rewrite R.
      pose proof (review_of_upserted new (reviews_in w)) as F.
      unfold review_of in F. apply find_some in F. destruct F as [F _].
      change new with (saved new). now apply in_map.
    - rewrite C. apply Z.leb_refl. }
  exists w', (map (due_row_of (clock w') (tasks_in w')) (sorted (due_items None w'))).
  split; [exact E|]. split.
  { rewrite cmd_review_due_run.
    destruct (due_items None w') as [|r0 items]; [destruct I | reflexivity]. }
  apply in_map_iff. exists new. split; [|apply (proj2 (sorted_In _ _)); exact I].
  unfold due_row_of. rewrite T, C, map_app. cbn [map id].
  rewrite dict_get_snoc. unfold due_flag, new. cbn [task_id due].
  rewrite Z.eqb_refl, Z.ltb_irrefl. reflexivity.
Qed.

Lemma new_task_is_due_today_witness :
  exists w' rows,
    cmd_add_task AsciiText.strip AsciiText.lower "Math" " Geometry " three_tasks = Ok tt w' /\
    cmd_review_due None w' = Ok tt (say w' (out_due_table rows)) /\
    In (mk_due_row (mk_review 4 1 739923 2.5%float) "Math" "Geometry" "DUE") rows.
Proof.
  assert (Hs : AsciiText.strip "Math" <> ""%string) by discriminate.
  assert (Ht : AsciiText.strip " Geometry " <> ""%string) by discriminate.
  exact (new_task_is_due_today AsciiText.strip AsciiText.lower "Math" " Geometry "
           three_tasks Hs Ht eq_refl eq_refl).
Defined.

Section AfterClearAll.

Variable strip : string -> string.
Variable lower : string -> string.
Variable int_of_str : string -> option Z.
Variable str_of_int : Z -> string.
Variable isoformat : date -> string.
Variable strptime : string -> option date.

(** X23. [clear all] leaves nothing to list. It empties the four files and
    returns 0, and then [list-subjects] finds no subject, [list-tasks],
    with whatever filters, no task, [review-due] no review, [report] no
    session, and [today] neither a review that is due nor a session; each
    of them returns 0 and changes no file. *)
Theorem clear_all_empties_every_listing (words : list string) (c : console) :
  exists c1,
    main strip lower int_of_str str_of_int isoformat strptime ["clear"; "all"]%string c =
      Returned 0 c1 /\
    disk c1 = no_files /\
    now c1 = now c /\
    screen c1 = screen c ++ [out_scheduler out_cleared_all] /\
    main strip lower int_of_str str_of_int isoformat strptime ["list-subjects"]%string c1 =
      Returned 0 (show c1 out_no_subjects) /\
    main strip lower int_of_str str_of_int isoformat strptime
         ("list-tasks" :: words)%string c1 =
      Returned 0 (show c1 (out_scheduler out_no_matching_tasks)) /\
    main strip lower int_of_str str_of_int isoformat strptime ["review-due"]%string c1 =
      Returned 0 (show c1 (out_scheduler out_no_reviews_scheduled)) /\
    main strip lower int_of_str str_of_int isoformat strptime ["report"]%string c1 =
      Returned 0 (show c1 out_no_sessions) /\
    main strip lower int_of_str str_of_int isoformat strptime ["today"]%string c1 =
      Returned 0 (mk_console no_files (now c)
                    (screen c1 ++ [out_reviews_due_today; out_none_due_today;
                                   out_minutes_today; out_no_study_today])).
Proof.
  exists (mk_console no_files (now c) (screen c ++ [out_scheduler out_cleared_all])).
  split; [reflexivity|]. split; [reflexivity|]. split; [reflexivity|].
  split; [reflexivity|]. unfold show. cbn [disk now screen].
  split.
  { dispatch. unfold cbind, cmd_list_subjects, cbind. rewrite scheduler_subjects_list.
    reflexivity. }
  split.
  { dispatch.
    destruct (list_tasks_options words None None) as [subj status].
    unfold cbind, scheduler. rewrite cmd_list_tasks_run.
    unfold tasks_in. cbn [disk fs TASKS_FILE no_files]. rewrite selected_tasks_none.
    reflexivity. }
  split.
  { dispatch. unfold cbind, scheduler. rewrite cmd_review_due_run. reflexivity. }
  split.
  { dispatch. reflexivity. }
  dispatch. unfold cbind, cmd_today, cbind, get_today, cprint.
  cbn [disk now screen]. rewrite scheduler_load_reviews.
  cbn [disk now screen REVIEWS_FILE no_files filter]. unfold cprint, get_disk.
  cbn [disk now screen SESSIONS_FILE no_files fold_left].
  now rewrite <- !app_assoc.
Qed.

End AfterClearAll.
